(** * Responsibility resolution core of responsibility-engine-ms

    A shallow embedding of the three computational components of the
    repository and the properties that its specification states about them:

    - [Rules]        src/core/rules.py        (class MatrizResponsabilidad)
    - [Negotiation]  src/core/negotiation.py  (class NegociadorResponsabilidad)
    - [Calculator]   src/core/calculator.py   (class CalculadorIndemnizacion)
    - [Engine]       src/core/engine.py       (steps 5 and 6 of
                                               MotorPrincipal.procesar_siniestro)

    Python floats are IEEE binary64 values, so they are embedded as Rocq's
    primitive floats, whose operations are the same correctly rounded ones.
    Python ints are unbounded and are embedded as [Z]: circumstances,
    percentages and counters are ints; confidences, weights and amounts of
    money are floats (an int given for one of them is converted by the first
    operation it meets).  A Python dict with a fixed set of string keys is a
    record whose fields are options ([None] when the key is absent); a dict
    keyed by ints is a [gmap Z _].  A call returns a value or raises; the
    one [while] loop is embedded with fuel and shown never to exhaust it.
    Logging is the only side effect of the three classes and is left out. *)

From Stdlib Require Import ZArith Floats Lia.
From stdpp Require Import gmap strings list pretty.

Set Warnings "-inexact-float".
Open Scope Z_scope.

(** ** The fragment of the Python runtime the code relies on *)

Module Py.

(** The built-in exceptions the modelled code can raise. *)
Inductive exc : Type :=
| KeyError (key : string)
| IndexError
| ValueError
| OverflowError.

(** A computation returns, raises, or (for the embedding of a [while] loop
    only) runs out of fuel. *)
Inductive comp (A : Type) : Type :=
| Ok (a : A)
| Raise (e : exc)
| OutOfFuel.
Arguments Ok {A} a.
Arguments Raise {A} e.
Arguments OutOfFuel {A}.

Definition bind {A B : Type} (m : comp A) (k : A -> comp B) : comp B :=
  match m with
  | Ok a => k a
  | Raise e => Raise e
  | OutOfFuel => OutOfFuel
  end.

(** [d[key]] on a dict whose key may be absent. *)
Definition getitem {A : Type} (key : string) (field : option A) : comp A :=
  match field with
  | Some v => Ok v
  | None => Raise (KeyError key)
  end.

(** [l[i]] on a list, negative indices counting from the end. *)
Definition index {A : Type} (l : list A) (i : Z) : comp A :=
  let n := Z.of_nat (length l) in
  let j := if i <? 0 then i + n else i in
  if (0 <=? j) && (j <? n) then
    match l !! Z.to_nat j with
    | Some x => Ok x
    | None => Raise IndexError
    end
  else Raise IndexError.

(** The float nearest to an int (ties to even); too large an int becomes
    an infinity here and an OverflowError in [float_of_int]. *)
Definition Z2float (z : Z) : float :=
  SF2Prim (binary_normalize prec emax z 0 false).

(** The implicit conversion of an int operand in mixed arithmetic. *)
Definition float_of_int (z : Z) : comp float :=
  let f := Z2float z in
  if is_infinity f then Raise OverflowError else Ok f.

(** Quotient of [num / den] ([den > 0]) rounded to the nearest integer,
    ties to the even one. *)
Definition div_half_even (num den : Z) : Z :=
  let q := num / den in
  let r := num mod den in
  if 2 * r <? den then q
  else if den <? 2 * r then q + 1
  else if Z.even q then q else q + 1.

(** [round(x)] of a float: an int, ties to even; ValueError on NaN and
    OverflowError on an infinity. *)
Definition round (x : float) : comp Z :=
  match Prim2SF x with
  | S754_nan => Raise ValueError
  | S754_infinity _ => Raise OverflowError
  | S754_zero _ => Ok 0
  | S754_finite s m e =>
      let n := if 0 <=? e then Z.pos m * 2 ^ e
               else div_half_even (Z.pos m) (2 ^ (- e)) in
      Ok (if s then - n else n)
  end.

(** [round(x, 2)] of a float: the float nearest to the exact value of [x]
    rounded (ties to even) to two decimals; NaN, infinities, zeros and
    integral values are returned unchanged. *)
Definition round2 (x : float) : float :=
  match Prim2SF x with
  | S754_finite s m e =>
      if 0 <=? e then x
      else
        match div_half_even (Z.pos m * 100) (2 ^ (- e)) with
        | Z.pos p =>
            SF2Prim (SFdiv prec emax (S754_finite s p 0)
                                     (S754_finite false 100 0))
        | _ => if s then (-0)%float else 0%float
        end
  | _ => x
  end.

(** [n <= x] for an int [n] and a float [x]; Python compares the two
    exactly, without converting the int. *)
Definition int_le_float (n : Z) (x : float) : bool :=
  match Prim2SF x with
  | S754_nan => false
  | S754_infinity s => negb s
  | S754_zero _ => n <=? 0
  | S754_finite s m e =>
      let v := if s then Z.neg m else Z.pos m in
      if 0 <=? e then n <=? v * 2 ^ e
      else n * 2 ^ (- e) <=? v
  end.

(** [max(a, b)] on floats: the first argument unless the second is
    strictly greater. *)
Definition max (a b : float) : float :=
  if (a <? b)%float then b else a.

End Py.

Import Py.

Notation "x <- m ;; k" := (Py.bind m (fun x => k))
  (at level 100, m at next level, right associativity).

(** ** The result of a responsibility determination

    The dict returned by [determinar_responsabilidad] and by [negociar] and
    consumed by [calcular_indemnizacion]; each producer sets a subset of the
    keys. *)

Module Resp.
Record t : Type := mk {
  responsable : option string;
  porcentaje_a : option Z;
  porcentaje_b : option Z;
  justificacion : option string;
  mensaje : option string;
  codigo_matriz : option string;
  iteraciones : option Z;
  convergio : option bool
}.
End Resp.

(** The fifteen circumstance descriptions; rules.py and negotiation.py each
    hold a copy of this dict. *)
Definition descripciones : gmap Z string :=
  list_to_map
    [ (1, "Conduciendo en sentido contrario");
      (2, "Invadiendo carril");
      (3, "Haciendo giro indebido");
      (4, "No respetando señal de pare");
      (5, "Excediendo límite de velocidad");
      (6, "No guardando distancia");
      (7, "En retroceso");
      (8, "No cediendo el paso");
      (9, "Cambiando de carril");
      (10, "Adelantamiento indebido");
      (11, "Saliendo de estacionamiento");
      (12, "No respetando semáforo");
      (13, "Estado de embriaguez");
      (14, "Falla mecánica");
      (15, "Víctima de las circunstancias") ].

(** ** src/core/rules.py *)

Module Rules.

Definition matriz : list (list string) :=
  [ ["NA"; "B"; "A"; "B"; "B"; "A"; "NA"; "B"; "B"; "NA"; "NA"; "B"; "B"; "A"; "B"];
    ["A"; "NA"; "A"; "B"; "NA"; "A"; "NA"; "B"; "NA"; "A"; "A"; "A"; "NA"; "A"; "A"];
    ["B"; "B"; "NA"; "B"; "NA"; "B"; "NA"; "B"; "B"; "B"; "B"; "B"; "B"; "B"; "NA"];
    ["A"; "A"; "A"; "C"; "C"; "A"; "A"; "B"; "B"; "A"; "A"; "A"; "B"; "A"; "B"];
    ["A"; "NA"; "NA"; "C"; "C"; "A"; "NA"; "C"; "NA"; "A"; "A"; "A"; "B"; "NA"; "A"];
    ["B"; "B"; "A"; "B"; "B"; "NA"; "NA"; "B"; "C"; "B"; "B"; "B"; "B"; "A"; "A"];
    ["NA"; "NA"; "NA"; "B"; "NA"; "NA"; "NA"; "NA"; "NA"; "NA"; "NA"; "NA"; "NA"; "NA"; "A"];
    ["A"; "A"; "A"; "A"; "C"; "A"; "NA"; "C"; "A"; "A"; "A"; "A"; "B"; "A"; "A"];
    ["A"; "NA"; "A"; "A"; "NA"; "C"; "NA"; "B"; "C"; "A"; "A"; "A"; "B"; "C"; "A"];
    ["NA"; "B"; "A"; "B"; "B"; "A"; "NA"; "B"; "B"; "C"; "C"; "A"; "B"; "A"; "A"];
    ["NA"; "B"; "A"; "B"; "B"; "A"; "NA"; "B"; "B"; "C"; "NA"; "A"; "B"; "A"; "A"];
    ["A"; "B"; "A"; "B"; "B"; "A"; "NA"; "B"; "B"; "B"; "B"; "NA"; "B"; "A"; "A"];
    ["A"; "NA"; "A"; "A"; "A"; "A"; "NA"; "A"; "A"; "A"; "A"; "A"; "NA"; "A"; "A"];
    ["B"; "B"; "A"; "B"; "NA"; "B"; "NA"; "B"; "C"; "B"; "B"; "B"; "B"; "C"; "A"];
    ["B"; "B"; "NA"; "A"; "B"; "B"; "B"; "B"; "B"; "B"; "B"; "B"; "B"; "B"; "NA"] ].

Definition _obtener_info_circunstancias (circunstancia_a circunstancia_b : Z)
  : string * string :=
  ( default ("Circunstancia desconocida (" +:+ pretty circunstancia_a +:+ ")")
            (descripciones !! circunstancia_a),
    default ("Circunstancia desconocida (" +:+ pretty circunstancia_b +:+ ")")
            (descripciones !! circunstancia_b) ).

Definition _interpretar_codigo
    (codigo : string) (circunstancia_a circunstancia_b : Z) : Resp.t :=
  let info_circunstancias :=
    _obtener_info_circunstancias circunstancia_a circunstancia_b in
  if String.eqb codigo "A" then
    {| Resp.responsable := Some "vehiculo_a";
       Resp.porcentaje_a := Some 100;
       Resp.porcentaje_b := Some 0;
       Resp.justificacion :=
         Some ("El vehículo A es responsable por: " +:+ info_circunstancias.1);
       Resp.mensaje := None;
       Resp.codigo_matriz := Some "A";
       Resp.iteraciones := None;
       Resp.convergio := None |}
  else if String.eqb codigo "B" then
    {| Resp.responsable := Some "vehiculo_b";
       Resp.porcentaje_a := Some 0;
       Resp.porcentaje_b := Some 100;
       Resp.justificacion :=
         Some ("El vehículo B es responsable por: " +:+ info_circunstancias.2);
       Resp.mensaje := None;
       Resp.codigo_matriz := Some "B";
       Resp.iteraciones := None;
       Resp.convergio := None |}
  else if String.eqb codigo "C" then
    {| Resp.responsable := Some "compartida";
       Resp.porcentaje_a := Some 50;
       Resp.porcentaje_b := Some 50;
       Resp.justificacion :=
         Some ("Responsabilidad compartida: Vehículo A ("
               +:+ info_circunstancias.1 +:+ ") y Vehículo B ("
               +:+ info_circunstancias.2 +:+ ")");
       Resp.mensaje := None;
       Resp.codigo_matriz := Some "C";
       Resp.iteraciones := None;
       Resp.convergio := None |}
  else if String.eqb codigo "NA" then
    {| Resp.responsable := Some "no_aplica";
       Resp.porcentaje_a := None;
       Resp.porcentaje_b := None;
       Resp.justificacion := None;
       Resp.mensaje :=
         Some "No es posible determinar responsabilidad bajo estas circunstancias";
       Resp.codigo_matriz := Some "NA";
       Resp.iteraciones := None;
       Resp.convergio := None |}
  else if String.eqb codigo "NRD" then
    {| Resp.responsable := Some "indeterminado";
       Resp.porcentaje_a := None;
       Resp.porcentaje_b := None;
       Resp.justificacion := None;
       Resp.mensaje :=
         Some "Se requiere información adicional para determinar responsabilidad";
       Resp.codigo_matriz := Some "NRD";
       Resp.iteraciones := None;
       Resp.convergio := None |}
  else
    {| Resp.responsable := Some "error";
       Resp.porcentaje_a := None;
       Resp.porcentaje_b := None;
       Resp.justificacion := None;
       Resp.mensaje := Some ("Código desconocido en la matriz: " +:+ codigo);
       Resp.codigo_matriz := Some codigo;
       Resp.iteraciones := None;
       Resp.convergio := None |}.

Definition determinar_responsabilidad (circunstancia_a circunstancia_b : Z)
  : comp Resp.t :=
  if negb ((1 <=? circunstancia_a) && (circunstancia_a <=? 15)
           && ((1 <=? circunstancia_b) && (circunstancia_b <=? 15))) then
    Ok {| Resp.responsable := Some "error";
          Resp.porcentaje_a := None;
          Resp.porcentaje_b := None;
          Resp.justificacion := None;
          Resp.mensaje := Some "Las circunstancias deben estar entre 1 y 15";
          Resp.codigo_matriz := None;
          Resp.iteraciones := None;
          Resp.convergio := None |}
  else
    fila <- Py.index matriz (circunstancia_a - 1) ;;
    codigo <- Py.index fila (circunstancia_b - 1) ;;
    Ok (_interpretar_codigo codigo circunstancia_a circunstancia_b).

End Rules.

(** ** src/core/negotiation.py *)

(** The [analisis] dict of a processed evidence and the [clasificacion] dict
    of a processed document carry the same two keys. *)
Module Analisis.
Record t : Type := mk {
  responsabilidad_sugerida : option string;
  confianza : option float
}.
(** The empty dict [{}], the default of [.get("analisis", {})]. *)
Definition vacio : t := mk None None.
End Analisis.

Module Evidencia.
Record t : Type := mk {
  procesada : option bool;
  analisis : option Analisis.t
}.
End Evidencia.

Module Documento.
Record t : Type := mk {
  clasificacion : option Analisis.t
}.
End Documento.

(** The dict [{"porcentaje_a": _, "porcentaje_b": _}] the loop carries. *)
Module Dist.
Record t : Type := mk {
  porcentaje_a : Z;
  porcentaje_b : Z
}.
End Dist.

Module PesoEvidencias.
Record t : Type := mk {
  peso_a : float;
  peso_b : float;
  total_evidencias : Z
}.
End PesoEvidencias.

Module PesoDocumentos.
Record t : Type := mk {
  peso_a : float;
  peso_b : float;
  total_documentos : Z
}.
End PesoDocumentos.

(** The local variables of [negociar] that its [while] loop updates. *)
Module Estado.
Record t : Type := mk {
  distribucion_actual : Dist.t;
  iteracion : Z
}.
End Estado.

Module Negotiation.

Definition max_iteraciones : Z := 5.
Definition umbral_convergencia : float := 0.05%float.

Definition pesos : gmap Z float :=
  list_to_map
    [ (1, 9.5%float); (2, 8.0%float); (3, 7.5%float); (4, 9.0%float);
      (5, 8.5%float); (6, 7.0%float); (7, 6.5%float); (8, 7.5%float);
      (9, 6.0%float); (10, 7.0%float); (11, 6.0%float); (12, 9.0%float);
      (13, 10.0%float); (14, 5.0%float); (15, 2.0%float) ].

(** The closing adjustment shared by the seed and by every iteration:
    [if a + b != 100: a += 100 - (a + b)]. *)
Definition ajustar_suma (porcentaje_a porcentaje_b : Z) : Dist.t :=
  if negb (porcentaje_a + porcentaje_b =? 100) then
    let diferencia := 100 - (porcentaje_a + porcentaje_b) in
    Dist.mk (porcentaje_a + diferencia) porcentaje_b
  else Dist.mk porcentaje_a porcentaje_b.

(** In both functions below the division is reached only under the guard
    [total > 0], so the divisor is never zero. *)
Definition _distribucion_inicial (circunstancia_a circunstancia_b : Z)
  : comp Dist.t :=
  let peso_a := default 5.0%float (pesos !! circunstancia_a) in
  let peso_b := default 5.0%float (pesos !! circunstancia_b) in
  let total_peso := (peso_a + peso_b)%float in
  if (0 <? total_peso)%float then
    porcentaje_a <- Py.round ((peso_b / total_peso) * 100)%float ;;
    porcentaje_b <- Py.round ((peso_a / total_peso) * 100)%float ;;
    Ok (ajustar_suma porcentaje_a porcentaje_b)
  else
    Ok (ajustar_suma 50 50).

(** Body of the [for] loop of [_calcular_peso_evidencias] on the
    accumulators [(peso_a, peso_b, total_evidencias)]. *)
Definition acumular_evidencia
    (acc : float * float * Z) (evidencia : Evidencia.t) : float * float * Z :=
  let '(peso_a, peso_b, total_evidencias) := acc in
  if negb (default false (Evidencia.procesada evidencia)) then acc
  else
    let total_evidencias := total_evidencias + 1 in
    let analisis := default Analisis.vacio (Evidencia.analisis evidencia) in
    match Analisis.responsabilidad_sugerida analisis with
    | Some sugerida =>
        let confianza := default 0.5%float (Analisis.confianza analisis) in
        if String.eqb sugerida "vehiculo_a" then
          (peso_a, (peso_b + confianza)%float, total_evidencias)
        else if String.eqb sugerida "vehiculo_b" then
          ((peso_a + confianza)%float, peso_b, total_evidencias)
        else if String.eqb sugerida "compartida" then
          ((peso_a + confianza * 0.5)%float,
           (peso_b + confianza * 0.5)%float, total_evidencias)
        else (peso_a, peso_b, total_evidencias)
    | None => (peso_a, peso_b, total_evidencias)
    end.

Definition _calcular_peso_evidencias (evidencias : list Evidencia.t)
  : comp PesoEvidencias.t :=
  let '(peso_a, peso_b, total_evidencias) :=
    fold_left acumular_evidencia evidencias (0.0%float, 0.0%float, 0) in
  if 0 <? total_evidencias then
    n <- Py.float_of_int total_evidencias ;;
    Ok (PesoEvidencias.mk (peso_a / n) (peso_b / n) total_evidencias)
  else
    Ok (PesoEvidencias.mk peso_a peso_b total_evidencias).

(** Body of the [for] loop of [_calcular_peso_documentos]. *)
Definition acumular_documento
    (acc : float * float * Z) (documento : Documento.t) : float * float * Z :=
  let '(peso_a, peso_b, total_documentos) := acc in
  let clasificacion :=
    default Analisis.vacio (Documento.clasificacion documento) in
  let confianza := default 0.5%float (Analisis.confianza clasificacion) in
  if (confianza <? 0.3)%float then acc
  else
    let total_documentos := total_documentos + 1 in
    match Analisis.responsabilidad_sugerida clasificacion with
    | Some sugerida =>
        if String.eqb sugerida "vehiculo_a" then
          (peso_a, (peso_b + confianza)%float, total_documentos)
        else if String.eqb sugerida "vehiculo_b" then
          ((peso_a + confianza)%float, peso_b, total_documentos)
        else if String.eqb sugerida "compartida" then
          ((peso_a + confianza * 0.5)%float,
           (peso_b + confianza * 0.5)%float, total_documentos)
        else (peso_a, peso_b, total_documentos)
    | None => (peso_a, peso_b, total_documentos)
    end.

Definition _calcular_peso_documentos (documentos : list Documento.t)
  : comp PesoDocumentos.t :=
  let '(peso_a, peso_b, total_documentos) :=
    fold_left acumular_documento documentos (0.0%float, 0.0%float, 0) in
  if 0 <? total_documentos then
    n <- Py.float_of_int total_documentos ;;
    Ok (PesoDocumentos.mk (peso_a / n) (peso_b / n) total_documentos)
  else
    Ok (PesoDocumentos.mk peso_a peso_b total_documentos).

Definition factor_evidencias : float := 0.3%float.
Definition factor_documentos : float := 0.2%float.
Definition factor_distribucion_actual : float :=
  (1.0 - factor_evidencias - factor_documentos)%float.

Definition _ajustar_distribucion
    (distribucion : Dist.t)
    (peso_evidencias : PesoEvidencias.t)
    (peso_documentos : PesoDocumentos.t) : comp Dist.t :=
  dist_a <- Py.float_of_int (Dist.porcentaje_a distribucion) ;;
  let porcentaje_a :=
    (dist_a * factor_distribucion_actual
     + PesoEvidencias.peso_a peso_evidencias * 100 * factor_evidencias
     + PesoDocumentos.peso_a peso_documentos * 100 * factor_documentos)%float in
  dist_b <- Py.float_of_int (Dist.porcentaje_b distribucion) ;;
  let porcentaje_b :=
    (dist_b * factor_distribucion_actual
     + PesoEvidencias.peso_b peso_evidencias * 100 * factor_evidencias
     + PesoDocumentos.peso_b peso_documentos * 100 * factor_documentos)%float in
  let total := (porcentaje_a + porcentaje_b)%float in
  if (0 <? total)%float then
    porcentaje_a <- Py.round ((porcentaje_a / total) * 100)%float ;;
    porcentaje_b <- Py.round ((porcentaje_b / total) * 100)%float ;;
    Ok (ajustar_suma porcentaje_a porcentaje_b)
  else
    Ok (ajustar_suma 50 50).

Definition _converge (anterior actual : Dist.t) : bool :=
  let diferencia :=
    Z.abs (Dist.porcentaje_a anterior - Dist.porcentaje_a actual) in
  Py.int_le_float diferencia umbral_convergencia.

Definition _generar_justificacion
    (distribucion : Dist.t) (circunstancia_a circunstancia_b : Z)
    (peso_evidencias : PesoEvidencias.t)
    (peso_documentos : PesoDocumentos.t) : string :=
  let desc_a := default ("Circunstancia " +:+ pretty circunstancia_a)
                        (descripciones !! circunstancia_a) in
  let desc_b := default ("Circunstancia " +:+ pretty circunstancia_b)
                        (descripciones !! circunstancia_b) in
  let pa := Dist.porcentaje_a distribucion in
  let pb := Dist.porcentaje_b distribucion in
  let justificacion :=
    "Responsabilidad determinada mediante algoritmo de negociación. " in
  let justificacion :=
    if pb <? pa then
      justificacion
      +:+ "El vehículo A tiene mayor responsabilidad (" +:+ pretty pa +:+ "%) "
      +:+ "por " +:+ desc_a +:+ ", mientras que el vehículo B tiene "
      +:+ pretty pb +:+ "% "
      +:+ "por " +:+ desc_b +:+ "."
    else if pa <? pb then
      justificacion
      +:+ "El vehículo B tiene mayor responsabilidad (" +:+ pretty pb +:+ "%) "
      +:+ "por " +:+ desc_b +:+ ", mientras que el vehículo A tiene "
      +:+ pretty pa +:+ "% "
      +:+ "por " +:+ desc_a +:+ "."
    else
      justificacion
      +:+ "Ambos vehículos comparten responsabilidad equitativamente (50% cada uno). "
      +:+ "El vehículo A por " +:+ desc_a +:+ " y el vehículo B por "
      +:+ desc_b +:+ "." in
  let n_ev := PesoEvidencias.total_evidencias peso_evidencias in
  let n_doc := PesoDocumentos.total_documentos peso_documentos in
  if 0 <? n_ev then
    let justificacion :=
      justificacion +:+ " El análisis se basó en " +:+ pretty n_ev
      +:+ " evidencias visuales" in
    if 0 <? n_doc then
      justificacion +:+ " y " +:+ pretty n_doc +:+ " documentos."
    else justificacion +:+ "."
  else if 0 <? n_doc then
    justificacion +:+ " El análisis se basó en " +:+ pretty n_doc
    +:+ " documentos."
  else justificacion.

(** The [while iteracion < self.max_iteraciones] loop of [negociar], with
    its [break] on convergence.  Each unit of fuel pays for one evaluation
    of the loop condition. *)
Fixpoint bucle_negociacion
    (fuel : nat)
    (peso_evidencias : PesoEvidencias.t)
    (peso_documentos : PesoDocumentos.t)
    (s : Estado.t) : comp Estado.t :=
  match fuel with
  | O => OutOfFuel
  | S fuel' =>
      if Estado.iteracion s <? max_iteraciones then
        let distribucion_anterior := Estado.distribucion_actual s in
        distribucion_actual <-
          _ajustar_distribucion (Estado.distribucion_actual s)
                                peso_evidencias peso_documentos ;;
        if _converge distribucion_anterior distribucion_actual then
          Ok (Estado.mk distribucion_actual (Estado.iteracion s))
        else
          bucle_negociacion fuel' peso_evidencias peso_documentos
            (Estado.mk distribucion_actual (Estado.iteracion s + 1))
      else Ok s
  end.

(** The loop condition is evaluated at most [max_iteraciones + 1] times. *)
Definition fuel_negociacion : nat := S (Z.to_nat max_iteraciones).

Definition negociar
    (circunstancia_a circunstancia_b : Z)
    (documentos : list Documento.t)
    (evidencias : list Evidencia.t) : comp Resp.t :=
  distribucion_actual <- _distribucion_inicial circunstancia_a circunstancia_b ;;
  peso_evidencias <- _calcular_peso_evidencias evidencias ;;
  peso_documentos <- _calcular_peso_documentos documentos ;;
  final <- bucle_negociacion fuel_negociacion peso_evidencias peso_documentos
             (Estado.mk distribucion_actual 0) ;;
  let distribucion_actual := Estado.distribucion_actual final in
  let iteracion := Estado.iteracion final in
  let responsable :=
    if 90 <=? Dist.porcentaje_a distribucion_actual then "vehiculo_a"
    else if 90 <=? Dist.porcentaje_b distribucion_actual then "vehiculo_b"
    else "compartida" in
  Ok {| Resp.responsable := Some responsable;
        Resp.porcentaje_a := Some (Dist.porcentaje_a distribucion_actual);
        Resp.porcentaje_b := Some (Dist.porcentaje_b distribucion_actual);
        Resp.justificacion :=
          Some (_generar_justificacion distribucion_actual
                  circunstancia_a circunstancia_b
                  peso_evidencias peso_documentos);
        Resp.mensaje := None;
        Resp.codigo_matriz := None;
        Resp.iteraciones := Some iteracion;
        Resp.convergio := Some (iteracion <? max_iteraciones) |}.

End Negotiation.

(** ** src/core/calculator.py *)

Module Poliza.
Record t : Type := mk {
  tipo_cobertura : option string;
  deducible_porcentaje : option float;
  deducible_minimo : option float
}.
End Poliza.

(** [danos] is [{"vehiculo_a": {"monto": _}, "vehiculo_b": {"monto": _}}];
    either level may be missing. *)
Module Danos.
Record vehiculo : Type := mk_vehiculo { monto : option float }.
Record t : Type := mk {
  vehiculo_a : option vehiculo;
  vehiculo_b : option vehiculo
}.
Definition sin_monto : vehiculo := mk_vehiculo None.
End Danos.

Module Indemnizacion.
Record t : Type := mk {
  pagador : string;
  receptor : string;
  monto_bruto : float;
  deducible : float;
  monto_neto : float;
  moneda : string;
  factor_cobertura : float
}.
End Indemnizacion.

Module Resumen.
Record t : Type := mk {
  total_danos_a : float;
  total_danos_b : float;
  porcentaje_responsabilidad_a : Z;
  porcentaje_responsabilidad_b : Z
}.
End Resumen.

Module Resultado.
Record t : Type := mk {
  indemnizaciones : list Indemnizacion.t;
  resumen : Resumen.t
}.
End Resultado.

Module Calculator.

Definition _calcular_factor_cobertura (poliza : Poliza.t) : float :=
  let tipo_cobertura := default "basica" (Poliza.tipo_cobertura poliza) in
  if String.eqb tipo_cobertura "premium" then 1.0%float
  else if String.eqb tipo_cobertura "estandar" then 0.9%float
  else if String.eqb tipo_cobertura "basica" then 0.8%float
  else 0.7%float.

Definition _calcular_deducible (poliza : Poliza.t) (monto : float) : float :=
  let deducible_porcentaje :=
    default 0%float (Poliza.deducible_porcentaje poliza) in
  let deducible_minimo := default 0%float (Poliza.deducible_minimo poliza) in
  let deducible_calculado := (monto * (deducible_porcentaje / 100.0))%float in
  Py.max deducible_calculado deducible_minimo.

(** The first statement of the function formats
    [responsabilidad['responsable']] into a log line, so that key is
    required; the percentages are read with [.get(_, 0)]. *)
Definition calcular_indemnizacion
    (responsabilidad : Resp.t) (poliza_a poliza_b : Poliza.t)
    (danos : Danos.t) : comp Resultado.t :=
  _ <- Py.getitem "responsable" (Resp.responsable responsabilidad) ;;
  let porcentaje_a := default 0 (Resp.porcentaje_a responsabilidad) in
  let porcentaje_b := default 0 (Resp.porcentaje_b responsabilidad) in
  let danos_a :=
    default 0%float
      (Danos.monto (default Danos.sin_monto (Danos.vehiculo_a danos))) in
  let danos_b :=
    default 0%float
      (Danos.monto (default Danos.sin_monto (Danos.vehiculo_b danos))) in
  let factor_cobertura_a := _calcular_factor_cobertura poliza_a in
  let factor_cobertura_b := _calcular_factor_cobertura poliza_b in
  pct_a <- Py.float_of_int porcentaje_a ;;
  let indemnizacion_a_b :=
    ((pct_a / 100.0) * danos_b * factor_cobertura_a)%float in
  pct_b <- Py.float_of_int porcentaje_b ;;
  let indemnizacion_b_a :=
    ((pct_b / 100.0) * danos_a * factor_cobertura_b)%float in
  let deducible_a := _calcular_deducible poliza_a indemnizacion_b_a in
  let deducible_b := _calcular_deducible poliza_b indemnizacion_a_b in
  let indemnizacion_neta_a :=
    Py.max 0%float (indemnizacion_b_a - deducible_a)%float in
  let indemnizacion_neta_b :=
    Py.max 0%float (indemnizacion_a_b - deducible_b)%float in
  Ok {| Resultado.indemnizaciones :=
          [ {| Indemnizacion.pagador := "vehiculo_a";
               Indemnizacion.receptor := "vehiculo_b";
               Indemnizacion.monto_bruto := Py.round2 indemnizacion_a_b;
               Indemnizacion.deducible := Py.round2 deducible_b;
               Indemnizacion.monto_neto := Py.round2 indemnizacion_neta_b;
               Indemnizacion.moneda := "COP";
               Indemnizacion.factor_cobertura := factor_cobertura_a |};
            {| Indemnizacion.pagador := "vehiculo_b";
               Indemnizacion.receptor := "vehiculo_a";
               Indemnizacion.monto_bruto := Py.round2 indemnizacion_b_a;
               Indemnizacion.deducible := Py.round2 deducible_a;
               Indemnizacion.monto_neto := Py.round2 indemnizacion_neta_a;
               Indemnizacion.moneda := "COP";
               Indemnizacion.factor_cobertura := factor_cobertura_b |} ];
        Resultado.resumen :=
          {| Resumen.total_danos_a := Py.round2 danos_a;
             Resumen.total_danos_b := Py.round2 danos_b;
             Resumen.porcentaje_responsabilidad_a := porcentaje_a;
             Resumen.porcentaje_responsabilidad_b := porcentaje_b |} |}.

End Calculator.

(** ** src/core/engine.py: steps 5 and 6 of [procesar_siniestro]

    The circumstances, documents and evidences come from collaborators
    outside the core and are taken as arguments. *)

Module Engine.

(** Step 5: the negotiator when the claim is disputed, the matrix
    otherwise. *)
Definition determinar_responsabilidad_siniestro
    (disputa : bool) (circunstancia_a circunstancia_b : Z)
    (documentos_procesados : list Documento.t)
    (evidencias_procesadas : list Evidencia.t) : comp Resp.t :=
  if disputa then
    Negotiation.negociar circunstancia_a circunstancia_b
      documentos_procesados evidencias_procesadas
  else
    Rules.determinar_responsabilidad circunstancia_a circunstancia_b.

(** Step 6: [indemnizacion] stays [None] unless the result applies. *)
Definition calcular_indemnizacion_siniestro
    (resultado_responsabilidad : Resp.t) (poliza_a poliza_b : Poliza.t)
    (danos : Danos.t) : comp (option Resultado.t) :=
  responsable <-
    Py.getitem "responsable" (Resp.responsable resultado_responsabilidad) ;;
  if negb (existsb (String.eqb responsable) ["no_aplica"; "indeterminado"]) then
    indemnizacion <-
      Calculator.calcular_indemnizacion
        resultado_responsabilidad poliza_a poliza_b danos ;;
    Ok (Some indemnizacion)
  else Ok None.

End Engine.

(** ** src/core/engine.py: [_procesar_evidencia]

    The verdict of the image validator and the output of the damage
    detector come from collaborators outside the core and are taken as
    arguments; of the dict returned, the keys that the negotiation reads. *)

Module Procesamiento.

Definition _procesar_evidencia
    (tipo : option string) (valida : bool) (danos_detectados : Analisis.t)
  : Evidencia.t :=
  let tipo := default "desconocido" tipo in
  if negb valida then
    Evidencia.mk (Some false) None
  else
    let analisis :=
      if String.eqb tipo "foto" then danos_detectados else Analisis.vacio in
    Evidencia.mk (Some true) (Some analisis).

End Procesamiento.

(** ** src/ai/ml/responsibility_model.py

    The prediction model holds a copy of the matrix and an interpreter of
    its own, whose dict also carries the two circumstances. *)

Module Prediccion.
Record t : Type := mk {
  responsable : option string;
  porcentaje_a : option Z;
  porcentaje_b : option Z;
  justificacion : option string;
  mensaje : option string;
  codigo_matriz : option string;
  circunstancia_a : option Z;
  circunstancia_b : option Z
}.
End Prediccion.

Module Model.

Definition matriz : list (list string) :=
  [ ["NA"; "B"; "A"; "B"; "B"; "A"; "NA"; "B"; "B"; "NA"; "NA"; "B"; "B"; "A"; "B"];
    ["A"; "NA"; "A"; "B"; "NA"; "A"; "NA"; "B"; "NA"; "A"; "A"; "A"; "NA"; "A"; "A"];
    ["B"; "B"; "NA"; "B"; "NA"; "B"; "NA"; "B"; "B"; "B"; "B"; "B"; "B"; "B"; "NA"];
    ["A"; "A"; "A"; "C"; "C"; "A"; "A"; "B"; "B"; "A"; "A"; "A"; "B"; "A"; "B"];
    ["A"; "NA"; "NA"; "C"; "C"; "A"; "NA"; "C"; "NA"; "A"; "A"; "A"; "B"; "NA"; "A"];
    ["B"; "B"; "A"; "B"; "B"; "NA"; "NA"; "B"; "C"; "B"; "B"; "B"; "B"; "A"; "A"];
    ["NA"; "NA"; "NA"; "B"; "NA"; "NA"; "NA"; "NA"; "NA"; "NA"; "NA"; "NA"; "NA"; "NA"; "A"];
    ["A"; "A"; "A"; "A"; "C"; "A"; "NA"; "C"; "A"; "A"; "A"; "A"; "B"; "A"; "A"];
    ["A"; "NA"; "A"; "A"; "NA"; "C"; "NA"; "B"; "C"; "A"; "A"; "A"; "B"; "C"; "A"];
    ["NA"; "B"; "A"; "B"; "B"; "A"; "NA"; "B"; "B"; "C"; "C"; "A"; "B"; "A"; "A"];
    ["NA"; "B"; "A"; "B"; "B"; "A"; "NA"; "B"; "B"; "C"; "NA"; "A"; "B"; "A"; "A"];
    ["A"; "B"; "A"; "B"; "B"; "A"; "NA"; "B"; "B"; "B"; "B"; "NA"; "B"; "A"; "A"];
    ["A"; "NA"; "A"; "A"; "A"; "A"; "NA"; "A"; "A"; "A"; "A"; "A"; "NA"; "A"; "A"];
    ["B"; "B"; "A"; "B"; "NA"; "B"; "NA"; "B"; "C"; "B"; "B"; "B"; "B"; "C"; "A"];
    ["B"; "B"; "NA"; "A"; "B"; "B"; "B"; "B"; "B"; "B"; "B"; "B"; "B"; "B"; "NA"] ].

Definition _interpretar_codigo
    (codigo : string) (circunstancia_a circunstancia_b : Z) : Prediccion.t :=
  let desc_a := default ("Circunstancia " +:+ pretty circunstancia_a)
                        (descripciones !! circunstancia_a) in
  let desc_b := default ("Circunstancia " +:+ pretty circunstancia_b)
                        (descripciones !! circunstancia_b) in
  if String.eqb codigo "A" then
    {| Prediccion.responsable := Some "vehiculo_a";
       Prediccion.porcentaje_a := Some 100;
       Prediccion.porcentaje_b := Some 0;
       Prediccion.justificacion :=
         Some ("El vehículo A es responsable por: " +:+ desc_a);
       Prediccion.mensaje := None;
       Prediccion.codigo_matriz := Some "A";
       Prediccion.circunstancia_a := Some circunstancia_a;
       Prediccion.circunstancia_b := Some circunstancia_b |}
  else if String.eqb codigo "B" then
    {| Prediccion.responsable := Some "vehiculo_b";
       Prediccion.porcentaje_a := Some 0;
       Prediccion.porcentaje_b := Some 100;
       Prediccion.justificacion :=
         Some ("El vehículo B es responsable por: " +:+ desc_b);
       Prediccion.mensaje := None;
       Prediccion.codigo_matriz := Some "B";
       Prediccion.circunstancia_a := Some circunstancia_a;
       Prediccion.circunstancia_b := Some circunstancia_b |}
  else if String.eqb codigo "C" then
    {| Prediccion.responsable := Some "compartida";
       Prediccion.porcentaje_a := Some 50;
       Prediccion.porcentaje_b := Some 50;
       Prediccion.justificacion :=
         Some ("Responsabilidad compartida: Vehículo A ("
               +:+ desc_a +:+ ") y Vehículo B (" +:+ desc_b +:+ ")");
       Prediccion.mensaje := None;
       Prediccion.codigo_matriz := Some "C";
       Prediccion.circunstancia_a := Some circunstancia_a;
       Prediccion.circunstancia_b := Some circunstancia_b |}
  else if String.eqb codigo "NA" then
    {| Prediccion.responsable := Some "no_aplica";
       Prediccion.porcentaje_a := None;
       Prediccion.porcentaje_b := None;
       Prediccion.justificacion := None;
       Prediccion.mensaje :=
         Some "No es posible determinar responsabilidad bajo estas circunstancias";
       Prediccion.codigo_matriz := Some "NA";
       Prediccion.circunstancia_a := Some circunstancia_a;
       Prediccion.circunstancia_b := Some circunstancia_b |}
  else if String.eqb codigo "NRD" then
    {| Prediccion.responsable := Some "indeterminado";
       Prediccion.porcentaje_a := None;
       Prediccion.porcentaje_b := None;
       Prediccion.justificacion := None;
       Prediccion.mensaje :=
         Some "Se requiere información adicional para determinar responsabilidad";
       Prediccion.codigo_matriz := Some "NRD";
       Prediccion.circunstancia_a := Some circunstancia_a;
       Prediccion.circunstancia_b := Some circunstancia_b |}
  else
    {| Prediccion.responsable := Some "error";
       Prediccion.porcentaje_a := None;
       Prediccion.porcentaje_b := None;
       Prediccion.justificacion := None;
       Prediccion.mensaje := Some ("Código desconocido en la matriz: " +:+ codigo);
       Prediccion.codigo_matriz := Some codigo;
       Prediccion.circunstancia_a := Some circunstancia_a;
       Prediccion.circunstancia_b := Some circunstancia_b |}.

End Model.

(** ** Vocabulary of the statements *)

(** [resuelve c kind pa pb]: the call returned a dict whose [responsable] is
    [kind] and whose percentages are [pa] and [pb] ([None]: key absent). *)
Definition resuelve (c : comp Resp.t) (kind : string) (pa pb : option Z) : Prop :=
  exists r, c = Ok r
         /\ Resp.responsable r = Some kind
         /\ Resp.porcentaje_a r = pa
         /\ Resp.porcentaje_b r = pb.

(** The check behind the exhaustive statements on the 225 cells. *)
Definition celda_determinada (ca cb : Z) : bool :=
  match Rules.determinar_responsabilidad ca cb with
  | Ok r =>
      match Resp.responsable r, Resp.codigo_matriz r with
      | Some kind, Some codigo =>
          existsb (String.eqb kind)
                  ["vehiculo_a"; "vehiculo_b"; "compartida"; "no_aplica"]
          && existsb (String.eqb codigo) ["A"; "B"; "C"; "NA"]
      | _, _ => false
      end
  | _ => false
  end.

(** The distributions the state of one negotiation can hold: the seed, and
    what an iteration makes of a distribution already held. *)
Inductive alcanzable
    (circunstancia_a circunstancia_b : Z)
    (peso_evidencias : PesoEvidencias.t) (peso_documentos : PesoDocumentos.t)
  : Dist.t -> Prop :=
| alcanzable_inicial d :
    Negotiation._distribucion_inicial circunstancia_a circunstancia_b = Ok d ->
    alcanzable circunstancia_a circunstancia_b peso_evidencias peso_documentos d
| alcanzable_iteracion d d' :
    alcanzable circunstancia_a circunstancia_b peso_evidencias peso_documentos d ->
    Negotiation._ajustar_distribucion d peso_evidencias peso_documentos = Ok d' ->
    alcanzable circunstancia_a circunstancia_b peso_evidencias peso_documentos d'.

Definition suma_100 (d : Dist.t) : Prop :=
  Dist.porcentaje_a d + Dist.porcentaje_b d = 100.

(** A circumstance matters to the seed only through its entry in [pesos]:
    every int outside 1..15 behaves as 0 does. *)
Definition circunstancia_normal (c : Z) : Z :=
  if (1 <=? c) && (c <=? 15) then c else 0.

(** The check behind the exhaustive statement on the seeds. *)
Definition semilla_en_rango (ca cb : Z) : bool :=
  match Negotiation._distribucion_inicial ca cb with
  | Ok d =>
      (0 <=? Dist.porcentaje_a d) && (Dist.porcentaje_a d <=? 100)
      && (0 <=? Dist.porcentaje_b d) && (Dist.porcentaje_b d <=? 100)
  | _ => false
  end.

(** [responsable] of the dict a call returned, if it returned one. *)
Definition responsable_de (c : comp Resp.t) : option string :=
  match c with
  | Ok r => Resp.responsable r
  | _ => None
  end.

(** The same verdict with the two vehicles exchanged. *)
Definition intercambiar (kind : string) : string :=
  if String.eqb kind "vehiculo_a" then "vehiculo_b"
  else if String.eqb kind "vehiculo_b" then "vehiculo_a"
  else kind.

(** The check behind the statement on exchanged circumstances. *)
Definition celda_intercambiada (ca cb : Z) : bool :=
  match responsable_de (Rules.determinar_responsabilidad ca cb),
        responsable_de (Rules.determinar_responsabilidad cb ca) with
  | Some k1, Some k2 =>
      (if ((ca =? 1) && (cb =? 15)) || ((ca =? 15) && (cb =? 1))
       then String.eqb k1 "vehiculo_b" && String.eqb k2 "vehiculo_b"
       else String.eqb k2 (intercambiar k1))
      && (if ca =? cb
          then String.eqb k1 "compartida" || String.eqb k1 "no_aplica"
          else true)
  | _, _ => false
  end.

(** The dict of the matrix seen through the keys both interpreters set. *)
Definition como_prediccion (r : Resp.t) (ca cb : Z) : Prediccion.t :=
  {| Prediccion.responsable := Resp.responsable r;
     Prediccion.porcentaje_a := Resp.porcentaje_a r;
     Prediccion.porcentaje_b := Resp.porcentaje_b r;
     Prediccion.justificacion := Resp.justificacion r;
     Prediccion.mensaje := Resp.mensaje r;
     Prediccion.codigo_matriz := Resp.codigo_matriz r;
     Prediccion.circunstancia_a := Some ca;
     Prediccion.circunstancia_b := Some cb |}.

(** [pesos.get(c, 5.0)], the severity weight the seed gives a circumstance. *)
Definition peso_de (c : Z) : float :=
  default 5.0%float (Negotiation.pesos !! c).

(** The check behind the exhaustive statements on the seeds of exchanged
    circumstances. *)
Definition semilla_reflejada (ca cb : Z) : bool :=
  match Negotiation._distribucion_inicial ca cb,
        Negotiation._distribucion_inicial cb ca with
  | Ok d, Ok d' =>
      (17 <=? Dist.porcentaje_a d) && (Dist.porcentaje_a d <=? 83)
      && (Dist.porcentaje_a d' =? Dist.porcentaje_b d)
      && (Dist.porcentaje_b d' =? Dist.porcentaje_a d)
      && (if (peso_de ca <? peso_de cb)%float
          then 50 <? Dist.porcentaje_a d else true)
      && (if (peso_de ca =? peso_de cb)%float
          then Dist.porcentaje_a d =? 50 else true)
  | _, _ => false
  end.

(** The weights of an aggregation that counted nothing. *)
Definition sin_evidencias : PesoEvidencias.t :=
  PesoEvidencias.mk 0%float 0%float 0.
Definition sin_documentos : PesoDocumentos.t :=
  PesoDocumentos.mk 0%float 0%float 0.

(** The check behind the statement that a blend without weights leaves
    every seed as it is. *)
Definition semilla_estable (ca cb : Z) : bool :=
  match Negotiation._distribucion_inicial ca cb with
  | Ok d =>
      match Negotiation._ajustar_distribucion d sin_evidencias sin_documentos with
      | Ok d' =>
          (Dist.porcentaje_a d' =? Dist.porcentaje_a d)
          && (Dist.porcentaje_b d' =? Dist.porcentaje_b d)
      | _ => false
      end
  | _ => false
  end.

(** [n] blends in a row. *)
Fixpoint iterar
    (n : nat) (peso_evidencias : PesoEvidencias.t)
    (peso_documentos : PesoDocumentos.t) (d : Dist.t) : comp Dist.t :=
  match n with
  | O => Ok d
  | S n' =>
      d' <- Negotiation._ajustar_distribucion d peso_evidencias peso_documentos ;;
      iterar n' peso_evidencias peso_documentos d'
  end.

(** The tests by which the two aggregation loops keep an item. *)
Definition evidencia_contada (e : Evidencia.t) : bool :=
  default false (Evidencia.procesada e).

Definition documento_contado (d : Documento.t) : bool :=
  negb (default 0.5%float
          (Analisis.confianza
             (default Analisis.vacio (Documento.clasificacion d)))
        <? 0.3)%float.

(** The dict in which an aggregation looks for the suggestion of an item:
    [evidencia.get("analisis", {})] and [documento.get("clasificacion", {})]. *)
Definition sugerencia_de_evidencia (e : Evidencia.t) : Analisis.t :=
  default Analisis.vacio (Evidencia.analisis e).

Definition sugerencia_de_documento (d : Documento.t) : Analisis.t :=
  default Analisis.vacio (Documento.clasificacion d).

(** The aggregation in the words of the specification, one weight at a
    time.  To the weight of the party opposite to [senalado], an item that
    points at [senalado] adds its confidence (0.5 when it carries none), an
    item that points at both parties adds half of it, and any other item
    adds nothing. *)
Definition aporte_segun_spec (senalado : string) (item : Analisis.t)
  : option float :=
  let confianza := default 0.5%float (Analisis.confianza item) in
  match Analisis.responsabilidad_sugerida item with
  | Some sugerida =>
      if String.eqb sugerida senalado then Some confianza
      else if String.eqb sugerida "compartida" then Some (confianza * 0.5)%float
      else None
  | None => None
  end.

Definition sumar_segun_spec (senalado : string) (suma : float)
    (item : Analisis.t) : float :=
  match aporte_segun_spec senalado item with
  | Some aporte => (suma + aporte)%float
  | None => suma
  end.

(** What the items, in their order, add to the weight of the party opposite
    to [senalado]. *)
Definition peso_opuesto_segun_spec (senalado : string)
    (items : list Analisis.t) : float :=
  fold_left (sumar_segun_spec senalado) items 0%float.

(** A float, in its specification form, that is not below zero: a zero of
    either sign, a positive number, plus infinity; NaN, which compares
    below nothing, passes too. *)
Definition sf_no_negativo (f : spec_float) : bool :=
  match f with
  | S754_zero _ | S754_nan => true
  | S754_infinity s | S754_finite s _ _ => negb s
  end.

(** Steps 5 and 6 of [procesar_siniestro] in a row. *)
Definition responsabilidad_e_indemnizacion
    (disputa : bool) (ca cb : Z)
    (docs : list Documento.t) (evs : list Evidencia.t)
    (poliza_a poliza_b : Poliza.t) (danos : Danos.t)
  : comp (Resp.t * option Resultado.t) :=
  r <- Engine.determinar_responsabilidad_siniestro disputa ca cb docs evs ;;
  i <- Engine.calcular_indemnizacion_siniestro r poliza_a poliza_b danos ;;
  Ok (r, i).

(** Inputs on which the statements below are evaluated. *)

Definition evidencia_de (sugerida : string) (confianza : float) : Evidencia.t :=
  Evidencia.mk (Some true) (Some (Analisis.mk (Some sugerida) (Some confianza))).

Definition documento_de (sugerida : string) (confianza : float) : Documento.t :=
  Documento.mk (Some (Analisis.mk (Some sugerida) (Some confianza))).

Definition poliza_estandar : Poliza.t :=
  Poliza.mk (Some "estandar") (Some 10%float) (Some 50000%float).

Definition danos_b_un_millon : Danos.t :=
  Danos.mk None (Some (Danos.mk_vehiculo (Some 1000000%float))).

(** * Properties *)

(** ** The Python runtime fragment *)

Lemma bind_Ok_inv {A B : Type} (m : comp A) (k : A -> comp B) (b : B) :
  (x <- m ;; k x) = Ok b -> exists a, m = Ok a /\ k a = Ok b.
Proof. destruct m as [a | e | ]; cbn; intros H; try discriminate; eauto. Qed.

Lemma bind_Raise_inv {A B : Type} (m : comp A) (k : A -> comp B) (e : exc) :
  (x <- m ;; k x) = Raise e ->
  m = Raise e \/ exists a, m = Ok a /\ k a = Raise e.
Proof.
  destruct m as [a | e' | ]; cbn; intros H; try discriminate;
    [right; eauto | left; congruence].
Qed.

Lemma bind_OutOfFuel_inv {A B : Type} (m : comp A) (k : A -> comp B) :
  (x <- m ;; k x) = OutOfFuel ->
  m = OutOfFuel \/ exists a, m = Ok a /\ k a = OutOfFuel.
Proof.
  destruct m as [a | e' | ]; cbn; intros H; try discriminate;
    [right; eauto | left; reflexivity].
Qed.

(** Peels one successful [bind] off a hypothesis [H]. *)
Ltac bind_inv H x Hx :=
  apply bind_Ok_inv in H; destruct H as (x & Hx & H).

Lemma float_of_int_fuel (z : Z) : Py.float_of_int z <> OutOfFuel.
Proof. unfold Py.float_of_int. destruct (is_infinity _); discriminate. Qed.

Lemma round_fuel (x : float) : Py.round x <> OutOfFuel.
Proof. unfold Py.round. destruct (Prim2SF x); discriminate. Qed.

Lemma float_of_int_raises (z : Z) (e : exc) :
  Py.float_of_int z = Raise e -> e = OverflowError.
Proof.
  unfold Py.float_of_int. destruct (is_infinity _); intros H; congruence.
Qed.

Lemma round_raises (x : float) (e : exc) :
  Py.round x = Raise e -> e = ValueError \/ e = OverflowError.
Proof.
  unfold Py.round. destruct (Prim2SF x); intros H; inversion H; auto.
Qed.

(** Refutes [H : m = OutOfFuel] for a chain [m] of conversions and
    roundings: neither loops. *)
Ltac fuel_inv H :=
  repeat (apply bind_OutOfFuel_inv in H;
          destruct H as [H | (? & _ & H)];
          [ solve [ now apply float_of_int_fuel in H
                  | now apply round_fuel in H ] | ]);
  try discriminate H.

(** Solves [e = ValueError \/ e = OverflowError] from [H : m = Raise e] for
    such a chain. *)
Ltac raise_inv H :=
  repeat (apply bind_Raise_inv in H;
          destruct H as [H | (? & _ & H)];
          [ solve [ apply float_of_int_raises in H; auto
                  | apply round_raises in H; auto ] | ]);
  try discriminate H.

(** Every percentage between 0 and 100 converts to a float. *)
Lemma percentages_convert :
  forallb (fun z => negb (is_infinity (Py.Z2float z))) (seqZ 0 101) = true.
Proof. vm_compute. reflexivity. Qed.

Lemma float_of_int_percent (z : Z) :
  0 <= z <= 100 -> Py.float_of_int z = Ok (Py.Z2float z).
Proof.
  intros Hz. pose proof percentages_convert as H.
  rewrite forallb_forall in H.
  assert (Hin : In z (seqZ 0 101)).
  { apply list_elem_of_In, elem_of_seqZ. lia. }
  apply H in Hin. apply negb_true_iff in Hin.
  unfold Py.float_of_int. rewrite Hin. reflexivity.
Qed.

(** ** The responsibility matrix (rules.py) *)

Lemma celdas_determinadas :
  forallb (fun ca => forallb (celda_determinada ca) (seqZ 1 15)) (seqZ 1 15) = true.
Proof. vm_compute. reflexivity. Qed.

Lemma celda_determinada_en_rango (ca cb : Z) :
  1 <= ca <= 15 -> 1 <= cb <= 15 -> celda_determinada ca cb = true.
Proof.
  intros Ha Hb.
  pose proof celdas_determinadas as H.
  rewrite forallb_forall in H.
  assert (Hca : In ca (seqZ 1 15)).
  { apply list_elem_of_In, elem_of_seqZ. lia. }
  specialize (H ca Hca). rewrite forallb_forall in H.
  apply H, list_elem_of_In, elem_of_seqZ. lia.
Qed.

(** C3, as the specification lists the cells, fails at (7,1): the table holds
    NA there, so the lookup is "no_aplica" without percentages and not
    "vehiculo_b" with 0/100. *)
Lemma C3_cell_7_1_is_not_sole_b :
  resuelve (Rules.determinar_responsabilidad 7 1) "no_aplica" None None
  /\ ~ resuelve (Rules.determinar_responsabilidad 7 1) "vehiculo_b" (Some 0) (Some 100).
Proof.
  split.
  - eexists. vm_compute. repeat split.
  - intros (r & Hr & Hk & _). vm_compute in Hr. inversion Hr; subst r.
    cbn in Hk. discriminate.
Qed.

(** C3 (amended): the matrix lookup returns compartida 50/50 at (4,5) (cell
    code C), vehiculo_b 0/100 at (1,2) (cell code B), and no_aplica, with no
    percentages, at both (7,1) and (1,1) (cell code NA). *)
Theorem C3_matrix_examples :
  resuelve (Rules.determinar_responsabilidad 4 5) "compartida" (Some 50) (Some 50)
  /\ resuelve (Rules.determinar_responsabilidad 1 2) "vehiculo_b" (Some 0) (Some 100)
  /\ resuelve (Rules.determinar_responsabilidad 7 1) "no_aplica" None None
  /\ resuelve (Rules.determinar_responsabilidad 1 1) "no_aplica" None None
  /\ (fila <- Py.index Rules.matriz (4 - 1) ;; Py.index fila (5 - 1)) = Ok "C"
  /\ (fila <- Py.index Rules.matriz (1 - 1) ;; Py.index fila (2 - 1)) = Ok "B"
  /\ (fila <- Py.index Rules.matriz (7 - 1) ;; Py.index fila (1 - 1)) = Ok "NA"
  /\ (fila <- Py.index Rules.matriz (1 - 1) ;; Py.index fila (1 - 1)) = Ok "NA".
Proof.
  repeat split; try (eexists; vm_compute; repeat split); vm_compute; reflexivity.
Qed.

(** C9: for circumstances in [1,15] x [1,15] the lookup returns, its result is
    one of vehiculo_a, vehiculo_b, compartida, no_aplica, built from a cell
    code among A, B, C, NA; it is never "indeterminado" (code NRD) and never
    the "error" dict of an unknown code. *)
Theorem C9_matrix_never_indeterminate (ca cb : Z) :
  1 <= ca <= 15 -> 1 <= cb <= 15 ->
  exists r kind codigo,
    Rules.determinar_responsabilidad ca cb = Ok r
    /\ Resp.responsable r = Some kind
    /\ Resp.codigo_matriz r = Some codigo
    /\ In kind ["vehiculo_a"; "vehiculo_b"; "compartida"; "no_aplica"]
    /\ In codigo ["A"; "B"; "C"; "NA"]
    /\ kind <> "indeterminado" /\ kind <> "error"
    /\ codigo <> "NRD".
Proof.
  intros Ha Hb.
  pose proof (celda_determinada_en_rango ca cb Ha Hb) as H.
  unfold celda_determinada in H.
  destruct (Rules.determinar_responsabilidad ca cb) as [r | e | ] eqn:Hr;
    try discriminate.
  destruct (Resp.responsable r) as [kind | ] eqn:Hkind; try discriminate.
  destruct (Resp.codigo_matriz r) as [codigo | ] eqn:Hcodigo; try discriminate.
  apply andb_prop in H. destruct H as [Hk Hc].
  apply existsb_exists in Hk. destruct Hk as (k & Hk_in & Hk_eq).
  apply existsb_exists in Hc. destruct Hc as (c & Hc_in & Hc_eq).
  apply String.eqb_eq in Hk_eq. apply String.eqb_eq in Hc_eq. subst k c.
  exists r, kind, codigo. repeat split; auto.
  - intros ->. cbn in Hk_in. intuition discriminate.
  - intros ->. cbn in Hk_in. intuition discriminate.
  - intros ->. cbn in Hc_in. intuition discriminate.
Qed.

Lemma C9_witness :
  exists r kind codigo,
    Rules.determinar_responsabilidad 13 6 = Ok r
    /\ Resp.responsable r = Some kind
    /\ Resp.codigo_matriz r = Some codigo
    /\ In kind ["vehiculo_a"; "vehiculo_b"; "compartida"; "no_aplica"]
    /\ In codigo ["A"; "B"; "C"; "NA"]
    /\ kind <> "indeterminado" /\ kind <> "error"
    /\ codigo <> "NRD".
Proof. apply (C9_matrix_never_indeterminate 13 6); lia. Defined.

(** ** The indemnification calculator (calculator.py) *)

Lemma calcular_indemnizacion_returns
    (r : Resp.t) (poliza_a poliza_b : Poliza.t) (danos : Danos.t) (kind : string) :
  Resp.responsable r = Some kind ->
  Resp.porcentaje_a r = None -> Resp.porcentaje_b r = None ->
  exists res,
    Calculator.calcular_indemnizacion r poliza_a poliza_b danos = Ok res
    /\ Resumen.porcentaje_responsabilidad_a (Resultado.resumen res) = 0
    /\ Resumen.porcentaje_responsabilidad_b (Resultado.resumen res) = 0
    /\ length (Resultado.indemnizaciones res) = 2%nat.
Proof.
  intros Hk Ha Hb. unfold Calculator.calcular_indemnizacion.
  rewrite Hk, Ha, Hb. cbn [Py.getitem Py.bind default from_option].
  rewrite (float_of_int_percent 0) by lia. cbn [Py.bind].
  eexists. split; [reflexivity | ]. cbn. auto.
Qed.

(** C1, as stated, fails: called on the no_aplica result of the matrix at
    (1,1), and on the indeterminado result built for the code NRD, the
    calculator raises nothing and returns a result. *)
Lemma C1_calculator_does_not_reject :
  exists r1 r2 res1 res2,
    Rules.determinar_responsabilidad 1 1 = Ok r1
    /\ Resp.responsable r1 = Some "no_aplica"
    /\ r2 = Rules._interpretar_codigo "NRD" 1 1
    /\ Resp.responsable r2 = Some "indeterminado"
    /\ Calculator.calcular_indemnizacion
         r1 poliza_estandar poliza_estandar danos_b_un_millon = Ok res1
    /\ Calculator.calcular_indemnizacion
         r2 poliza_estandar poliza_estandar danos_b_un_millon = Ok res2.
Proof.
  do 4 eexists. repeat split; vm_compute; reflexivity.
Qed.

(** C1 (amended): for a result of kind no_aplica or indeterminado the engine
    does not call the calculator and leaves the indemnification at None; the
    calculator itself has no rejection: called on such a result, which
    carries no percentages, it takes both as 0 and returns a result with its
    two payment lines. *)
Theorem C1_no_liability_is_skipped_by_engine
    (r : Resp.t) (poliza_a poliza_b : Poliza.t) (danos : Danos.t) :
  Resp.responsable r = Some "no_aplica"
  \/ Resp.responsable r = Some "indeterminado" ->
  Engine.calcular_indemnizacion_siniestro r poliza_a poliza_b danos = Ok None
  /\ (Resp.porcentaje_a r = None -> Resp.porcentaje_b r = None ->
      exists res,
        Calculator.calcular_indemnizacion r poliza_a poliza_b danos = Ok res
        /\ Resumen.porcentaje_responsabilidad_a (Resultado.resumen res) = 0
        /\ Resumen.porcentaje_responsabilidad_b (Resultado.resumen res) = 0
        /\ length (Resultado.indemnizaciones res) = 2%nat).
Proof.
  intros Hk. split.
  - unfold Engine.calcular_indemnizacion_siniestro.
    destruct Hk as [-> | ->]; reflexivity.
  - intros Ha Hb.
    destruct Hk as [Hk | Hk];
      eapply calcular_indemnizacion_returns; eauto.
Qed.

Lemma C1_witness :
  Engine.calcular_indemnizacion_siniestro
    (Rules._interpretar_codigo "NA" 1 1)
    poliza_estandar poliza_estandar danos_b_un_millon = Ok None.
Proof.
  exact (proj1 (C1_no_liability_is_skipped_by_engine
                  (Rules._interpretar_codigo "NA" 1 1)
                  poliza_estandar poliza_estandar danos_b_un_millon
                  (or_introl eq_refl))).
Defined.

(** C4, as stated, fails on the tier names it gives.  The calculator knows
    the tiers by the names premium, estandar and basica, so a policy of tier
    "standard" or "basic" falls to the last branch: its factor is 0.7, not
    0.9 and not 0.8. *)
Lemma C4_standard_and_basic_get_the_default :
  Calculator._calcular_factor_cobertura (Poliza.mk (Some "standard") None None)
  = 0.7%float
  /\ Calculator._calcular_factor_cobertura
       (Poliza.mk (Some "standard") None None) <> 0.9%float
  /\ Calculator._calcular_factor_cobertura (Poliza.mk (Some "basic") None None)
     = 0.7%float
  /\ Calculator._calcular_factor_cobertura
       (Poliza.mk (Some "basic") None None) <> 0.8%float.
Proof.
  split; [reflexivity | ]. split.
  - intros H. apply (f_equal Prim2SF) in H. vm_compute in H. discriminate.
  - split; [reflexivity | ].
    intros H. apply (f_equal Prim2SF) in H. vm_compute in H. discriminate.
Qed.

(** C4 (amended): the coverage factor is 1.0 for the tier premium, 0.9 for
    estandar, 0.8 for basica and for a policy that names no tier, and 0.7
    for any other tier value, the names standard and basic among them; the
    last case is a value like the others, not an error. *)
Theorem C4_coverage_factor (poliza : Poliza.t) :
  (Poliza.tipo_cobertura poliza = Some "premium" ->
   Calculator._calcular_factor_cobertura poliza = 1.0%float)
  /\ (Poliza.tipo_cobertura poliza = Some "estandar" ->
      Calculator._calcular_factor_cobertura poliza = 0.9%float)
  /\ (Poliza.tipo_cobertura poliza = Some "basica" ->
      Calculator._calcular_factor_cobertura poliza = 0.8%float)
  /\ (Poliza.tipo_cobertura poliza = None ->
      Calculator._calcular_factor_cobertura poliza = 0.8%float)
  /\ (forall tipo,
        Poliza.tipo_cobertura poliza = Some tipo ->
        tipo <> "premium" -> tipo <> "estandar" -> tipo <> "basica" ->
        Calculator._calcular_factor_cobertura poliza = 0.7%float)
  /\ (Poliza.tipo_cobertura poliza = Some "standard"
      \/ Poliza.tipo_cobertura poliza = Some "basic" ->
      Calculator._calcular_factor_cobertura poliza = 0.7%float).
Proof.
  unfold Calculator._calcular_factor_cobertura.
  repeat split.
  - intros ->. reflexivity.
  - intros ->. reflexivity.
  - intros ->. reflexivity.
  - intros ->. reflexivity.
  - intros tipo -> H1 H2 H3. unfold default. cbn [from_option id].
    apply String.eqb_neq in H1, H2, H3. rewrite H1, H2, H3. reflexivity.
  - intros [-> | ->]; reflexivity.
Qed.

Lemma C4_witness :
  Calculator._calcular_factor_cobertura
    (Poliza.mk (Some "todo_riesgo") (Some 10%float) None) = 0.7%float
  /\ Calculator._calcular_factor_cobertura
       (Poliza.mk None (Some 10%float) None) = 0.8%float
  /\ Calculator._calcular_factor_cobertura
       (Poliza.mk (Some "standard") (Some 10%float) None) = 0.7%float.
Proof.
  split; [ | split].
  - apply (proj1 (proj2 (proj2 (proj2 (proj2 (C4_coverage_factor
             (Poliza.mk (Some "todo_riesgo") (Some 10%float) None))))))
             "todo_riesgo").
    + reflexivity.
    + discriminate.
    + discriminate.
    + discriminate.
  - apply (proj1 (proj2 (proj2 (proj2 (C4_coverage_factor
             (Poliza.mk None (Some 10%float) None)))))).
    reflexivity.
  - apply (proj2 (proj2 (proj2 (proj2 (proj2 (C4_coverage_factor
             (Poliza.mk (Some "standard") (Some 10%float) None))))))).
    left. reflexivity.
Defined.

(** A policy without the key [tipo_cobertura] is read as basica; the tier
    names are the Spanish ones, so the strings "standard" and "basic" are
    other values. *)
Lemma factor_cobertura_sin_tipo (porcentaje minimo : option float) :
  Calculator._calcular_factor_cobertura (Poliza.mk None porcentaje minimo)
  = 0.8%float.
Proof. reflexivity. Qed.

Lemma factor_cobertura_nombres_en_ingles :
  Calculator._calcular_factor_cobertura (Poliza.mk (Some "standard") None None)
  = 0.7%float
  /\ Calculator._calcular_factor_cobertura (Poliza.mk (Some "basic") None None)
     = 0.7%float.
Proof. split; reflexivity. Qed.

(** The factor of each policy is the one reported on the payment line of
    its holder. *)
Lemma factor_cobertura_en_resultado
    (r : Resp.t) (poliza_a poliza_b : Poliza.t) (danos : Danos.t)
    (res : Resultado.t) :
  Calculator.calcular_indemnizacion r poliza_a poliza_b danos = Ok res ->
  map Indemnizacion.factor_cobertura (Resultado.indemnizaciones res)
  = [ Calculator._calcular_factor_cobertura poliza_a;
      Calculator._calcular_factor_cobertura poliza_b ].
Proof.
  unfold Calculator.calcular_indemnizacion. intros H.
  bind_inv H k Hk. bind_inv H fa Hfa. bind_inv H fb Hfb.
  inversion H. reflexivity.
Qed.

(** The end-to-end scenario of the specification: circumstances 13 and 6,
    damage to B of 1,000,000, policy estandar with a 10% deductible and a
    minimum of 50,000. *)
Lemma escenario_embriaguez :
  exists r res a_b b_a,
    Rules.determinar_responsabilidad 13 6 = Ok r
    /\ Resp.responsable r = Some "vehiculo_a"
    /\ Calculator.calcular_indemnizacion
         r poliza_estandar poliza_estandar danos_b_un_millon = Ok res
    /\ Resultado.indemnizaciones res = [a_b; b_a]
    /\ Indemnizacion.monto_bruto a_b = 900000%float
    /\ Indemnizacion.deducible a_b = 90000%float
    /\ Indemnizacion.monto_neto a_b = 810000%float.
Proof. do 4 eexists. repeat split; vm_compute; reflexivity. Qed.

(** ** The negotiation (negotiation.py) *)

Section Negociacion.

Import Negotiation.

(** *** The percentages always add up to 100 *)

Lemma ajustar_suma_100 (a b : Z) : suma_100 (ajustar_suma a b).
Proof.
  unfold suma_100, ajustar_suma.
  destruct (a + b =? 100) eqn:E; cbn.
  - apply Z.eqb_eq in E. exact E.
  - lia.
Qed.

(** The residual goes to [porcentaje_a]; [porcentaje_b] is left as it is. *)
Lemma ajustar_suma_residual (a b : Z) :
  ajustar_suma a b = Dist.mk (a + (100 - (a + b))) b.
Proof.
  unfold ajustar_suma. destruct (a + b =? 100) eqn:E; cbn; [ | reflexivity].
  apply Z.eqb_eq in E. f_equal. lia.
Qed.

Lemma _distribucion_inicial_suma (ca cb : Z) (d : Dist.t) :
  _distribucion_inicial ca cb = Ok d -> suma_100 d.
Proof.
  unfold _distribucion_inicial. destruct (0 <? _)%float; intros H.
  - bind_inv H a Ha. bind_inv H b Hb. inversion H. apply ajustar_suma_100.
  - inversion H. apply ajustar_suma_100.
Qed.

Lemma _ajustar_distribucion_suma
    (d d' : Dist.t) (pe : PesoEvidencias.t) (pd : PesoDocumentos.t) :
  _ajustar_distribucion d pe pd = Ok d' -> suma_100 d'.
Proof.
  unfold _ajustar_distribucion. intros H.
  bind_inv H fa Hfa. bind_inv H fb Hfb.
  destruct (0 <? _)%float.
  - bind_inv H a Ha. bind_inv H b Hb. inversion H. apply ajustar_suma_100.
  - inversion H. apply ajustar_suma_100.
Qed.

(** *** The loop *)

(** What every iteration preserves, the loop preserves. *)
Lemma bucle_negociacion_inv
    (P : Dist.t -> Prop) (pe : PesoEvidencias.t) (pd : PesoDocumentos.t) :
  (forall d d', P d -> _ajustar_distribucion d pe pd = Ok d' -> P d') ->
  forall fuel s s',
    bucle_negociacion fuel pe pd s = Ok s' ->
    P (Estado.distribucion_actual s) -> P (Estado.distribucion_actual s').
Proof.
  intros Hstep. induction fuel as [ | fuel IH]; intros s s' H HP; cbn in H.
  - discriminate.
  - destruct (Estado.iteracion s <? max_iteraciones).
    + bind_inv H d' Hd'.
      destruct (_converge _ d').
      * inversion H; subst s'. cbn. eauto.
      * apply IH in H; cbn in *; eauto.
    + inversion H; subst s'. exact HP.
Qed.

Lemma bucle_negociacion_iteracion
    (pe : PesoEvidencias.t) (pd : PesoDocumentos.t) :
  forall fuel s s',
    bucle_negociacion fuel pe pd s = Ok s' ->
    Estado.iteracion s <= Estado.iteracion s'
    /\ (Estado.iteracion s <= max_iteraciones ->
        Estado.iteracion s' <= max_iteraciones).
Proof.
  induction fuel as [ | fuel IH]; intros s s' H; cbn in H.
  - discriminate.
  - destruct (Estado.iteracion s <? max_iteraciones) eqn:Hlt.
    + apply Z.ltb_lt in Hlt. bind_inv H d' Hd'.
      destruct (_converge _ d').
      * inversion H; subst s'. cbn. lia.
      * apply IH in H. cbn in H. lia.
    + inversion H; subst s'. lia.
Qed.

(** The loop condition is evaluated once per iteration and once more when
    it fails, so the fuel of [negociar] is never used up. *)
Lemma bucle_negociacion_fuel
    (pe : PesoEvidencias.t) (pd : PesoDocumentos.t) :
  forall fuel s,
    (Z.to_nat (max_iteraciones - Estado.iteracion s) < fuel)%nat ->
    bucle_negociacion fuel pe pd s <> OutOfFuel.
Proof.
  induction fuel as [ | fuel IH]; intros s Hfuel; cbn.
  - lia.
  - destruct (Estado.iteracion s <? max_iteraciones) eqn:Hlt; [ | discriminate].
    apply Z.ltb_lt in Hlt.
    destruct (_ajustar_distribucion _ pe pd) as [d' | e | ] eqn:Hd'; cbn.
    + destruct (_converge _ d'); [discriminate | ].
      apply IH. cbn. lia.
    + discriminate.
    + exfalso. unfold _ajustar_distribucion in Hd'. fuel_inv Hd'.
      destruct (0 <? _)%float; fuel_inv Hd'.
Qed.

(** [negociar], unfolded into the steps it goes through when it returns. *)
Lemma negociar_Ok_inv
    (ca cb : Z) (docs : list Documento.t) (evs : list Evidencia.t) (r : Resp.t) :
  negociar ca cb docs evs = Ok r ->
  exists d0 pe pd final,
    _distribucion_inicial ca cb = Ok d0
    /\ _calcular_peso_evidencias evs = Ok pe
    /\ _calcular_peso_documentos docs = Ok pd
    /\ bucle_negociacion fuel_negociacion pe pd (Estado.mk d0 0) = Ok final
    /\ Resp.porcentaje_a r = Some (Dist.porcentaje_a (Estado.distribucion_actual final))
    /\ Resp.porcentaje_b r = Some (Dist.porcentaje_b (Estado.distribucion_actual final))
    /\ Resp.iteraciones r = Some (Estado.iteracion final)
    /\ Resp.convergio r = Some (Estado.iteracion final <? max_iteraciones)
    /\ Resp.responsable r =
         Some (if 90 <=? Dist.porcentaje_a (Estado.distribucion_actual final)
               then "vehiculo_a"
               else if 90 <=? Dist.porcentaje_b (Estado.distribucion_actual final)
                    then "vehiculo_b" else "compartida").
Proof.
  unfold negociar. intros H.
  bind_inv H d0 Hd0. bind_inv H pe Hpe. bind_inv H pd Hpd.
  bind_inv H final Hfinal. inversion H; subst r; cbn.
  exists d0, pe, pd, final. repeat split; auto.
Qed.

Lemma bucle_negociacion_alcanzable
    (ca cb : Z) (pe : PesoEvidencias.t) (pd : PesoDocumentos.t)
    (fuel : nat) (s s' : Estado.t) :
  bucle_negociacion fuel pe pd s = Ok s' ->
  alcanzable ca cb pe pd (Estado.distribucion_actual s) ->
  alcanzable ca cb pe pd (Estado.distribucion_actual s').
Proof.
  apply bucle_negociacion_inv. intros d d' Hd Hstep.
  eapply alcanzable_iteracion; eauto.
Qed.

Lemma alcanzable_suma_100
    (ca cb : Z) (pe : PesoEvidencias.t) (pd : PesoDocumentos.t) (d : Dist.t) :
  alcanzable ca cb pe pd d -> suma_100 d.
Proof.
  induction 1 as [d Hseed | d d' _ _ Hstep].
  - eapply _distribucion_inicial_suma; eauto.
  - eapply _ajustar_distribucion_suma; eauto.
Qed.

End Negociacion.

Section NegociacionResultados.

Import Negotiation.

(** *** [negociar] always finishes *)

Lemma _distribucion_inicial_fuel (ca cb : Z) :
  _distribucion_inicial ca cb <> OutOfFuel.
Proof.
  unfold _distribucion_inicial. intros H.
  destruct (0 <? _)%float; fuel_inv H.
Qed.

Lemma _calcular_peso_evidencias_fuel (evs : list Evidencia.t) :
  _calcular_peso_evidencias evs <> OutOfFuel.
Proof.
  unfold _calcular_peso_evidencias.
  destruct (fold_left _ _ _) as [[a b] n]. intros H.
  destruct (0 <? n); fuel_inv H.
Qed.

Lemma _calcular_peso_documentos_fuel (docs : list Documento.t) :
  _calcular_peso_documentos docs <> OutOfFuel.
Proof.
  unfold _calcular_peso_documentos.
  destruct (fold_left _ _ _) as [[a b] n]. intros H.
  destruct (0 <? n); fuel_inv H.
Qed.

Lemma negociar_fuel
    (ca cb : Z) (docs : list Documento.t) (evs : list Evidencia.t) :
  negociar ca cb docs evs <> OutOfFuel.
Proof.
  unfold negociar. intros H.
  apply bind_OutOfFuel_inv in H.
  destruct H as [H | (d0 & _ & H)]; [now apply _distribucion_inicial_fuel in H | ].
  apply bind_OutOfFuel_inv in H.
  destruct H as [H | (pe & _ & H)]; [now apply _calcular_peso_evidencias_fuel in H | ].
  apply bind_OutOfFuel_inv in H.
  destruct H as [H | (pd & _ & H)]; [now apply _calcular_peso_documentos_fuel in H | ].
  apply bind_OutOfFuel_inv in H.
  destruct H as [H | (final & _ & H)]; [ | discriminate].
  revert H. apply bucle_negociacion_fuel.
  unfold fuel_negociacion, max_iteraciones. cbn. lia.
Qed.

(** *** C6 *)

(** The distribution [negociar] reports is one its state has held. *)
Lemma negociar_alcanzable
    (ca cb : Z) (docs : list Documento.t) (evs : list Evidencia.t) (r : Resp.t) :
  negociar ca cb docs evs = Ok r ->
  exists pe pd d,
    _calcular_peso_evidencias evs = Ok pe
    /\ _calcular_peso_documentos docs = Ok pd
    /\ alcanzable ca cb pe pd d
    /\ Resp.porcentaje_a r = Some (Dist.porcentaje_a d)
    /\ Resp.porcentaje_b r = Some (Dist.porcentaje_b d).
Proof.
  intros Hr. apply negociar_Ok_inv in Hr.
  destruct Hr as (d0 & pe & pd & final & Hd0 & Hpe & Hpd & Hloop
                  & Ha & Hb & _).
  exists pe, pd, (Estado.distribucion_actual final).
  repeat split; auto.
  eapply bucle_negociacion_alcanzable; [exact Hloop | ].
  cbn. apply alcanzable_inicial. exact Hd0.
Qed.

(** C6: the closing correction of the seed and of every iteration adds the
    residual [100 - (a + b)] to [porcentaje_a] and leaves [porcentaje_b];
    so every distribution the negotiation state holds, the seed and the
    result of each iteration, has percentages adding up to exactly 100, and
    so has the pair that [negociar] returns. *)
Theorem C6_percentages_sum_to_100
    (ca cb : Z) (docs : list Documento.t) (evs : list Evidencia.t) :
  (forall a b, ajustar_suma a b = Dist.mk (a + (100 - (a + b))) b)
  /\ (forall pe pd d, alcanzable ca cb pe pd d ->
        Dist.porcentaje_a d + Dist.porcentaje_b d = 100)
  /\ (forall r, negociar ca cb docs evs = Ok r ->
        exists a b pe pd d,
          Resp.porcentaje_a r = Some a /\ Resp.porcentaje_b r = Some b
          /\ _calcular_peso_evidencias evs = Ok pe
          /\ _calcular_peso_documentos docs = Ok pd
          /\ alcanzable ca cb pe pd d
          /\ a = Dist.porcentaje_a d /\ b = Dist.porcentaje_b d
          /\ a + b = 100).
Proof.
  split; [exact ajustar_suma_residual | ]. split.
  - intros pe pd d Hd. exact (alcanzable_suma_100 ca cb pe pd d Hd).
  - intros r Hr.
    destruct (negociar_alcanzable ca cb docs evs r Hr)
      as (pe & pd & d & Hpe & Hpd & Halc & Ha & Hb).
    exists (Dist.porcentaje_a d), (Dist.porcentaje_b d), pe, pd, d.
    repeat split; auto.
    exact (alcanzable_suma_100 ca cb pe pd d Halc).
Qed.

Lemma C6_witness :
  exists r a b,
    negociar 1 2 [] [evidencia_de "vehiculo_b" 0.1%float] = Ok r
    /\ Resp.porcentaje_a r = Some a /\ Resp.porcentaje_b r = Some b
    /\ a + b = 100.
Proof.
  eexists.
  assert (H : negociar 1 2 [] [evidencia_de "vehiculo_b" 0.1%float] = Ok ?[r])
    by (vm_compute; reflexivity).
  destruct (proj2 (proj2 (C6_percentages_sum_to_100
                            1 2 [] [evidencia_de "vehiculo_b" 0.1%float])) _ H)
    as (a & b & pe & pd & d & Ha & Hb & _ & _ & _ & _ & _ & Hsum).
  exists a, b.
  split; [exact H | ]. split; [exact Ha | ]. split; [exact Hb | exact Hsum].
Defined.

(** *** C7 *)

(** C7: [negociar] finishes (it returns or raises within its fuel), and
    whenever it returns, the counter [iteraciones] lies between 0 and 5
    and is exactly 5 when [convergio] is false. *)
Theorem C7_iterations_bounded
    (ca cb : Z) (docs : list Documento.t) (evs : list Evidencia.t) :
  negociar ca cb docs evs <> OutOfFuel
  /\ (forall r, negociar ca cb docs evs = Ok r ->
        exists n c,
          Resp.iteraciones r = Some n /\ Resp.convergio r = Some c
          /\ 0 <= n <= 5
          /\ (c = false -> n = 5)).
Proof.
  split; [apply negociar_fuel | ].
  intros r Hr.
  apply negociar_Ok_inv in Hr.
  destruct Hr as (d0 & pe & pd & final & _ & _ & _ & Hloop
                  & _ & _ & Hn & Hc & _).
  apply bucle_negociacion_iteracion in Hloop. cbn in Hloop.
  unfold max_iteraciones in *.
  exists (Estado.iteracion final), (Estado.iteracion final <? 5).
  split; [exact Hn | ]. split; [exact Hc | ]. split; [lia | ].
  intros Hfalse. apply Z.ltb_ge in Hfalse. lia.
Qed.

Lemma C7_witness :
  exists r n c,
    negociar 1 2 [] [evidencia_de "vehiculo_b" 0.1%float] = Ok r
    /\ Resp.iteraciones r = Some n /\ Resp.convergio r = Some c
    /\ 0 <= n <= 5
    /\ (c = false -> n = 5).
Proof.
  eexists.
  assert (H : negociar 1 2 [] [evidencia_de "vehiculo_b" 0.1%float] = Ok ?[r])
    by (vm_compute; reflexivity).
  destruct (proj2 (C7_iterations_bounded
                     1 2 [] [evidencia_de "vehiculo_b" 0.1%float]) _ H)
    as (n & c & Hn & Hc & Hle & Himp).
  exists n, c.
  split; [exact H | ]. split; [exact Hn | ]. split; [exact Hc | ].
  split; [exact Hle | exact Himp].
Defined.

(** *** C8 *)

(** C8: when [negociar] returns, the percentages it reports are those of
    the distribution the loop ended with, and [responsable] is vehiculo_a
    when [porcentaje_a >= 90], vehiculo_b when [porcentaje_b >= 90], and
    compartida otherwise. *)
Theorem C8_final_classification
    (ca cb : Z) (docs : list Documento.t) (evs : list Evidencia.t) (r : Resp.t) :
  negociar ca cb docs evs = Ok r ->
  exists d0 pe pd final a b,
    _distribucion_inicial ca cb = Ok d0
    /\ _calcular_peso_evidencias evs = Ok pe
    /\ _calcular_peso_documentos docs = Ok pd
    /\ bucle_negociacion fuel_negociacion pe pd (Estado.mk d0 0) = Ok final
    /\ a = Dist.porcentaje_a (Estado.distribucion_actual final)
    /\ b = Dist.porcentaje_b (Estado.distribucion_actual final)
    /\ Resp.porcentaje_a r = Some a
    /\ Resp.porcentaje_b r = Some b
    /\ (90 <= a -> Resp.responsable r = Some "vehiculo_a")
    /\ (90 <= b -> Resp.responsable r = Some "vehiculo_b")
    /\ (a < 90 -> b < 90 -> Resp.responsable r = Some "compartida").
Proof.
  intros Hr.
  destruct (negociar_alcanzable ca cb docs evs r Hr)
    as (pe' & pd' & d & _ & _ & Halc & Ha' & Hb').
  apply alcanzable_suma_100 in Halc. unfold suma_100 in Halc.
  apply negociar_Ok_inv in Hr.
  destruct Hr as (d0 & pe & pd & final & Hd0 & Hpe & Hpd & Hloop
                  & Ha & Hb & _ & _ & Hk).
  rewrite Ha in Ha'. rewrite Hb in Hb'. inversion Ha' as [Ha'']. inversion Hb' as [Hb''].
  rewrite <- Ha'', <- Hb'' in Halc. rename Halc into Hsum.
  clear Ha' Hb' Ha'' Hb''.
  set (a := Dist.porcentaje_a (Estado.distribucion_actual final)) in *.
  set (b := Dist.porcentaje_b (Estado.distribucion_actual final)) in *.
  exists d0, pe, pd, final, a, b.
  do 8 (split; [auto; fail | ]).
  rewrite Hk.
  destruct (Z.leb_spec 90 a); destruct (Z.leb_spec 90 b);
    (split; [ | split]); intros; first [reflexivity | lia].
Qed.

Lemma C8_witness :
  exists r b,
    negociar 15 13 [documento_de "vehiculo_a" 1%float]
                   [evidencia_de "vehiculo_a" 1%float] = Ok r
    /\ Resp.porcentaje_b r = Some b
    /\ 90 <= b
    /\ Resp.responsable r = Some "vehiculo_b".
Proof.
  eexists.
  assert (H : negociar 15 13 [documento_de "vehiculo_a" 1%float]
                             [evidencia_de "vehiculo_a" 1%float] = Ok ?[r])
    by (vm_compute; reflexivity).
  destruct (C8_final_classification _ _ _ _ _ H)
    as (d0 & pe & pd & final & a & b & _ & _ & _ & _ & _ & _
        & _ & Hb & _ & Hdom & _).
  assert (Hb98 : b = 98) by (cbn in Hb; congruence).
  assert (H90 : 90 <= b) by (rewrite Hb98; discriminate).
  exists b.
  split; [exact H | ]. split; [exact Hb | ]. split; [exact H90 | exact (Hdom H90)].
Defined.

End NegociacionResultados.

Section NegociacionConvergencia.

Import Negotiation.

(** *** The convergence test *)

(** The threshold 0.05 is compared with a difference of whole percentage
    points, so the test succeeds only when [porcentaje_a] did not move. *)
Lemma _converge_iff (anterior actual : Dist.t) :
  _converge anterior actual = true
  <-> Dist.porcentaje_a anterior = Dist.porcentaje_a actual.
Proof.
  unfold _converge, Py.int_le_float.
  replace (Prim2SF umbral_convergencia)
    with (S754_finite false 7205759403792794 (-57))
    by (vm_compute; reflexivity).
  cbn -[Z.mul Z.pow Z.abs].
  rewrite Z.leb_le. change (2 ^ 57) with 144115188075855872. lia.
Qed.

(** C2: the difference is compared with 0.05 and not with 5.  With
    circumstances 1 and 2 and one processed evidence pointing at vehicle B
    with confidence 0.1, the first iteration moves [porcentaje_a] from 46
    to 49: the difference, 3, is within 5 points, [_converge] answers
    false, and the loop goes on through all five iterations, returning
    60/40 with [convergio] false. *)
Theorem C2_threshold_is_not_five_points :
  exists pe pd r,
    _distribucion_inicial 1 2 = Ok (Dist.mk 46 54)
    /\ _calcular_peso_evidencias [evidencia_de "vehiculo_b" 0.1%float] = Ok pe
    /\ _calcular_peso_documentos [] = Ok pd
    /\ _ajustar_distribucion (Dist.mk 46 54) pe pd = Ok (Dist.mk 49 51)
    /\ Z.abs (46 - 49) <= 5
    /\ _converge (Dist.mk 46 54) (Dist.mk 49 51) = false
    /\ negociar 1 2 [] [evidencia_de "vehiculo_b" 0.1%float] = Ok r
    /\ Resp.porcentaje_a r = Some 60
    /\ Resp.porcentaje_b r = Some 40
    /\ Resp.iteraciones r = Some 5
    /\ Resp.convergio r = Some false.
Proof.
  do 3 eexists.
  split; [vm_compute; reflexivity | ].
  split; [vm_compute; reflexivity | ].
  split; [vm_compute; reflexivity | ].
  split; [vm_compute; reflexivity | ].
  split; [vm_compute; discriminate | ].
  split; [vm_compute; reflexivity | ].
  split; [vm_compute; reflexivity | ].
  repeat split.
Qed.

End NegociacionConvergencia.

Section NegociacionPesos.

Import Negotiation.

(** *** The weight aggregation *)

(** C10, as stated, fails on the items the aggregation skips: a document
    whose confidence is below 0.3 and an evidence that is not processed
    point at vehicle A and add nothing to [peso_b]. *)
Lemma C10_skipped_items_add_nothing :
  acumular_documento (0%float, 0%float, 0) (documento_de "vehiculo_a" 0.2%float)
  = (0%float, 0%float, 0)
  /\ _calcular_peso_documentos [documento_de "vehiculo_a" 0.2%float]
     = Ok (PesoDocumentos.mk 0%float 0%float 0)
  /\ acumular_evidencia (0%float, 0%float, 0)
       (Evidencia.mk (Some false)
          (Some (Analisis.mk (Some "vehiculo_a") (Some 0.9%float))))
     = (0%float, 0%float, 0)
  /\ _calcular_peso_evidencias
       [Evidencia.mk (Some false)
          (Some (Analisis.mk (Some "vehiculo_a") (Some 0.9%float)))]
     = Ok (PesoEvidencias.mk 0%float 0%float 0).
Proof. repeat split; vm_compute; reflexivity. Qed.

(** One turn of either loop: a processed evidence and a document whose
    confidence is not below 0.3 adds its confidence (0.5 when it has none)
    to [peso_b] when it points at vehicle A, to [peso_a] when it points at
    vehicle B, and half of it to each when it points at both, and is
    counted; an evidence that is not processed and a document whose
    confidence is below 0.3 change nothing. *)
Lemma acumular_pesos_cruzados
    (peso_a peso_b : float) (total : Z) (an : Analisis.t) :
  let confianza := default 0.5%float (Analisis.confianza an) in
  let evidencia := Evidencia.mk (Some true) (Some an) in
  let documento := Documento.mk (Some an) in
  (Analisis.responsabilidad_sugerida an = Some "vehiculo_a" ->
     acumular_evidencia (peso_a, peso_b, total) evidencia
     = (peso_a, (peso_b + confianza)%float, total + 1))
  /\ (Analisis.responsabilidad_sugerida an = Some "vehiculo_b" ->
     acumular_evidencia (peso_a, peso_b, total) evidencia
     = ((peso_a + confianza)%float, peso_b, total + 1))
  /\ (Analisis.responsabilidad_sugerida an = Some "compartida" ->
     acumular_evidencia (peso_a, peso_b, total) evidencia
     = ((peso_a + confianza * 0.5)%float,
        (peso_b + confianza * 0.5)%float, total + 1))
  /\ ((confianza <? 0.3)%float = false ->
      Analisis.responsabilidad_sugerida an = Some "vehiculo_a" ->
     acumular_documento (peso_a, peso_b, total) documento
     = (peso_a, (peso_b + confianza)%float, total + 1))
  /\ ((confianza <? 0.3)%float = false ->
      Analisis.responsabilidad_sugerida an = Some "vehiculo_b" ->
     acumular_documento (peso_a, peso_b, total) documento
     = ((peso_a + confianza)%float, peso_b, total + 1))
  /\ ((confianza <? 0.3)%float = false ->
      Analisis.responsabilidad_sugerida an = Some "compartida" ->
     acumular_documento (peso_a, peso_b, total) documento
     = ((peso_a + confianza * 0.5)%float,
        (peso_b + confianza * 0.5)%float, total + 1))
  /\ (forall e : Evidencia.t,
        default false (Evidencia.procesada e) = false ->
        acumular_evidencia (peso_a, peso_b, total) e = (peso_a, peso_b, total))
  /\ ((confianza <? 0.3)%float = true ->
      acumular_documento (peso_a, peso_b, total) documento
      = (peso_a, peso_b, total)).
Proof.
  intros confianza evidencia documento.
  unfold acumular_evidencia, acumular_documento.
  subst evidencia documento. cbn [Evidencia.procesada Evidencia.analisis
    Documento.clasificacion default from_option id negb].
  fold confianza.
  repeat split.
  - intros ->. reflexivity.
  - intros ->. reflexivity.
  - intros ->. reflexivity.
  - intros -> ->. reflexivity.
  - intros -> ->. reflexivity.
  - intros -> ->. reflexivity.
  - intros e ->. reflexivity.
  - intros ->. reflexivity.
Qed.

(** Both loops against the specification's reading.  One turn adds to each
    accumulator what that reading says, when the item is kept. *)
Lemma acumular_evidencia_segun_spec
    (e : Evidencia.t) (peso_a peso_b : float) (total : Z) :
  acumular_evidencia (peso_a, peso_b, total) e
  = if evidencia_contada e
    then (sumar_segun_spec "vehiculo_b" peso_a (sugerencia_de_evidencia e),
          sumar_segun_spec "vehiculo_a" peso_b (sugerencia_de_evidencia e),
          total + 1)
    else (peso_a, peso_b, total).
Proof.
  unfold acumular_evidencia, evidencia_contada, sumar_segun_spec,
    aporte_segun_spec, sugerencia_de_evidencia.
  destruct (default false (Evidencia.procesada e)); cbn [negb];
    [ | reflexivity].
  destruct (Analisis.responsabilidad_sugerida
              (default Analisis.vacio (Evidencia.analisis e)))
    as [sugerida | ]; [ | reflexivity].
  destruct (String.eqb sugerida "vehiculo_a") eqn:Ea.
  { apply String.eqb_eq in Ea. subst sugerida. reflexivity. }
  destruct (String.eqb sugerida "vehiculo_b") eqn:Eb.
  { apply String.eqb_eq in Eb. subst sugerida. reflexivity. }
  destruct (String.eqb sugerida "compartida"); reflexivity.
Qed.

Lemma acumular_documento_segun_spec
    (d : Documento.t) (peso_a peso_b : float) (total : Z) :
  acumular_documento (peso_a, peso_b, total) d
  = if documento_contado d
    then (sumar_segun_spec "vehiculo_b" peso_a (sugerencia_de_documento d),
          sumar_segun_spec "vehiculo_a" peso_b (sugerencia_de_documento d),
          total + 1)
    else (peso_a, peso_b, total).
Proof.
  unfold acumular_documento, documento_contado, sumar_segun_spec,
    aporte_segun_spec, sugerencia_de_documento.
  destruct (default 0.5%float
              (Analisis.confianza
                 (default Analisis.vacio (Documento.clasificacion d)))
            <? 0.3)%float; cbn [negb]; [reflexivity | ].
  destruct (Analisis.responsabilidad_sugerida
              (default Analisis.vacio (Documento.clasificacion d)))
    as [sugerida | ]; [ | reflexivity].
  destruct (String.eqb sugerida "vehiculo_a") eqn:Ea.
  { apply String.eqb_eq in Ea. subst sugerida. reflexivity. }
  destruct (String.eqb sugerida "vehiculo_b") eqn:Eb.
  { apply String.eqb_eq in Eb. subst sugerida. reflexivity. }
  destruct (String.eqb sugerida "compartida"); reflexivity.
Qed.

(** The accumulators after the items are the two weights of that reading
    over the items kept, and the counter has grown by their number. *)
Lemma fold_evidencias_segun_spec
    (evs : list Evidencia.t) (peso_a peso_b : float) (total : Z) :
  fold_left acumular_evidencia evs (peso_a, peso_b, total)
  = (fold_left (sumar_segun_spec "vehiculo_b")
       (map sugerencia_de_evidencia (List.filter evidencia_contada evs)) peso_a,
     fold_left (sumar_segun_spec "vehiculo_a")
       (map sugerencia_de_evidencia (List.filter evidencia_contada evs)) peso_b,
     total
     + Z.of_nat
         (length (map sugerencia_de_evidencia
                    (List.filter evidencia_contada evs)))).
Proof.
  revert peso_a peso_b total.
  induction evs as [ | e evs IH]; intros peso_a peso_b total.
  - cbn. f_equal. lia.
  - cbn [fold_left List.filter]. rewrite acumular_evidencia_segun_spec.
    destruct (evidencia_contada e).
    + rewrite IH. cbn [map length fold_left]. f_equal. lia.
    + apply IH.
Qed.

Lemma fold_documentos_segun_spec
    (docs : list Documento.t) (peso_a peso_b : float) (total : Z) :
  fold_left acumular_documento docs (peso_a, peso_b, total)
  = (fold_left (sumar_segun_spec "vehiculo_b")
       (map sugerencia_de_documento (List.filter documento_contado docs)) peso_a,
     fold_left (sumar_segun_spec "vehiculo_a")
       (map sugerencia_de_documento (List.filter documento_contado docs)) peso_b,
     total
     + Z.of_nat
         (length (map sugerencia_de_documento
                    (List.filter documento_contado docs)))).
Proof.
  revert peso_a peso_b total.
  induction docs as [ | d docs IH]; intros peso_a peso_b total.
  - cbn. f_equal. lia.
  - cbn [fold_left List.filter]. rewrite acumular_documento_segun_spec.
    destruct (documento_contado d).
    + rewrite IH. cbn [map length fold_left]. f_equal. lia.
    + apply IH.
Qed.

(** C10 (amended): the weights [_calcular_peso_evidencias] and
    [_calcular_peso_documentos] return are crossed.  Over the items kept
    (the processed evidences, the documents whose confidence is not below
    0.3), [peso_b] is what the items pointing at vehicle A add, [peso_a]
    what the items pointing at vehicle B add, an item pointing at both
    adding half of its confidence to each, every sum divided by the number
    of items kept; the items not kept add nothing and are not counted, and
    when none is kept both weights are 0. *)
Theorem C10_weights_are_crossed
    (evs : list Evidencia.t) (docs : list Documento.t) :
  (forall pe, _calcular_peso_evidencias evs = Ok pe ->
     let contadas :=
       map sugerencia_de_evidencia (List.filter evidencia_contada evs) in
     PesoEvidencias.total_evidencias pe = Z.of_nat (length contadas)
     /\ (contadas = [] ->
         PesoEvidencias.peso_a pe = 0%float
         /\ PesoEvidencias.peso_b pe = 0%float)
     /\ (contadas <> [] ->
         exists n,
           Py.float_of_int (Z.of_nat (length contadas)) = Ok n
           /\ PesoEvidencias.peso_a pe
              = (peso_opuesto_segun_spec "vehiculo_b" contadas / n)%float
           /\ PesoEvidencias.peso_b pe
              = (peso_opuesto_segun_spec "vehiculo_a" contadas / n)%float))
  /\ (forall pd, _calcular_peso_documentos docs = Ok pd ->
        let contados :=
          map sugerencia_de_documento (List.filter documento_contado docs) in
        PesoDocumentos.total_documentos pd = Z.of_nat (length contados)
        /\ (contados = [] ->
            PesoDocumentos.peso_a pd = 0%float
            /\ PesoDocumentos.peso_b pd = 0%float)
        /\ (contados <> [] ->
            exists n,
              Py.float_of_int (Z.of_nat (length contados)) = Ok n
              /\ PesoDocumentos.peso_a pd
                 = (peso_opuesto_segun_spec "vehiculo_b" contados / n)%float
              /\ PesoDocumentos.peso_b pd
                 = (peso_opuesto_segun_spec "vehiculo_a" contados / n)%float)).
Proof.
  split.
  - intros pe H. cbv zeta. unfold _calcular_peso_evidencias in H.
    rewrite fold_evidencias_segun_spec in H.
    fold (peso_opuesto_segun_spec "vehiculo_b"
            (map sugerencia_de_evidencia (List.filter evidencia_contada evs))) in H.
    fold (peso_opuesto_segun_spec "vehiculo_a"
            (map sugerencia_de_evidencia (List.filter evidencia_contada evs))) in H.
    set (contadas :=
           map sugerencia_de_evidencia (List.filter evidencia_contada evs)) in *.
    rewrite Z.add_0_l in H.
    destruct contadas as [ | item resto] eqn:E.
    + cbn in H. inversion H; subst pe. cbn. repeat split; congruence.
    + rewrite <- E in *.
      assert (Hpos : (0 <? Z.of_nat (length contadas)) = true)
        by (apply Z.ltb_lt; rewrite E; cbn [length]; lia).
      rewrite Hpos in H. bind_inv H n Hn. inversion H; subst pe.
      cbn. split; [reflexivity | ]. split.
      * intros Hnil. rewrite E in Hnil. discriminate.
      * intros _. exists n. repeat split. exact Hn.
  - intros pd H. cbv zeta. unfold _calcular_peso_documentos in H.
    rewrite fold_documentos_segun_spec in H.
    fold (peso_opuesto_segun_spec "vehiculo_b"
            (map sugerencia_de_documento (List.filter documento_contado docs))) in H.
    fold (peso_opuesto_segun_spec "vehiculo_a"
            (map sugerencia_de_documento (List.filter documento_contado docs))) in H.
    set (contados :=
           map sugerencia_de_documento (List.filter documento_contado docs)) in *.
    rewrite Z.add_0_l in H.
    destruct contados as [ | item resto] eqn:E.
    + cbn in H. inversion H; subst pd. cbn. repeat split; congruence.
    + rewrite <- E in *.
      assert (Hpos : (0 <? Z.of_nat (length contados)) = true)
        by (apply Z.ltb_lt; rewrite E; cbn [length]; lia).
      rewrite Hpos in H. bind_inv H n Hn. inversion H; subst pd.
      cbn. split; [reflexivity | ]. split.
      * intros Hnil. rewrite E in Hnil. discriminate.
      * intros _. exists n. repeat split. exact Hn.
Qed.

Lemma C10_witness :
  exists pe pd,
    _calcular_peso_evidencias
      [ evidencia_de "vehiculo_a" 0.75%float;
        Evidencia.mk (Some false)
          (Some (Analisis.mk (Some "vehiculo_a") (Some 0.875%float)));
        evidencia_de "vehiculo_b" 0.25%float ] = Ok pe
    /\ PesoEvidencias.total_evidencias pe = 2
    /\ PesoEvidencias.peso_a pe = 0.125%float
    /\ PesoEvidencias.peso_b pe = 0.375%float
    /\ _calcular_peso_documentos
         [ documento_de "compartida" 0.5%float;
           documento_de "vehiculo_a" 0.25%float;
           documento_de "vehiculo_b" 1%float ] = Ok pd
    /\ PesoDocumentos.total_documentos pd = 2
    /\ PesoDocumentos.peso_a pd = 0.625%float
    /\ PesoDocumentos.peso_b pd = 0.125%float.
Proof.
  eexists. eexists.
  assert (He : _calcular_peso_evidencias
                 [ evidencia_de "vehiculo_a" 0.75%float;
                   Evidencia.mk (Some false)
                     (Some (Analisis.mk (Some "vehiculo_a") (Some 0.875%float)));
                   evidencia_de "vehiculo_b" 0.25%float ] = Ok ?[pe])
    by (vm_compute; reflexivity).
  assert (Hd : _calcular_peso_documentos
                 [ documento_de "compartida" 0.5%float;
                   documento_de "vehiculo_a" 0.25%float;
                   documento_de "vehiculo_b" 1%float ] = Ok ?[pd])
    by (vm_compute; reflexivity).
  pose proof (C10_weights_are_crossed
                [ evidencia_de "vehiculo_a" 0.75%float;
                  Evidencia.mk (Some false)
                    (Some (Analisis.mk (Some "vehiculo_a") (Some 0.875%float)));
                  evidencia_de "vehiculo_b" 0.25%float ]
                [ documento_de "compartida" 0.5%float;
                  documento_de "vehiculo_a" 0.25%float;
                  documento_de "vehiculo_b" 1%float ]) as [HE HD].
  destruct (HE _ He) as (Hte & _ & Hpe).
  destruct (HD _ Hd) as (Htd & _ & Hpd).
  destruct Hpe as (n & Hn & Hea & Heb); [discriminate | ].
  destruct Hpd as (m & Hm & Hda & Hdb); [discriminate | ].
  vm_compute in Hn. inversion Hn; subst n.
  vm_compute in Hm. inversion Hm; subst m.
  split; [exact He | ].
  split; [rewrite Hte; reflexivity | ].
  split; [rewrite Hea; vm_compute; reflexivity | ].
  split; [rewrite Heb; vm_compute; reflexivity | ].
  split; [exact Hd | ].
  split; [rewrite Htd; reflexivity | ].
  split; [rewrite Hda; vm_compute; reflexivity | ].
  rewrite Hdb; vm_compute; reflexivity.
Defined.

(** The weights handed to the blend are the accumulated sums divided by
    the number of items counted. *)
Lemma _calcular_peso_evidencias_mean
    (evs : list Evidencia.t) (peso_a peso_b : float) (total : Z) (n : float) :
  fold_left acumular_evidencia evs (0%float, 0%float, 0) = (peso_a, peso_b, total) ->
  0 < total -> Py.float_of_int total = Ok n ->
  _calcular_peso_evidencias evs
  = Ok (PesoEvidencias.mk (peso_a / n) (peso_b / n) total).
Proof.
  intros Hfold Hpos Hn. unfold _calcular_peso_evidencias.
  rewrite Hfold. apply Z.ltb_lt in Hpos. rewrite Hpos, Hn. reflexivity.
Qed.

End NegociacionPesos.

Section NegociacionPesosMalformados.

Import Negotiation.

(** *** NaN propagates through the blend *)

Lemma is_nan_Prim2SF (x : float) : is_nan x = true -> Prim2SF x = S754_nan.
Proof.
  unfold is_nan. rewrite FloatAxioms.eqb_spec. unfold SFeqb, SFcompare.
  destruct (Prim2SF x) as [s | s | | s m e]; try reflexivity.
  - destruct s; discriminate.
  - destruct s; discriminate.
  - destruct s; rewrite Z.compare_refl;
      change (PosDef.Pos.compare_cont Eq m m) with (Pos.compare m m);
      rewrite Pos.compare_refl; discriminate.
Qed.

Lemma nan_add_l (x y : float) :
  Prim2SF x = S754_nan -> Prim2SF (x + y) = S754_nan.
Proof. intros H. rewrite add_spec, H. reflexivity. Qed.

Lemma nan_add_r (x y : float) :
  Prim2SF y = S754_nan -> Prim2SF (x + y) = S754_nan.
Proof.
  intros H. rewrite add_spec, H.
  destruct (Prim2SF x) as [ [ | ] | [ | ] | | s m e]; reflexivity.
Qed.

Lemma nan_mul_l (x y : float) :
  Prim2SF x = S754_nan -> Prim2SF (x * y) = S754_nan.
Proof. intros H. rewrite mul_spec, H. reflexivity. Qed.

Lemma nan_ltb_r (x y : float) :
  Prim2SF y = S754_nan -> (x <? y)%float = false.
Proof.
  intros H. rewrite ltb_spec, H. unfold SFltb, SFcompare.
  destruct (Prim2SF x); reflexivity.
Qed.

Create HintDb nan.
#[local] Hint Resolve nan_add_l nan_add_r nan_mul_l : nan.

Lemma _ajustar_distribucion_nan
    (d : Dist.t) (pe : PesoEvidencias.t) (pd : PesoDocumentos.t) :
  0 <= Dist.porcentaje_a d <= 100 -> 0 <= Dist.porcentaje_b d <= 100 ->
  Prim2SF (PesoEvidencias.peso_a pe) = S754_nan
  \/ Prim2SF (PesoEvidencias.peso_b pe) = S754_nan
  \/ Prim2SF (PesoDocumentos.peso_a pd) = S754_nan
  \/ Prim2SF (PesoDocumentos.peso_b pd) = S754_nan ->
  _ajustar_distribucion d pe pd = Ok (Dist.mk 50 50).
Proof.
  intros Ha Hb Hnan. unfold _ajustar_distribucion.
  rewrite (float_of_int_percent _ Ha), (float_of_int_percent _ Hb).
  cbn [Py.bind].
  rewrite nan_ltb_r; [reflexivity | ].
  destruct Hnan as [H | [H | [H | H]]]; eauto 8 with nan.
Qed.

(** *** Every seed is a pair of percentages *)

Lemma pesos_fuera_de_rango (c : Z) : c < 1 \/ 15 < c -> pesos !! c = None.
Proof.
  intros Hc. unfold pesos. apply not_elem_of_list_to_map_1. cbn.
  intros Hin. repeat (apply elem_of_cons in Hin as [-> | Hin]; [lia | ]).
  inversion Hin.
Qed.

Lemma pesos_circunstancia_normal (c : Z) :
  pesos !! c = pesos !! circunstancia_normal c.
Proof.
  unfold circunstancia_normal.
  destruct ((1 <=? c) && (c <=? 15)) eqn:E; [reflexivity | ].
  rewrite pesos_fuera_de_rango; [reflexivity | ].
  apply andb_false_iff in E. destruct E as [E | E];
    [apply Z.leb_gt in E | apply Z.leb_gt in E]; lia.
Qed.

Lemma _distribucion_inicial_normal (ca cb : Z) :
  _distribucion_inicial ca cb
  = _distribucion_inicial (circunstancia_normal ca) (circunstancia_normal cb).
Proof.
  unfold _distribucion_inicial.
  rewrite <- !pesos_circunstancia_normal. reflexivity.
Qed.

Lemma semillas_en_rango :
  forallb (fun ca => forallb (semilla_en_rango ca) (seqZ 0 16)) (seqZ 0 16) = true.
Proof. vm_compute. reflexivity. Qed.

Lemma circunstancia_normal_en_rango (c : Z) :
  In (circunstancia_normal c) (seqZ 0 16).
Proof.
  apply list_elem_of_In, elem_of_seqZ. unfold circunstancia_normal.
  destruct ((1 <=? c) && (c <=? 15)) eqn:E; [ | lia].
  apply andb_prop in E. destruct E as [E1 E2].
  apply Z.leb_le in E1, E2. lia.
Qed.

(** The seed never raises, for any two ints. *)
Lemma _distribucion_inicial_total (ca cb : Z) :
  exists d,
    _distribucion_inicial ca cb = Ok d
    /\ 0 <= Dist.porcentaje_a d <= 100
    /\ 0 <= Dist.porcentaje_b d <= 100.
Proof.
  rewrite _distribucion_inicial_normal.
  pose proof semillas_en_rango as H. rewrite forallb_forall in H.
  specialize (H _ (circunstancia_normal_en_rango ca)).
  rewrite forallb_forall in H.
  specialize (H _ (circunstancia_normal_en_rango cb)).
  unfold semilla_en_rango in H.
  destruct (_distribucion_inicial _ _) as [d | e | ]; try discriminate.
  exists d. split; [reflexivity | ].
  repeat (apply andb_prop in H; destruct H as [H ?]).
  repeat match goal with
         | E : (_ <=? _) = true |- _ => apply Z.leb_le in E
         end.
  lia.
Qed.

(** *** The loop under a NaN weight *)

Lemma bucle_negociacion_nan
    (pe : PesoEvidencias.t) (pd : PesoDocumentos.t) (d0 : Dist.t) :
  0 <= Dist.porcentaje_a d0 <= 100 -> 0 <= Dist.porcentaje_b d0 <= 100 ->
  Prim2SF (PesoEvidencias.peso_a pe) = S754_nan
  \/ Prim2SF (PesoEvidencias.peso_b pe) = S754_nan
  \/ Prim2SF (PesoDocumentos.peso_a pd) = S754_nan
  \/ Prim2SF (PesoDocumentos.peso_b pd) = S754_nan ->
  exists n,
    bucle_negociacion fuel_negociacion pe pd (Estado.mk d0 0)
    = Ok (Estado.mk (Dist.mk 50 50) n)
    /\ 0 <= n <= 1.
Proof.
  intros Ha Hb Hnan.
  change fuel_negociacion with 6%nat.
  cbn [bucle_negociacion Estado.iteracion Estado.distribucion_actual].
  change (0 <? max_iteraciones) with true. cbv iota.
  rewrite (_ajustar_distribucion_nan d0 pe pd Ha Hb Hnan). cbn [Py.bind].
  destruct (_converge d0 (Dist.mk 50 50)).
  - exists 0. split; [reflexivity | lia].
  - change (0 + 1 <? max_iteraciones) with true. cbv iota.
    rewrite (_ajustar_distribucion_nan (Dist.mk 50 50) pe pd)
      by (cbn; auto; lia).
    cbn [Py.bind].
    replace (_converge (Dist.mk 50 50) (Dist.mk 50 50)) with true
      by (symmetry; apply _converge_iff; reflexivity).
    exists 1. split; [reflexivity | lia].
Qed.

(** *** What [negociar] can raise *)

Lemma _ajustar_distribucion_raises
    (d : Dist.t) (pe : PesoEvidencias.t) (pd : PesoDocumentos.t) (e : exc) :
  _ajustar_distribucion d pe pd = Raise e ->
  e = ValueError \/ e = OverflowError.
Proof.
  unfold _ajustar_distribucion. intros H. raise_inv H.
  destruct (0 <? _)%float; raise_inv H.
Qed.

Lemma _calcular_peso_evidencias_raises (evs : list Evidencia.t) (e : exc) :
  _calcular_peso_evidencias evs = Raise e -> e = OverflowError.
Proof.
  unfold _calcular_peso_evidencias.
  destruct (fold_left _ _ _) as [[a b] n].
  destruct (0 <? n); [ | discriminate].
  intros H. apply bind_Raise_inv in H.
  destruct H as [H | (f & _ & H)]; [ | discriminate].
  now apply float_of_int_raises in H.
Qed.

Lemma _calcular_peso_documentos_raises (docs : list Documento.t) (e : exc) :
  _calcular_peso_documentos docs = Raise e -> e = OverflowError.
Proof.
  unfold _calcular_peso_documentos.
  destruct (fold_left _ _ _) as [[a b] n].
  destruct (0 <? n); [ | discriminate].
  intros H. apply bind_Raise_inv in H.
  destruct H as [H | (f & _ & H)]; [ | discriminate].
  now apply float_of_int_raises in H.
Qed.

Lemma bucle_negociacion_raises
    (pe : PesoEvidencias.t) (pd : PesoDocumentos.t) (e : exc) :
  forall fuel s,
    bucle_negociacion fuel pe pd s = Raise e ->
    e = ValueError \/ e = OverflowError.
Proof.
  induction fuel as [ | fuel IH]; intros s H; cbn in H; [discriminate | ].
  destruct (Estado.iteracion s <? max_iteraciones); [ | discriminate].
  apply bind_Raise_inv in H.
  destruct H as [H | (d' & _ & H)];
    [eapply _ajustar_distribucion_raises; eauto | ].
  destruct (_converge _ d'); [discriminate | eauto].
Qed.

Lemma negociar_raises
    (ca cb : Z) (docs : list Documento.t) (evs : list Evidencia.t) (e : exc) :
  negociar ca cb docs evs = Raise e -> e = ValueError \/ e = OverflowError.
Proof.
  unfold negociar. intros H.
  apply bind_Raise_inv in H. destruct H as [H | (d0 & _ & H)].
  { destruct (_distribucion_inicial_total ca cb) as (d & Hd & _). congruence. }
  apply bind_Raise_inv in H. destruct H as [H | (pe & _ & H)].
  { apply _calcular_peso_evidencias_raises in H. auto. }
  apply bind_Raise_inv in H. destruct H as [H | (pd & _ & H)].
  { apply _calcular_peso_documentos_raises in H. auto. }
  apply bind_Raise_inv in H. destruct H as [H | (final & _ & H)];
    [ | discriminate].
  eapply bucle_negociacion_raises; eauto.
Qed.

(** *** C5 *)

(** C5, as stated, fails: with a negative confidence, and with a NaN one,
    the aggregated weight is negative, or NaN, and [negociar] still
    returns a result (with a negative percentage in the first case). *)
Lemma C5_malformed_weights_return_a_result :
  exists pe1 r1 pe2 r2,
    _calcular_peso_evidencias [evidencia_de "vehiculo_a" (-1)%float] = Ok pe1
    /\ (PesoEvidencias.peso_b pe1 <? 0)%float = true
    /\ negociar 5 5 [] [evidencia_de "vehiculo_a" (-1)%float] = Ok r1
    /\ Resp.porcentaje_a r1 = Some 4892
    /\ Resp.porcentaje_b r1 = Some (-4792)
    /\ _calcular_peso_evidencias [evidencia_de "vehiculo_a" nan] = Ok pe2
    /\ is_nan (PesoEvidencias.peso_b pe2) = true
    /\ negociar 1 2 [] [evidencia_de "vehiculo_a" nan] = Ok r2
    /\ Resp.porcentaje_a r2 = Some 50
    /\ Resp.porcentaje_b r2 = Some 50.
Proof.
  do 4 eexists.
  split; [vm_compute; reflexivity | ].
  split; [vm_compute; reflexivity | ].
  split; [vm_compute; reflexivity | ].
  split; [reflexivity | ].
  split; [reflexivity | ].
  split; [vm_compute; reflexivity | ].
  split; [vm_compute; reflexivity | ].
  split; [vm_compute; reflexivity | ].
  split; reflexivity.
Qed.

(** C5 (amended): [negociar] does not validate the weights.  It raises
    nothing but the ValueError or OverflowError of a rounding or of an
    int-to-float conversion; and when one of the four aggregated weights
    is NaN, every iteration falls back to 50/50, so the call returns
    compartida 50/50, converged after at most one counted iteration. *)
Theorem C5_weights_are_not_validated
    (ca cb : Z) (docs : list Documento.t) (evs : list Evidencia.t) :
  (forall e, negociar ca cb docs evs = Raise e ->
     e = ValueError \/ e = OverflowError)
  /\ (forall pe pd,
        _calcular_peso_evidencias evs = Ok pe ->
        _calcular_peso_documentos docs = Ok pd ->
        is_nan (PesoEvidencias.peso_a pe) = true
        \/ is_nan (PesoEvidencias.peso_b pe) = true
        \/ is_nan (PesoDocumentos.peso_a pd) = true
        \/ is_nan (PesoDocumentos.peso_b pd) = true ->
        exists r n,
          negociar ca cb docs evs = Ok r
          /\ Resp.responsable r = Some "compartida"
          /\ Resp.porcentaje_a r = Some 50
          /\ Resp.porcentaje_b r = Some 50
          /\ Resp.iteraciones r = Some n
          /\ 0 <= n <= 1
          /\ Resp.convergio r = Some true).
Proof.
  split; [intros e; apply negociar_raises | ].
  intros pe pd Hpe Hpd Hnan.
  assert (Hnan' :
    Prim2SF (PesoEvidencias.peso_a pe) = S754_nan
    \/ Prim2SF (PesoEvidencias.peso_b pe) = S754_nan
    \/ Prim2SF (PesoDocumentos.peso_a pd) = S754_nan
    \/ Prim2SF (PesoDocumentos.peso_b pd) = S754_nan).
  { destruct Hnan as [H | [H | [H | H]]]; apply is_nan_Prim2SF in H; auto. }
  destruct (_distribucion_inicial_total ca cb) as (d0 & Hd0 & Ha & Hb).
  destruct (bucle_negociacion_nan pe pd d0 Ha Hb Hnan') as (n & Hloop & Hn).
  unfold negociar. rewrite Hd0, Hpe, Hpd. cbn [Py.bind].
  rewrite Hloop. cbn [Py.bind Estado.distribucion_actual Estado.iteracion
                      Dist.porcentaje_a Dist.porcentaje_b].
  eexists. exists n.
  split; [reflexivity | ]. cbn [Resp.responsable Resp.porcentaje_a
    Resp.porcentaje_b Resp.iteraciones Resp.convergio].
  split; [reflexivity | ]. split; [reflexivity | ]. split; [reflexivity | ].
  split; [reflexivity | ]. split; [exact Hn | ].
  f_equal. apply Z.ltb_lt. unfold max_iteraciones. lia.
Qed.

Lemma C5_witness :
  exists r n,
    negociar 13 6 [] [evidencia_de "vehiculo_a" nan] = Ok r
    /\ Resp.responsable r = Some "compartida"
    /\ Resp.porcentaje_a r = Some 50
    /\ Resp.porcentaje_b r = Some 50
    /\ Resp.iteraciones r = Some n
    /\ 0 <= n <= 1
    /\ Resp.convergio r = Some true.
Proof.
  eapply (proj2 (C5_weights_are_not_validated
                   13 6 [] [evidencia_de "vehiculo_a" nan])).
  - vm_compute. reflexivity.
  - vm_compute. reflexivity.
  - right. left. vm_compute. reflexivity.
Defined.

End NegociacionPesosMalformados.


(** * Further properties of the code *)

(** ** The matrix and its interpreters *)

Lemma rango_forallb (P : Z -> Z -> bool) :
  forallb (fun a => forallb (P a) (seqZ 1 15)) (seqZ 1 15) = true ->
  forall a b, 1 <= a <= 15 -> 1 <= b <= 15 -> P a b = true.
Proof.
  intros H a b Ha Hb. rewrite forallb_forall in H.
  assert (Hin : In a (seqZ 1 15)) by (apply list_elem_of_In, elem_of_seqZ; lia).
  specialize (H a Hin). rewrite forallb_forall in H.
  apply H, list_elem_of_In, elem_of_seqZ. lia.
Qed.

Lemma fuera_de_rango (ca cb : Z) :
  ~ (1 <= ca <= 15 /\ 1 <= cb <= 15) ->
  negb ((1 <=? ca) && (ca <=? 15) && ((1 <=? cb) && (cb <=? 15))) = true.
Proof.
  intros H. apply negb_true_iff.
  destruct ((1 <=? ca) && (ca <=? 15) && ((1 <=? cb) && (cb <=? 15))) eqn:E;
    [ | reflexivity].
  exfalso. apply H.
  repeat (apply andb_prop in E; destruct E as [E ?]).
  repeat match goal with
         | G : (_ <=? _) = true |- _ => apply Z.leb_le in G
         end.
  lia.
Qed.

Lemma determinar_responsabilidad_fuera_de_rango (ca cb : Z) :
  ~ (1 <= ca <= 15 /\ 1 <= cb <= 15) ->
  Rules.determinar_responsabilidad ca cb
  = Ok {| Resp.responsable := Some "error";
          Resp.porcentaje_a := None;
          Resp.porcentaje_b := None;
          Resp.justificacion := None;
          Resp.mensaje := Some "Las circunstancias deben estar entre 1 y 15";
          Resp.codigo_matriz := None;
          Resp.iteraciones := None;
          Resp.convergio := None |}.
Proof.
  intros Hout. unfold Rules.determinar_responsabilidad.
  rewrite (fuera_de_rango ca cb Hout). reflexivity.
Qed.

(** X1: the range test comes before the two list accesses, so the lookup
    returns for every pair of ints and raises nothing (no index out of
    range, and no negative index wrapping around to the last rows).  In
    range the result is never the error dict; out of range it is exactly
    the error dict with the range message, without percentages and without
    a cell code. *)
Theorem X1_lookup_is_guarded_by_the_range_test (ca cb : Z) :
  exists r,
    Rules.determinar_responsabilidad ca cb = Ok r
    /\ ((1 <= ca <= 15 /\ 1 <= cb <= 15) ->
        Resp.responsable r <> Some "error")
    /\ (~ (1 <= ca <= 15 /\ 1 <= cb <= 15) ->
        r = {| Resp.responsable := Some "error";
               Resp.porcentaje_a := None;
               Resp.porcentaje_b := None;
               Resp.justificacion := None;
               Resp.mensaje := Some "Las circunstancias deben estar entre 1 y 15";
               Resp.codigo_matriz := None;
               Resp.iteraciones := None;
               Resp.convergio := None |}).
Proof.
  destruct (decide (1 <= ca <= 15 /\ 1 <= cb <= 15)) as [Hin | Hout].
  - destruct Hin as [Ha Hb].
    pose proof (celda_determinada_en_rango ca cb Ha Hb) as H.
    unfold celda_determinada in H.
    destruct (Rules.determinar_responsabilidad ca cb) as [r | e | ];
      try discriminate.
    exists r. split; [reflexivity | ]. split; [ | tauto].
    intros _ Herr. rewrite Herr in H.
    destruct (Resp.codigo_matriz r); discriminate.
  - eexists. split; [exact (determinar_responsabilidad_fuera_de_rango ca cb Hout) | ].
    split; [tauto | reflexivity].
Qed.

(** The shape of every dict the interpreter of rules.py builds. *)
Lemma _interpretar_codigo_forma (codigo : string) (ca cb : Z) :
  let r := Rules._interpretar_codigo codigo ca cb in
  (Resp.responsable r = Some "vehiculo_a"
   /\ Resp.porcentaje_a r = Some 100 /\ Resp.porcentaje_b r = Some 0
   /\ Resp.mensaje r = None /\ Resp.justificacion r <> None)
  \/ (Resp.responsable r = Some "vehiculo_b"
      /\ Resp.porcentaje_a r = Some 0 /\ Resp.porcentaje_b r = Some 100
      /\ Resp.mensaje r = None /\ Resp.justificacion r <> None)
  \/ (Resp.responsable r = Some "compartida"
      /\ Resp.porcentaje_a r = Some 50 /\ Resp.porcentaje_b r = Some 50
      /\ Resp.mensaje r = None /\ Resp.justificacion r <> None)
  \/ ((Resp.responsable r = Some "no_aplica"
       \/ Resp.responsable r = Some "indeterminado"
       \/ Resp.responsable r = Some "error")
      /\ Resp.porcentaje_a r = None /\ Resp.porcentaje_b r = None
      /\ Resp.mensaje r <> None /\ Resp.justificacion r = None).
Proof.
  unfold Rules._interpretar_codigo. cbv zeta.
  destruct (String.eqb codigo "A");
    [left; cbn; repeat split; discriminate | ].
  destruct (String.eqb codigo "B");
    [right; left; cbn; repeat split; discriminate | ].
  destruct (String.eqb codigo "C");
    [right; right; left; cbn; repeat split; discriminate | ].
  right; right; right.
  destruct (String.eqb codigo "NA"); [cbn; repeat split; auto; discriminate | ].
  destruct (String.eqb codigo "NRD"); cbn; repeat split; auto; discriminate.
Qed.

(** The shape of every dict the lookup returns. *)
Lemma determinar_responsabilidad_forma (ca cb : Z) (r : Resp.t) :
  Rules.determinar_responsabilidad ca cb = Ok r ->
  (Resp.responsable r = Some "vehiculo_a"
   /\ Resp.porcentaje_a r = Some 100 /\ Resp.porcentaje_b r = Some 0
   /\ Resp.mensaje r = None /\ Resp.justificacion r <> None)
  \/ (Resp.responsable r = Some "vehiculo_b"
      /\ Resp.porcentaje_a r = Some 0 /\ Resp.porcentaje_b r = Some 100
      /\ Resp.mensaje r = None /\ Resp.justificacion r <> None)
  \/ (Resp.responsable r = Some "compartida"
      /\ Resp.porcentaje_a r = Some 50 /\ Resp.porcentaje_b r = Some 50
      /\ Resp.mensaje r = None /\ Resp.justificacion r <> None)
  \/ ((Resp.responsable r = Some "no_aplica"
       \/ Resp.responsable r = Some "error")
      /\ Resp.porcentaje_a r = None /\ Resp.porcentaje_b r = None
      /\ Resp.mensaje r <> None /\ Resp.justificacion r = None).
Proof.
  intros Hr.
  destruct (decide (1 <= ca <= 15 /\ 1 <= cb <= 15)) as [Hin | Hout].
  - destruct Hin as [Ha Hb].
    pose proof (celda_determinada_en_rango ca cb Ha Hb) as Hcell.
    unfold celda_determinada in Hcell. rewrite Hr in Hcell.
    revert Hr. unfold Rules.determinar_responsabilidad.
    destruct (negb _); [intros Hr; inversion Hr; subst r; discriminate | ].
    intros Hr. bind_inv Hr fila Hfila. bind_inv Hr codigo Hcodigo.
    inversion Hr as [Hr']. rewrite Hr' in *.
    pose proof (_interpretar_codigo_forma codigo ca cb) as Hforma.
    cbv zeta in Hforma. rewrite Hr' in Hforma.
    destruct Hforma as [H | [H | [H | H]]]; auto.
    right; right; right.
    destruct H as ([H | [H | H]] & Hrest); auto.
    exfalso. rewrite H in Hcell.
    destruct (Resp.codigo_matriz r); discriminate.
  - rewrite (determinar_responsabilidad_fuera_de_rango ca cb Hout) in Hr.
    inversion Hr; subst r. right; right; right. cbn.
    repeat split; auto; discriminate.
Qed.

(** X2: whatever the two ints, the dict the lookup returns has one of four
    shapes: vehiculo_a with 100/0, vehiculo_b with 0/100, compartida with
    50/50, each with a justification and no message; or no_aplica or error,
    with a message and neither percentages nor justification.  So the
    percentages, when present, add up to 100 and agree with [responsable]. *)
Theorem X2_lookup_result_shape (ca cb : Z) (r : Resp.t) :
  Rules.determinar_responsabilidad ca cb = Ok r ->
  (Resp.responsable r = Some "vehiculo_a"
   /\ Resp.porcentaje_a r = Some 100 /\ Resp.porcentaje_b r = Some 0
   /\ Resp.mensaje r = None /\ Resp.justificacion r <> None)
  \/ (Resp.responsable r = Some "vehiculo_b"
      /\ Resp.porcentaje_a r = Some 0 /\ Resp.porcentaje_b r = Some 100
      /\ Resp.mensaje r = None /\ Resp.justificacion r <> None)
  \/ (Resp.responsable r = Some "compartida"
      /\ Resp.porcentaje_a r = Some 50 /\ Resp.porcentaje_b r = Some 50
      /\ Resp.mensaje r = None /\ Resp.justificacion r <> None)
  \/ ((Resp.responsable r = Some "no_aplica"
       \/ Resp.responsable r = Some "error")
      /\ Resp.porcentaje_a r = None /\ Resp.porcentaje_b r = None
      /\ Resp.mensaje r <> None /\ Resp.justificacion r = None).
Proof. exact (determinar_responsabilidad_forma ca cb r). Qed.

Lemma X2_witness :
  exists r,
    Rules.determinar_responsabilidad 4 5 = Ok r
    /\ Resp.responsable r = Some "compartida"
    /\ Resp.porcentaje_a r = Some 50 /\ Resp.porcentaje_b r = Some 50.
Proof.
  eexists.
  assert (H : Rules.determinar_responsabilidad 4 5 = Ok ?[r])
    by (vm_compute; reflexivity).
  split; [exact H | ].
  destruct (X2_lookup_result_shape 4 5 _ H)
    as [(Hk & _) | [(Hk & _) | [(Hk & Ha & Hb & _) | ([Hk | Hk] & _)]]];
    try discriminate Hk.
  split; [exact Hk | ]. split; [exact Ha | exact Hb].
Defined.

Lemma celdas_intercambiadas :
  forallb (fun ca => forallb (celda_intercambiada ca) (seqZ 1 15)) (seqZ 1 15)
  = true.
Proof. vm_compute. reflexivity. Qed.

(** X3: exchanging the two vehicles exchanges the verdict of the matrix
    (vehiculo_a becomes vehiculo_b and back, compartida and no_aplica stay),
    for every pair of circumstances in range but one: for circumstances 1
    and 15 the table blames vehicle B in both orders.  In particular two
    equal circumstances never make one vehicle solely responsible. *)
Theorem X3_exchanging_vehicles_exchanges_blame (ca cb : Z) :
  1 <= ca <= 15 -> 1 <= cb <= 15 ->
  exists k1 k2,
    responsable_de (Rules.determinar_responsabilidad ca cb) = Some k1
    /\ responsable_de (Rules.determinar_responsabilidad cb ca) = Some k2
    /\ ((ca = 1 /\ cb = 15) \/ (ca = 15 /\ cb = 1) ->
        k1 = "vehiculo_b" /\ k2 = "vehiculo_b")
    /\ (~ ((ca = 1 /\ cb = 15) \/ (ca = 15 /\ cb = 1)) ->
        k2 = intercambiar k1)
    /\ (ca = cb -> k1 = "compartida" \/ k1 = "no_aplica").
Proof.
  intros Ha Hb.
  pose proof (rango_forallb celda_intercambiada celdas_intercambiadas
                ca cb Ha Hb) as H.
  unfold celda_intercambiada in H.
  destruct (responsable_de (Rules.determinar_responsabilidad ca cb))
    as [k1 | ]; [ | discriminate].
  destruct (responsable_de (Rules.determinar_responsabilidad cb ca))
    as [k2 | ]; [ | discriminate].
  exists k1, k2. split; [reflexivity | ]. split; [reflexivity | ].
  apply andb_prop in H. destruct H as [Hswap Hdiag].
  split; [ | split].
  - intros Hex.
    replace (((ca =? 1) && (cb =? 15)) || ((ca =? 15) && (cb =? 1))) with true
      in Hswap
      by (symmetry; destruct Hex as [[-> ->] | [-> ->]]; reflexivity).
    apply andb_prop in Hswap. destruct Hswap as [H1 H2].
    apply String.eqb_eq in H1, H2. auto.
  - intros Hne.
    replace (((ca =? 1) && (cb =? 15)) || ((ca =? 15) && (cb =? 1))) with false
      in Hswap.
    + apply String.eqb_eq in Hswap. exact Hswap.
    + symmetry. apply orb_false_iff. split; apply andb_false_iff.
      * destruct (Z.eqb_spec ca 1); [ | auto].
        destruct (Z.eqb_spec cb 15); [ | auto]. tauto.
      * destruct (Z.eqb_spec ca 15); [ | auto].
        destruct (Z.eqb_spec cb 1); [ | auto]. tauto.
  - intros Heq. apply Z.eqb_eq in Heq. rewrite Heq in Hdiag.
    apply orb_prop in Hdiag. destruct Hdiag as [Hd | Hd];
      apply String.eqb_eq in Hd; auto.
Qed.

Lemma X3_witness :
  exists k1 k2,
    responsable_de (Rules.determinar_responsabilidad 13 6) = Some k1
    /\ responsable_de (Rules.determinar_responsabilidad 6 13) = Some k2
    /\ k2 = intercambiar k1.
Proof.
  destruct (X3_exchanging_vehicles_exchanges_blame 13 6 ltac:(lia) ltac:(lia))
    as (k1 & k2 & H1 & H2 & _ & Hswap & _).
  exists k1, k2. split; [exact H1 | ]. split; [exact H2 | ].
  apply Hswap. lia.
Defined.

Lemma descripciones_en_rango (c : Z) :
  1 <= c <= 15 -> exists desc, descripciones !! c = Some desc.
Proof.
  intros Hc.
  assert (Hin : In c (seqZ 1 15)) by (apply list_elem_of_In, elem_of_seqZ; lia).
  revert Hin.
  assert (Hall : forallb (fun c => match descripciones !! c with
                                   | Some _ => true | None => false end)
                         (seqZ 1 15) = true) by (vm_compute; reflexivity).
  rewrite forallb_forall in Hall. intros Hin. apply Hall in Hin.
  destruct (descripciones !! c) as [desc | ]; [eauto | discriminate].
Qed.

(** X4: the prediction model carries the same 15 x 15 table as the matrix
    of rules.py, and its interpreter agrees with the one of rules.py on
    [responsable], the percentages, the message and the cell code for every
    code and every pair of ints; the justification agrees too when both
    circumstances are in 1..15 (outside, the two spell the unknown
    circumstance differently). *)
Theorem X4_model_copy_agrees_with_rules (codigo : string) (ca cb : Z) :
  Model.matriz = Rules.matriz
  /\ (let p := Model._interpretar_codigo codigo ca cb in
      let r := Rules._interpretar_codigo codigo ca cb in
      Prediccion.responsable p = Resp.responsable r
      /\ Prediccion.porcentaje_a p = Resp.porcentaje_a r
      /\ Prediccion.porcentaje_b p = Resp.porcentaje_b r
      /\ Prediccion.mensaje p = Resp.mensaje r
      /\ Prediccion.codigo_matriz p = Resp.codigo_matriz r
      /\ Prediccion.circunstancia_a p = Some ca
      /\ Prediccion.circunstancia_b p = Some cb
      /\ (1 <= ca <= 15 -> 1 <= cb <= 15 -> p = como_prediccion r ca cb)).
Proof.
  split; [reflexivity | ]. cbv zeta.
  unfold Model._interpretar_codigo, Rules._interpretar_codigo,
    Rules._obtener_info_circunstancias, como_prediccion.
  destruct (String.eqb codigo "A"); [ | destruct (String.eqb codigo "B");
    [ | destruct (String.eqb codigo "C"); [ | destruct (String.eqb codigo "NA");
    [ | destruct (String.eqb codigo "NRD")]]]];
    cbn [Prediccion.responsable Prediccion.porcentaje_a Prediccion.porcentaje_b
         Prediccion.mensaje Prediccion.codigo_matriz Prediccion.circunstancia_a
         Prediccion.circunstancia_b Resp.responsable Resp.porcentaje_a
         Resp.porcentaje_b Resp.mensaje Resp.codigo_matriz Resp.justificacion
         fst snd];
    (do 7 (split; [reflexivity | ])); intros Ha Hb;
    destruct (descripciones_en_rango ca Ha) as (da & Hda);
    destruct (descripciones_en_rango cb Hb) as (db & Hdb);
    rewrite ?Hda, ?Hdb; reflexivity.
Qed.

Lemma X4_witness :
  Model._interpretar_codigo "C" 4 5
  = como_prediccion (Rules._interpretar_codigo "C" 4 5) 4 5.
Proof.
  apply (proj2 (X4_model_copy_agrees_with_rules "C" 4 5)); lia.
Defined.

(** ** The seed of the negotiation *)

Section Semillas.

Import Negotiation.

Lemma normal_forallb (P : Z -> Z -> bool) :
  forallb (fun a => forallb (P a) (seqZ 0 16)) (seqZ 0 16) = true ->
  forall a b, P (circunstancia_normal a) (circunstancia_normal b) = true.
Proof.
  intros H a b. rewrite forallb_forall in H.
  specialize (H _ (circunstancia_normal_en_rango a)).
  rewrite forallb_forall in H.
  exact (H _ (circunstancia_normal_en_rango b)).
Qed.

Lemma peso_de_normal (c : Z) : peso_de c = peso_de (circunstancia_normal c).
Proof. unfold peso_de. rewrite <- pesos_circunstancia_normal. reflexivity. Qed.

Lemma semilla_reflejada_normal (ca cb : Z) :
  semilla_reflejada ca cb
  = semilla_reflejada (circunstancia_normal ca) (circunstancia_normal cb).
Proof.
  unfold semilla_reflejada.
  rewrite (_distribucion_inicial_normal ca cb),
          (_distribucion_inicial_normal cb ca),
          (peso_de_normal ca), (peso_de_normal cb).
  reflexivity.
Qed.

Lemma semillas_reflejadas :
  forallb (fun ca => forallb (semilla_reflejada ca) (seqZ 0 16)) (seqZ 0 16)
  = true.
Proof. vm_compute. reflexivity. Qed.

(** X5: for every pair of ints the seed is computed without raising, both
    percentages lie between 17 and 83 (so a seed alone never reaches the 90
    of a sole responsibility), and exchanging the circumstances exchanges
    the percentages.  The share of A grows with the weight of B's
    circumstance: it is above 50 when A's circumstance weighs less than B's,
    and 50 when they weigh the same. *)
Theorem X5_seed_is_mirrored_and_bounded (ca cb : Z) :
  exists d d',
    _distribucion_inicial ca cb = Ok d
    /\ _distribucion_inicial cb ca = Ok d'
    /\ 17 <= Dist.porcentaje_a d <= 83
    /\ 17 <= Dist.porcentaje_b d <= 83
    /\ Dist.porcentaje_a d' = Dist.porcentaje_b d
    /\ Dist.porcentaje_b d' = Dist.porcentaje_a d
    /\ ((peso_de ca <? peso_de cb)%float = true -> 50 < Dist.porcentaje_a d)
    /\ ((peso_de ca =? peso_de cb)%float = true -> Dist.porcentaje_a d = 50).
Proof.
  pose proof (normal_forallb semilla_reflejada semillas_reflejadas ca cb) as H.
  rewrite <- semilla_reflejada_normal in H. unfold semilla_reflejada in H.
  destruct (_distribucion_inicial ca cb) as [d | | ] eqn:Hd; try discriminate.
  destruct (_distribucion_inicial cb ca) as [d' | | ]; try discriminate.
  pose proof (_distribucion_inicial_suma ca cb d Hd) as Hsum.
  unfold suma_100 in Hsum.
  repeat (apply andb_prop in H; destruct H as [H ?]).
  repeat match goal with
         | G : (_ <=? _) = true |- _ => apply Z.leb_le in G
         | G : (_ =? _) = true |- _ => apply Z.eqb_eq in G
         end.
  exists d, d'. repeat split; try reflexivity; try lia.
  - intros Hlt.
    match goal with
    | G : (if (peso_de ca <? peso_de cb)%float then _ else _) = true |- _ =>
        rewrite Hlt in G; apply Z.ltb_lt in G; exact G
    end.
  - intros Heq.
    match goal with
    | G : (if (peso_de ca =? peso_de cb)%float then _ else _) = true |- _ =>
        rewrite Heq in G; apply Z.eqb_eq in G; exact G
    end.
Qed.

Lemma X5_witness :
  exists d, _distribucion_inicial 15 13 = Ok d /\ 50 < Dist.porcentaje_a d.
Proof.
  destruct (X5_seed_is_mirrored_and_bounded 15 13)
    as (d & d' & Hd & _ & _ & _ & _ & _ & Hlt & _).
  exists d. split; [exact Hd | ]. apply Hlt. vm_compute. reflexivity.
Defined.

(** X6: a circumstance outside 1..15 is not rejected by the negotiation:
    it gets the default weight 5.0, the weight of circumstance 14, so the
    seed is the one of circumstance 14 in its place. *)
Theorem X6_unknown_circumstance_seeds_like_14 (c otra : Z) :
  c < 1 \/ 15 < c ->
  _distribucion_inicial c otra = _distribucion_inicial 14 otra
  /\ _distribucion_inicial otra c = _distribucion_inicial otra 14.
Proof.
  intros Hc. unfold _distribucion_inicial.
  rewrite (pesos_fuera_de_rango c Hc).
  replace (pesos !! 14) with (Some 5.0%float) by (vm_compute; reflexivity).
  split; reflexivity.
Qed.

Lemma X6_witness :
  _distribucion_inicial 99 13 = _distribucion_inicial 14 13.
Proof.
  apply (proj1 (X6_unknown_circumstance_seeds_like_14 99 13 ltac:(lia))).
Defined.

End Semillas.

(** ** The aggregation of the weights *)

Section Agregacion.

Import Negotiation.

Lemma acumular_evidencia_total (acc : float * float * Z) (e : Evidencia.t) :
  (acumular_evidencia acc e).2
  = acc.2 + (if evidencia_contada e then 1 else 0).
Proof.
  destruct acc as [[a b] n]. unfold acumular_evidencia, evidencia_contada.
  destruct (default false (Evidencia.procesada e)); cbn [negb snd]; [ | lia].
  destruct (Analisis.responsabilidad_sugerida _) as [s | ]; [ | reflexivity].
  destruct (String.eqb s "vehiculo_a"); [reflexivity | ].
  destruct (String.eqb s "vehiculo_b"); [reflexivity | ].
  destruct (String.eqb s "compartida"); reflexivity.
Qed.

Lemma acumular_documento_total (acc : float * float * Z) (d : Documento.t) :
  (acumular_documento acc d).2
  = acc.2 + (if documento_contado d then 1 else 0).
Proof.
  destruct acc as [[a b] n]. unfold acumular_documento, documento_contado.
  destruct (_ <? 0.3)%float; cbn [negb snd]; [lia | ].
  destruct (Analisis.responsabilidad_sugerida _) as [s | ]; [ | reflexivity].
  destruct (String.eqb s "vehiculo_a"); [reflexivity | ].
  destruct (String.eqb s "vehiculo_b"); [reflexivity | ].
  destruct (String.eqb s "compartida"); reflexivity.
Qed.

Lemma fold_evidencias_total (evs : list Evidencia.t) :
  forall acc,
    (fold_left acumular_evidencia evs acc).2
    = acc.2 + Z.of_nat (length (List.filter evidencia_contada evs)).
Proof.
  induction evs as [ | e evs IH]; intros acc; cbn [fold_left List.filter].
  - cbn. lia.
  - rewrite IH, acumular_evidencia_total.
    destruct (evidencia_contada e); cbn [length]; lia.
Qed.

Lemma fold_documentos_total (docs : list Documento.t) :
  forall acc,
    (fold_left acumular_documento docs acc).2
    = acc.2 + Z.of_nat (length (List.filter documento_contado docs)).
Proof.
  induction docs as [ | d docs IH]; intros acc; cbn [fold_left List.filter].
  - cbn. lia.
  - rewrite IH, acumular_documento_total.
    destruct (documento_contado d); cbn [length]; lia.
Qed.

(** X7: the counts that the two aggregations report, and by which they
    divide the accumulated weights, are the number of evidences whose
    [procesada] is true and the number of documents whose confidence (0.5
    when absent) is not below 0.3, whatever the items suggest. *)
Theorem X7_aggregation_counts_the_kept_items
    (evs : list Evidencia.t) (docs : list Documento.t) :
  (forall pe, _calcular_peso_evidencias evs = Ok pe ->
     PesoEvidencias.total_evidencias pe
     = Z.of_nat (length (List.filter evidencia_contada evs)))
  /\ (forall pd, _calcular_peso_documentos docs = Ok pd ->
        PesoDocumentos.total_documentos pd
        = Z.of_nat (length (List.filter documento_contado docs))).
Proof.
  split.
  - intros pe. unfold _calcular_peso_evidencias.
    pose proof (fold_evidencias_total evs (0%float, 0%float, 0)) as H.
    destruct (fold_left _ _ _) as [[a b] n]. cbn [snd] in H.
    destruct (0 <? n); intros Hpe.
    + bind_inv Hpe f Hf. inversion Hpe. cbn. lia.
    + inversion Hpe. cbn. lia.
  - intros pd. unfold _calcular_peso_documentos.
    pose proof (fold_documentos_total docs (0%float, 0%float, 0)) as H.
    destruct (fold_left _ _ _) as [[a b] n]. cbn [snd] in H.
    destruct (0 <? n); intros Hpd.
    + bind_inv Hpd f Hf. inversion Hpd. cbn. lia.
    + inversion Hpd. cbn. lia.
Qed.

Lemma X7_witness :
  exists pe,
    _calcular_peso_evidencias
      [evidencia_de "vehiculo_a" 0.8%float; Evidencia.mk None None;
       Evidencia.mk (Some true) None] = Ok pe
    /\ PesoEvidencias.total_evidencias pe = 2.
Proof.
  eexists.
  assert (H : _calcular_peso_evidencias
                [evidencia_de "vehiculo_a" 0.8%float; Evidencia.mk None None;
                 Evidencia.mk (Some true) None] = Ok ?[pe])
    by (vm_compute; reflexivity).
  split; [exact H | ].
  exact (proj1 (X7_aggregation_counts_the_kept_items _ []) _ H).
Defined.

Lemma fold_evidencias_omitidas (evs : list Evidencia.t) :
  Forall (fun e => evidencia_contada e = false) evs ->
  forall acc, fold_left acumular_evidencia evs acc = acc.
Proof.
  induction 1 as [ | e evs He _ IH]; intros acc; cbn [fold_left];
    [reflexivity | ].
  rewrite IH. destruct acc as [[a b] n].
  unfold acumular_evidencia. unfold evidencia_contada in He.
  rewrite He. reflexivity.
Qed.

Lemma fold_documentos_omitidos (docs : list Documento.t) :
  Forall (fun d => documento_contado d = false) docs ->
  forall acc, fold_left acumular_documento docs acc = acc.
Proof.
  induction 1 as [ | d docs Hd _ IH]; intros acc; cbn [fold_left];
    [reflexivity | ].
  rewrite IH. destruct acc as [[a b] n].
  unfold acumular_documento. unfold documento_contado in Hd.
  apply negb_false_iff in Hd. rewrite Hd. reflexivity.
Qed.

Lemma semillas_estables :
  forallb (fun ca => forallb (semilla_estable ca) (seqZ 0 16)) (seqZ 0 16)
  = true.
Proof. vm_compute. reflexivity. Qed.

Lemma semilla_estable_normal (ca cb : Z) :
  semilla_estable ca cb
  = semilla_estable (circunstancia_normal ca) (circunstancia_normal cb).
Proof.
  unfold semilla_estable. rewrite (_distribucion_inicial_normal ca cb).
  reflexivity.
Qed.

Lemma dist_eq (d d' : Dist.t) :
  Dist.porcentaje_a d' = Dist.porcentaje_a d ->
  Dist.porcentaje_b d' = Dist.porcentaje_b d -> d' = d.
Proof. destruct d, d'; cbn; intros -> ->; reflexivity. Qed.

(** X8: when nothing is counted (every evidence unprocessed, every document
    below the 0.3 confidence), the negotiation returns the seed as it is:
    the first blend leaves it unchanged, so the call reports convergence
    with 0 iterations, and, a seed never reaching 90, the verdict is
    compartida, for every pair of ints. *)
Theorem X8_nothing_counted_returns_the_seed
    (ca cb : Z) (docs : list Documento.t) (evs : list Evidencia.t) :
  Forall (fun e => evidencia_contada e = false) evs ->
  Forall (fun d => documento_contado d = false) docs ->
  exists d r,
    _distribucion_inicial ca cb = Ok d
    /\ negociar ca cb docs evs = Ok r
    /\ Resp.responsable r = Some "compartida"
    /\ Resp.porcentaje_a r = Some (Dist.porcentaje_a d)
    /\ Resp.porcentaje_b r = Some (Dist.porcentaje_b d)
    /\ Resp.iteraciones r = Some 0
    /\ Resp.convergio r = Some true.
Proof.
  intros Hevs Hdocs.
  pose proof (normal_forallb semilla_estable semillas_estables ca cb) as Hst.
  rewrite <- semilla_estable_normal in Hst. unfold semilla_estable in Hst.
  pose proof (normal_forallb semilla_reflejada semillas_reflejadas ca cb) as Hrf.
  rewrite <- semilla_reflejada_normal in Hrf. unfold semilla_reflejada in Hrf.
  destruct (_distribucion_inicial ca cb) as [d | | ] eqn:Hd; try discriminate.
  destruct (_distribucion_inicial cb ca) as [d2 | | ]; try discriminate.
  destruct (_ajustar_distribucion d sin_evidencias sin_documentos)
    as [d' | | ] eqn:Hd'; try discriminate.
  apply andb_prop in Hst. destruct Hst as [Ha Hb].
  apply Z.eqb_eq in Ha, Hb. pose proof (dist_eq d d' Ha Hb) as Heq. subst d'.
  repeat (apply andb_prop in Hrf; destruct Hrf as [Hrf ?]).
  repeat match goal with
         | G : (_ <=? _) = true |- _ => apply Z.leb_le in G
         | G : (_ =? _) = true |- _ => apply Z.eqb_eq in G
         end.
  pose proof (_distribucion_inicial_suma ca cb d Hd) as Hsum.
  unfold suma_100 in Hsum.
  exists d. unfold negociar. rewrite Hd. cbn [Py.bind].
  unfold _calcular_peso_evidencias, _calcular_peso_documentos.
  rewrite (fold_evidencias_omitidas evs Hevs),
          (fold_documentos_omitidos docs Hdocs).
  cbn [Py.bind Z.ltb Z.compare].
  change fuel_negociacion with 6%nat.
  cbn [bucle_negociacion Estado.iteracion Estado.distribucion_actual].
  change (0 <? max_iteraciones) with true. cbv iota.
  change (PesoEvidencias.mk 0 0 0) with sin_evidencias.
  change (PesoDocumentos.mk 0 0 0) with sin_documentos.
  rewrite Hd'. cbn [Py.bind].
  replace (_converge d d) with true
    by (symmetry; apply _converge_iff; reflexivity).
  cbn [Py.bind Estado.iteracion Estado.distribucion_actual].
  eexists. split; [reflexivity | ]. split; [reflexivity | ].
  cbn [Resp.responsable Resp.porcentaje_a Resp.porcentaje_b Resp.iteraciones
       Resp.convergio].
  split.
  { destruct (Z.leb_spec 90 (Dist.porcentaje_a d)); [lia | ].
    destruct (Z.leb_spec 90 (Dist.porcentaje_b d)); [lia | reflexivity]. }
  repeat split.
Qed.

Lemma X8_witness :
  exists d r,
    _distribucion_inicial 13 6 = Ok d
    /\ negociar 13 6 [documento_de "vehiculo_a" 0.2%float]
                     [Evidencia.mk (Some false) None] = Ok r
    /\ Resp.responsable r = Some "compartida"
    /\ Resp.porcentaje_a r = Some (Dist.porcentaje_a d)
    /\ Resp.porcentaje_b r = Some (Dist.porcentaje_b d)
    /\ Resp.iteraciones r = Some 0
    /\ Resp.convergio r = Some true.
Proof.
  apply (X8_nothing_counted_returns_the_seed 13 6).
  - repeat constructor.
  - repeat constructor.
Defined.

End Agregacion.

(** ** The loop of the negotiation *)

Section Bucle.

Import Negotiation.

Lemma bucle_negociacion_suma
    (pe : PesoEvidencias.t) (pd : PesoDocumentos.t) (fuel : nat)
    (s s' : Estado.t) :
  bucle_negociacion fuel pe pd s = Ok s' ->
  suma_100 (Estado.distribucion_actual s) ->
  suma_100 (Estado.distribucion_actual s').
Proof.
  apply bucle_negociacion_inv. intros d d' _ Hstep.
  eapply _ajustar_distribucion_suma; eauto.
Qed.

(** Leaving the loop before the budget is used up means leaving it by
    [break], on a blend that changed nothing. *)
Lemma bucle_negociacion_punto_fijo
    (pe : PesoEvidencias.t) (pd : PesoDocumentos.t) :
  forall fuel s s',
    bucle_negociacion fuel pe pd s = Ok s' ->
    suma_100 (Estado.distribucion_actual s) ->
    Estado.iteracion s' < max_iteraciones ->
    _ajustar_distribucion (Estado.distribucion_actual s') pe pd
    = Ok (Estado.distribucion_actual s').
Proof.
  induction fuel as [ | fuel IH]; intros s s' H Hsum Hlt; cbn in H;
    [discriminate | ].
  destruct (Estado.iteracion s <? max_iteraciones) eqn:Hguard.
  - bind_inv H d' Hd'.
    pose proof (_ajustar_distribucion_suma _ _ _ _ Hd') as Hsum'.
    destruct (_converge _ d') eqn:Hconv.
    + inversion H; subst s'. cbn in *.
      apply _converge_iff in Hconv. unfold suma_100 in *.
      assert (Heq : d' = Estado.distribucion_actual s)
        by (apply dist_eq; lia).
      rewrite Heq. rewrite Heq in Hd'. exact Hd'.
    + eapply IH; eauto.
  - inversion H; subst s'. apply Z.ltb_ge in Hguard. lia.
Qed.

(** X9: when [negociar] reports convergence, the distribution it returns is
    a fixed point of the blend for the weights of that call: blending it
    once more gives it back.  (The loop stops early only on a blend that
    left [porcentaje_a] unchanged, and the percentages add up to 100.) *)
Theorem X9_converged_result_is_a_fixed_point
    (ca cb : Z) (docs : list Documento.t) (evs : list Evidencia.t) (r : Resp.t) :
  negociar ca cb docs evs = Ok r ->
  Resp.convergio r = Some true ->
  exists pe pd d,
    _calcular_peso_evidencias evs = Ok pe
    /\ _calcular_peso_documentos docs = Ok pd
    /\ Resp.porcentaje_a r = Some (Dist.porcentaje_a d)
    /\ Resp.porcentaje_b r = Some (Dist.porcentaje_b d)
    /\ _ajustar_distribucion d pe pd = Ok d.
Proof.
  intros Hr Hconv. apply negociar_Ok_inv in Hr.
  destruct Hr as (d0 & pe & pd & final & Hd0 & Hpe & Hpd & Hloop
                  & Ha & Hb & _ & Hc & _).
  rewrite Hc in Hconv. inversion Hconv as [Hlt]. apply Z.ltb_lt in Hlt.
  exists pe, pd, (Estado.distribucion_actual final).
  repeat split; auto.
  eapply bucle_negociacion_punto_fijo; eauto.
  cbn. eapply _distribucion_inicial_suma; eauto.
Qed.

Lemma X9_witness :
  exists r pe pd d,
    negociar 4 5 [] [evidencia_de "compartida" 1%float] = Ok r
    /\ _calcular_peso_evidencias [evidencia_de "compartida" 1%float] = Ok pe
    /\ _calcular_peso_documentos [] = Ok pd
    /\ Resp.porcentaje_a r = Some (Dist.porcentaje_a d)
    /\ _ajustar_distribucion d pe pd = Ok d.
Proof.
  eexists.
  assert (H : negociar 4 5 [] [evidencia_de "compartida" 1%float] = Ok ?[r])
    by (vm_compute; reflexivity).
  destruct (X9_converged_result_is_a_fixed_point _ _ _ _ _ H eq_refl)
    as (pe & pd & d & Hpe & Hpd & Ha & _ & Hfix).
  exists pe, pd, d.
  split; [exact H | ]. split; [exact Hpe | ]. split; [exact Hpd | ].
  split; [exact Ha | exact Hfix].
Defined.

Lemma bucle_negociacion_iterar
    (pe : PesoEvidencias.t) (pd : PesoDocumentos.t) :
  forall fuel s s',
    bucle_negociacion fuel pe pd s = Ok s' ->
    Estado.iteracion s <= max_iteraciones ->
    exists k,
      iterar k pe pd (Estado.distribucion_actual s)
      = Ok (Estado.distribucion_actual s')
      /\ ((Estado.iteracion s' < max_iteraciones
           /\ Z.of_nat k = Estado.iteracion s' - Estado.iteracion s + 1)
          \/ (Estado.iteracion s' = max_iteraciones
              /\ Z.of_nat k = max_iteraciones - Estado.iteracion s)).
Proof.
  induction fuel as [ | fuel IH]; intros s s' H Hle; cbn in H;
    [discriminate | ].
  destruct (Estado.iteracion s <? max_iteraciones) eqn:Hguard.
  - apply Z.ltb_lt in Hguard. bind_inv H d' Hd'.
    destruct (_converge _ d').
    + inversion H; subst s'. exists 1%nat. cbn [iterar].
      rewrite Hd'. cbn. split; [reflexivity | ]. left. lia.
    + apply IH in H; [ | cbn; lia].
      destruct H as (k & Hk & Hcount). cbn in Hk, Hcount.
      exists (S k). cbn [iterar]. rewrite Hd'. cbn [Py.bind].
      split; [exact Hk | ]. lia.
  - apply Z.ltb_ge in Hguard. inversion H; subst s'.
    exists 0%nat. split; [reflexivity | ]. right. lia.
Qed.

(** X10: what [iteraciones] counts.  The distribution returned is the seed
    after [iteraciones + 1] blends when the call converged, and after
    exactly 5 blends when it did not: the blend on which the loop stops is
    not counted, so a call that converges on its first blend reports 0
    iterations. *)
Theorem X10_iterations_count_the_blends_before_the_last
    (ca cb : Z) (docs : list Documento.t) (evs : list Evidencia.t) (r : Resp.t) :
  negociar ca cb docs evs = Ok r ->
  exists d0 pe pd n c k d,
    _distribucion_inicial ca cb = Ok d0
    /\ _calcular_peso_evidencias evs = Ok pe
    /\ _calcular_peso_documentos docs = Ok pd
    /\ Resp.iteraciones r = Some n
    /\ Resp.convergio r = Some c
    /\ Z.of_nat k = (if c then n + 1 else 5)
    /\ iterar k pe pd d0 = Ok d
    /\ Resp.porcentaje_a r = Some (Dist.porcentaje_a d)
    /\ Resp.porcentaje_b r = Some (Dist.porcentaje_b d).
Proof.
  intros Hr. apply negociar_Ok_inv in Hr.
  destruct Hr as (d0 & pe & pd & final & Hd0 & Hpe & Hpd & Hloop
                  & Ha & Hb & Hn & Hc & _).
  apply bucle_negociacion_iterar in Hloop; [ | cbn; unfold max_iteraciones; lia].
  destruct Hloop as (k & Hk & Hcount). cbn in Hk, Hcount.
  unfold max_iteraciones in *.
  exists d0, pe, pd, (Estado.iteracion final), (Estado.iteracion final <? 5),
         k, (Estado.distribucion_actual final).
  repeat split; auto.
  destruct (Z.ltb_spec (Estado.iteracion final) 5); lia.
Qed.

Lemma X10_witness :
  exists r d,
    negociar 1 2 [] [evidencia_de "vehiculo_b" 0.1%float] = Ok r
    /\ Resp.iteraciones r = Some 5
    /\ iterar 5 (PesoEvidencias.mk 0.1%float 0%float 1) sin_documentos
              (Dist.mk 46 54) = Ok d
    /\ Resp.porcentaje_a r = Some (Dist.porcentaje_a d).
Proof.
  eexists.
  assert (H : negociar 1 2 [] [evidencia_de "vehiculo_b" 0.1%float] = Ok ?[r])
    by (vm_compute; reflexivity).
  destruct (X10_iterations_count_the_blends_before_the_last _ _ _ _ _ H)
    as (d0 & pe & pd & n & c & k & d & Hd0 & Hpe & Hpd & Hn & Hc & Hk
        & Hiter & Ha & _).
  assert (E0 : d0 = Dist.mk 46 54)
    by (vm_compute in Hd0; congruence).
  assert (Epe : pe = PesoEvidencias.mk 0.1%float 0%float 1)
    by (vm_compute in Hpe; congruence).
  assert (Epd : pd = sin_documentos)
    by (vm_compute in Hpd; inversion Hpd; reflexivity).
  assert (En : n = 5) by (cbn in Hn; congruence).
  assert (Ec : c = false) by (cbn in Hc; congruence).
  subst d0 pe pd n c.
  assert (Ek : k = 5%nat) by lia. subst k.
  exists d.
  split; [exact H | ]. split; [exact Hn | ]. split; [exact Hiter | exact Ha].
Defined.

(** X11: the convergence test compares a difference of whole percentage
    points with 0.05, so it holds exactly when [porcentaje_a] is the same
    in the two distributions; it ignores [porcentaje_b] and does not depend
    on the order of its arguments. *)
Theorem X11_convergence_test_is_equality_of_share_a (anterior actual : Dist.t) :
  (_converge anterior actual = true
   <-> Dist.porcentaje_a anterior = Dist.porcentaje_a actual)
  /\ _converge anterior actual = _converge actual anterior
  /\ _converge anterior anterior = true.
Proof.
  split; [apply _converge_iff | ]. split.
  - destruct (_converge anterior actual) eqn:E1,
             (_converge actual anterior) eqn:E2; try reflexivity.
    + apply _converge_iff in E1. symmetry in E1. apply _converge_iff in E1.
      congruence.
    + apply _converge_iff in E2. symmetry in E2. apply _converge_iff in E2.
      congruence.
  - apply _converge_iff. reflexivity.
Qed.

End Bucle.

(** ** The calculator and the engine *)

Section CalculoYMotor.

Import Negotiation.

(** *** Floats that are not below zero *)

Lemma binary_round_aux_no_negativo (m e : Z) (l : location) :
  sf_no_negativo (binary_round_aux prec emax false m e l) = true.
Proof.
  unfold binary_round_aux.
  destruct (shr_fexp prec emax m e l) as [mrs e'].
  destruct (shr_fexp prec emax _ e' loc_Exact) as [mrs' e''].
  destruct (shr_m mrs'); [reflexivity | | reflexivity].
  destruct (e'' <=? emax - prec); reflexivity.
Qed.

Lemma binary_round_no_negativo (m : positive) (e : Z) :
  sf_no_negativo (binary_round prec emax false m e) = true.
Proof.
  unfold binary_round. destruct (shl_align _ _ _) as [mz ez].
  apply binary_round_aux_no_negativo.
Qed.

Lemma SF2Prim_no_negativo (f : spec_float) :
  sf_no_negativo f = true -> sf_no_negativo (Prim2SF (SF2Prim f)) = true.
Proof.
  destruct f as [s | s | | s m e]; cbn [sf_no_negativo SF2Prim].
  - intros _. destruct s; vm_compute; reflexivity.
  - intros H. apply negb_true_iff in H. subst s. vm_compute. reflexivity.
  - intros _. vm_compute. reflexivity.
  - intros H. apply negb_true_iff in H. subst s.
    rewrite Z_ldexp_spec, FloatAxioms.of_uint63_spec.
    pose proof (Uint63.to_Z_bounded (Uint63Axioms.of_Z (Z.pos m))) as Hb.
    destruct (Uint63Axioms.to_Z (Uint63Axioms.of_Z (Z.pos m))) as [ | p | p];
      [reflexivity | | lia].
    cbn [binary_normalize].
    pose proof (binary_round_no_negativo p 0) as Hr.
    destruct (binary_round prec emax false p 0) as [s | s | | s m' e'];
      cbn [SFldexp]; try exact Hr.
    cbn [sf_no_negativo] in Hr. apply negb_true_iff in Hr. subst s.
    apply binary_round_no_negativo.
Qed.

Lemma no_negativo_ltb (x : float) :
  sf_no_negativo (Prim2SF x) = true -> (x <? 0)%float = false.
Proof.
  intros H. rewrite FloatAxioms.ltb_spec.
  replace (Prim2SF 0) with (S754_zero false) by (vm_compute; reflexivity).
  destruct (Prim2SF x) as [s | s | | s m e]; cbn in *; try reflexivity.
  - apply negb_true_iff in H. subst s. reflexivity.
  - apply negb_true_iff in H. subst s. reflexivity.
Qed.

Lemma ltb_0_no_negativo (x : float) :
  (0 <? x)%float = true -> sf_no_negativo (Prim2SF x) = true.
Proof.
  rewrite FloatAxioms.ltb_spec.
  replace (Prim2SF 0) with (S754_zero false) by (vm_compute; reflexivity).
  destruct (Prim2SF x) as [s | s | | s m e]; cbn; try reflexivity.
  - destruct s; [discriminate | reflexivity].
  - destruct s; [discriminate | reflexivity].
Qed.

Lemma ltb_irrefl (x : float) : (x <? x)%float = false.
Proof.
  rewrite FloatAxioms.ltb_spec. unfold SFltb, SFcompare.
  destruct (Prim2SF x) as [s | s | | s m e]; try reflexivity.
  - destruct s; reflexivity.
  - destruct s; rewrite Z.compare_refl;
      change (PosDef.Pos.compare_cont Eq m m) with (Pos.compare m m);
      rewrite Pos.compare_refl; reflexivity.
Qed.

Lemma round2_no_negativo (x : float) :
  sf_no_negativo (Prim2SF x) = true ->
  sf_no_negativo (Prim2SF (Py.round2 x)) = true.
Proof.
  intros H. unfold Py.round2.
  destruct (Prim2SF x) as [s | s | | s m e] eqn:E;
    try (rewrite E; exact H).
  cbn [sf_no_negativo] in H. apply negb_true_iff in H. subst s.
  destruct (0 <=? e); [rewrite E; reflexivity | ].
  destruct (Py.div_half_even _ _) as [ | p | p].
  - vm_compute. reflexivity.
  - apply SF2Prim_no_negativo. unfold SFdiv.
    destruct (SFdiv_core_binary prec emax (Z.pos p) 0 100 0) as [[mz ez] lz].
    apply binary_round_aux_no_negativo.
  - vm_compute. reflexivity.
Qed.

Lemma max_0_no_negativo (x : float) :
  sf_no_negativo (Prim2SF (Py.max 0 x)) = true.
Proof.
  unfold Py.max. destruct (0 <? x)%float eqn:E.
  - apply ltb_0_no_negativo. exact E.
  - vm_compute. reflexivity.
Qed.

(** *** The calculator *)

(** X12: the net amount of each of the two payment lines is never below
    zero, whatever the percentages, the damages, the deductibles and the
    coverage (negative, infinite or NaN inputs included): it is the maximum
    of 0 and the gross amount less the deductible, and rounding to two
    decimals does not make it negative. *)
Theorem X12_net_amounts_are_never_negative
    (r : Resp.t) (poliza_a poliza_b : Poliza.t) (danos : Danos.t)
    (res : Resultado.t) :
  Calculator.calcular_indemnizacion r poliza_a poliza_b danos = Ok res ->
  Forall (fun linea => (Indemnizacion.monto_neto linea <? 0)%float = false)
         (Resultado.indemnizaciones res).
Proof.
  unfold Calculator.calcular_indemnizacion. intros H.
  bind_inv H k Hk. bind_inv H fa Hfa. bind_inv H fb Hfb.
  inversion H. cbn [Resultado.indemnizaciones].
  repeat constructor; cbn [Indemnizacion.monto_neto];
    apply no_negativo_ltb, round2_no_negativo, max_0_no_negativo.
Qed.

Lemma X12_witness :
  exists res,
    Calculator.calcular_indemnizacion
      (Rules._interpretar_codigo "A" 13 6)
      poliza_estandar poliza_estandar
      (Danos.mk None (Some (Danos.mk_vehiculo (Some 30000%float)))) = Ok res
    /\ Forall (fun linea => (Indemnizacion.monto_neto linea <? 0)%float = false)
              (Resultado.indemnizaciones res).
Proof.
  eexists.
  assert (H : Calculator.calcular_indemnizacion
                (Rules._interpretar_codigo "A" 13 6)
                poliza_estandar poliza_estandar
                (Danos.mk None (Some (Danos.mk_vehiculo (Some 30000%float))))
              = Ok ?[res]) by (vm_compute; reflexivity).
  split; [exact H | ].
  exact (X12_net_amounts_are_never_negative _ _ _ _ _ H).
Defined.

Lemma is_finite_Prim2SF (x : float) :
  is_finite x = true ->
  (exists s, Prim2SF x = S754_zero s)
  \/ (exists s m e, Prim2SF x = S754_finite s m e).
Proof.
  unfold is_finite, is_nan, is_infinity.
  rewrite !FloatAxioms.eqb_spec, abs_spec.
  replace (Prim2SF infinity) with (S754_infinity false)
    by (vm_compute; reflexivity).
  destruct (Prim2SF x) as [s | s | | s m e]; cbn; intros H; eauto.
  - destruct s; discriminate.
  - discriminate.
Qed.

(** The order of floats, on numbers: exchanging the arguments of a
    comparison exchanges its outcome, and only NaN is incomparable. *)
Lemma SFcompare_antisym (x y : spec_float) :
  SFcompare y x = option_map CompOpp (SFcompare x y).
Proof.
  destruct x as [sx | sx | | sx mx ex], y as [sy | sy | | sy my ey];
    cbn [SFcompare option_map]; try reflexivity;
    try (destruct sx; reflexivity); try (destruct sy; reflexivity);
    try (destruct sx, sy; reflexivity).
  change (PosDef.Pos.compare_cont Eq my mx) with (Pos.compare my mx).
  change (PosDef.Pos.compare_cont Eq mx my) with (Pos.compare mx my).
  rewrite (Z.compare_antisym ex ey), (Pos.compare_antisym mx my).
  destruct sx, sy; cbn [CompOpp]; try reflexivity;
    destruct (ex ?= ey); cbn [CompOpp]; try reflexivity;
    destruct (mx ?= my)%positive; reflexivity.
Qed.

Lemma no_nan_Prim2SF (x : float) :
  is_nan x = false -> Prim2SF x <> S754_nan.
Proof.
  unfold is_nan. rewrite FloatAxioms.eqb_spec. intros H E.
  rewrite E in H. discriminate.
Qed.

Lemma SFcompare_numeros (x y : spec_float) :
  x <> S754_nan -> y <> S754_nan -> exists c, SFcompare x y = Some c.
Proof.
  intros Hx Hy.
  destruct x as [sx | sx | | sx mx ex], y as [sy | sy | | sy my ey];
    try contradiction; cbn [SFcompare]; eauto.
Qed.

(** [max(a, b)] of two numbers is above both; with a NaN in the first place
    it is that NaN, and a NaN in the second place is passed over. *)
Lemma max_de_numeros (a b : float) :
  is_nan a = false -> is_nan b = false ->
  (a <=? Py.max a b)%float = true /\ (b <=? Py.max a b)%float = true.
Proof.
  intros Ha Hb. apply no_nan_Prim2SF in Ha, Hb.
  unfold Py.max. rewrite FloatAxioms.ltb_spec. unfold SFltb.
  destruct (SFcompare_numeros _ _ Ha Hb) as (c & Hc).
  pose proof (SFcompare_antisym (Prim2SF a) (Prim2SF b)) as Hba.
  pose proof (SFcompare_antisym (Prim2SF a) (Prim2SF a)) as Haa.
  pose proof (SFcompare_antisym (Prim2SF b) (Prim2SF b)) as Hbb.
  destruct (SFcompare_numeros _ _ Ha Ha) as (ca & Hca).
  destruct (SFcompare_numeros _ _ Hb Hb) as (cb & Hcb).
  rewrite Hc in *. rewrite Hca in Haa. rewrite Hcb in Hbb.
  cbn [option_map] in Hba, Haa, Hbb.
  destruct c; rewrite !FloatAxioms.leb_spec; unfold SFleb;
    rewrite ?Hc, ?Hba, ?Hca, ?Hcb; cbn [CompOpp];
    (split; [ | ]); try reflexivity;
    try (destruct ca; [reflexivity | discriminate | discriminate]);
    try (destruct cb; [reflexivity | discriminate | discriminate]).
Qed.

Lemma max_nan (a b : float) :
  (is_nan a = true -> Py.max a b = a)
  /\ (is_nan b = true -> Py.max a b = a).
Proof.
  unfold Py.max. rewrite FloatAxioms.ltb_spec. unfold SFltb.
  split; intros H; apply is_nan_Prim2SF in H; rewrite H.
  - reflexivity.
  - destruct (Prim2SF a); reflexivity.
Qed.

(** Rounding a mantissa that is not negative never gives NaN, so the
    product of two finite floats is a number: it may overflow to an
    infinity, it is never NaN. *)
Lemma shr_1_no_negativo (mrs : shr_record) :
  0 <= shr_m mrs -> 0 <= shr_m (shr_1 mrs).
Proof.
  destruct mrs as [m r t]. cbn [shr_m]. intros H.
  destruct m as [ | p | p]; [cbn; lia | | lia].
  destruct p; cbn; lia.
Qed.

Lemma iter_pos_shr_1_no_negativo (p : positive) (mrs : shr_record) :
  0 <= shr_m mrs -> 0 <= shr_m (SpecFloat.iter_pos shr_1 p mrs).
Proof.
  revert mrs. induction p as [p IH | p IH | ]; intros mrs H; cbn [SpecFloat.iter_pos].
  - apply IH, IH, shr_1_no_negativo, H.
  - apply IH, IH, H.
  - apply shr_1_no_negativo, H.
Qed.

Lemma shr_fexp_no_negativo (m e : Z) (l : location) :
  0 <= m -> 0 <= shr_m (fst (shr_fexp prec emax m e l)).
Proof.
  intros H. unfold shr_fexp, shr.
  assert (H0 : 0 <= shr_m (shr_record_of_loc m l))
    by (destruct l as [ | [ | | ]]; exact H).
  destruct (fexp prec emax (Zdigits2 m + e) - e) as [ | p | p];
    cbn [fst]; try exact H0.
  apply iter_pos_shr_1_no_negativo, H0.
Qed.

Lemma round_nearest_even_no_negativo (m : Z) (l : location) :
  0 <= m -> 0 <= round_nearest_even m l.
Proof.
  intros H. unfold round_nearest_even.
  destruct l as [ | [ | | ]]; try lia.
  destruct (Z.even m); lia.
Qed.

Lemma binary_round_aux_numero (s : bool) (m e : Z) (l : location) :
  0 <= m -> binary_round_aux prec emax s m e l <> S754_nan.
Proof.
  intros H. unfold binary_round_aux.
  pose proof (shr_fexp_no_negativo m e l H) as H1.
  destruct (shr_fexp prec emax m e l) as [mrs e']. cbn [fst] in H1.
  pose proof (shr_fexp_no_negativo _ e' loc_Exact
                (round_nearest_even_no_negativo _ (loc_of_shr_record mrs) H1))
    as H2.
  destruct (shr_fexp prec emax _ e' loc_Exact) as [mrs' e'']. cbn [fst] in H2.
  destruct (shr_m mrs') as [ | q | q]; [discriminate | | lia].
  destruct (e'' <=? emax - prec); discriminate.
Qed.

Lemma mul_de_finitos (x y : float) :
  is_finite x = true -> is_finite y = true -> is_nan (x * y) = false.
Proof.
  intros Hx Hy. unfold is_nan. rewrite FloatAxioms.eqb_spec, mul_spec.
  unfold SF64mul, SFmul.
  assert (Hnum : forall f, f <> S754_nan -> negb (SFeqb f f) = false).
  { intros f Hf. unfold SFeqb.
    destruct (SFcompare_numeros f f Hf Hf) as (c & Hc).
    pose proof (SFcompare_antisym f f) as Ha. rewrite Hc in Ha |- *.
    cbn [option_map] in Ha. destruct c; [reflexivity | discriminate | discriminate]. }
  apply Hnum.
  destruct (is_finite_Prim2SF x Hx) as [(sx & ->) | (sx & mx & ex & ->)];
    destruct (is_finite_Prim2SF y Hy) as [(sy & ->) | (sy & my & ey & ->)];
    try discriminate.
  apply binary_round_aux_numero. lia.
Qed.

(** X13: as long as neither the share of the amount nor the minimum of the
    policy is NaN, the deductible is the larger of the two: it is one of
    them and both are below or equal to it.  The share is not NaN when the
    amount and the rate (the percentage over 100) are finite.  When the
    share is NaN, which it is for an infinite amount and a percentage of
    zero, the deductible is NaN whatever the minimum; a minimum that is NaN
    is passed over and the deductible is the share of the amount. *)
Theorem X13_deductible_is_the_larger_unless_nan
    (poliza : Poliza.t) (monto : float) :
  let minimo := default 0%float (Poliza.deducible_minimo poliza) in
  let porcentaje := default 0%float (Poliza.deducible_porcentaje poliza) in
  let calculado := (monto * (porcentaje / 100))%float in
  let deducible := Calculator._calcular_deducible poliza monto in
  (is_nan calculado = false -> is_nan minimo = false ->
   (minimo <=? deducible)%float = true
   /\ (calculado <=? deducible)%float = true
   /\ (deducible = minimo \/ deducible = calculado))
  /\ (is_finite monto = true -> is_finite (porcentaje / 100) = true ->
      is_nan calculado = false)
  /\ (is_nan calculado = true ->
      deducible = calculado /\ is_nan deducible = true)
  /\ (is_nan minimo = true -> deducible = calculado)
  /\ (is_infinity monto = true -> (porcentaje =? 0)%float = true ->
      is_nan deducible = true).
Proof.
  cbv zeta. unfold Calculator._calcular_deducible.
  set (minimo := default 0%float (Poliza.deducible_minimo poliza)).
  set (porcentaje := default 0%float (Poliza.deducible_porcentaje poliza)).
  set (calculado := (monto * (porcentaje / 100))%float).
  assert (Hnan : is_nan calculado = true ->
                 Py.max calculado minimo = calculado
                 /\ is_nan (Py.max calculado minimo) = true).
  { intros H. rewrite (proj1 (max_nan calculado minimo) H).
    split; [reflexivity | exact H]. }
  split; [ | split; [ | split; [exact Hnan | split]]].
  - intros Hc Hm. destruct (max_de_numeros calculado minimo Hc Hm) as [H1 H2].
    split; [exact H2 | ]. split; [exact H1 | ].
    unfold Py.max. destruct (calculado <? minimo)%float; [left | right]; reflexivity.
  - intros Hmonto Hrate. exact (mul_de_finitos _ _ Hmonto Hrate).
  - intros H. exact (proj2 (max_nan calculado minimo) H).
  - intros Hinf Hcero. apply Hnan.
    unfold is_nan. rewrite FloatAxioms.eqb_spec. subst calculado.
    rewrite mul_spec, div_spec.
    unfold is_infinity in Hinf.
    rewrite FloatAxioms.eqb_spec, abs_spec in Hinf.
    rewrite FloatAxioms.eqb_spec in Hcero.
    replace (Prim2SF infinity) with (S754_infinity false) in Hinf
      by (vm_compute; reflexivity).
    replace (Prim2SF 0) with (S754_zero false) in Hcero
      by (vm_compute; reflexivity).
    replace (Prim2SF 100) with (S754_finite false 7036874417766400 (-46))
      by (vm_compute; reflexivity).
    destruct (Prim2SF monto) as [s | s | | s m e]; cbn in Hinf;
      try discriminate; try (destruct s; discriminate).
    destruct (Prim2SF porcentaje) as [sp | sp | | sp mp ep]; cbn in Hcero;
      try discriminate; try (destruct sp; discriminate).
    reflexivity.
Qed.

Lemma X13_witness :
  (50000 <=? Calculator._calcular_deducible poliza_estandar 1000000)%float = true
  /\ (1000000 * (10 / 100)
      <=? Calculator._calcular_deducible poliza_estandar 1000000)%float = true
  /\ is_nan (Calculator._calcular_deducible
               (Poliza.mk None None (Some 50000%float)) infinity) = true.
Proof.
  pose proof (X13_deductible_is_the_larger_unless_nan
                poliza_estandar 1000000%float) as H.
  pose proof (X13_deductible_is_the_larger_unless_nan
                (Poliza.mk None None (Some 50000%float)) infinity) as H'.
  cbv zeta in H, H'.
  destruct H as (H & Hfin & _). destruct H' as (_ & _ & _ & _ & H').
  destruct H as (H1 & H2 & _);
    [apply Hfin; reflexivity | reflexivity | ].
  split; [exact H1 | ]. split; [exact H2 | ].
  apply H'; reflexivity.
Defined.

Lemma calcular_indemnizacion_porcentajes
    (r : Resp.t) (poliza_a poliza_b : Poliza.t) (danos : Danos.t) (kind : string) :
  Resp.responsable r = Some kind ->
  0 <= default 0 (Resp.porcentaje_a r) <= 100 ->
  0 <= default 0 (Resp.porcentaje_b r) <= 100 ->
  exists res,
    Calculator.calcular_indemnizacion r poliza_a poliza_b danos = Ok res
    /\ Resumen.porcentaje_responsabilidad_a (Resultado.resumen res)
       = default 0 (Resp.porcentaje_a r)
    /\ Resumen.porcentaje_responsabilidad_b (Resultado.resumen res)
       = default 0 (Resp.porcentaje_b r).
Proof.
  intros Hk Ha Hb. unfold Calculator.calcular_indemnizacion.
  rewrite Hk. cbn [Py.getitem Py.bind].
  rewrite (float_of_int_percent _ Ha), (float_of_int_percent _ Hb).
  cbn [Py.bind]. eexists. split; [reflexivity | ]. split; reflexivity.
Qed.

Lemma calcular_indemnizacion_casos
    (r : Resp.t) (poliza_a poliza_b : Poliza.t) (danos : Danos.t) (kind : string) :
  Resp.responsable r = Some kind ->
  (exists res, Calculator.calcular_indemnizacion r poliza_a poliza_b danos = Ok res)
  \/ Calculator.calcular_indemnizacion r poliza_a poliza_b danos
     = Raise OverflowError.
Proof.
  intros Hk. unfold Calculator.calcular_indemnizacion, Py.float_of_int.
  rewrite Hk. cbn [Py.getitem Py.bind].
  destruct (is_infinity (Py.Z2float (default 0 (Resp.porcentaje_a r))));
    cbn [Py.bind]; [right; reflexivity | ].
  destruct (is_infinity (Py.Z2float (default 0 (Resp.porcentaje_b r))));
    cbn [Py.bind]; [right; reflexivity | ].
  left. eexists. reflexivity.
Qed.

(** X14: how the calculator fails.  Without the key [responsable] it raises
    KeyError; with it, it returns or raises OverflowError, the latter only
    when a percentage is an int too large for a float (as 2^1024 is); with
    both percentages between 0 and 100, a missing one counting as 0, it
    returns, and the summary repeats the percentages it used. *)
Theorem X14_calculator_failures
    (r : Resp.t) (poliza_a poliza_b : Poliza.t) (danos : Danos.t) :
  (Resp.responsable r = None ->
   Calculator.calcular_indemnizacion r poliza_a poliza_b danos
   = Raise (KeyError "responsable"))
  /\ (Resp.responsable r <> None ->
      (exists res,
         Calculator.calcular_indemnizacion r poliza_a poliza_b danos = Ok res)
      \/ (Calculator.calcular_indemnizacion r poliza_a poliza_b danos
          = Raise OverflowError
          /\ (Py.float_of_int (default 0 (Resp.porcentaje_a r))
              = Raise OverflowError
              \/ Py.float_of_int (default 0 (Resp.porcentaje_b r))
                 = Raise OverflowError)))
  /\ (Resp.responsable r <> None ->
      0 <= default 0 (Resp.porcentaje_a r) <= 100 ->
      0 <= default 0 (Resp.porcentaje_b r) <= 100 ->
      exists res,
        Calculator.calcular_indemnizacion r poliza_a poliza_b danos = Ok res
        /\ Resumen.porcentaje_responsabilidad_a (Resultado.resumen res)
           = default 0 (Resp.porcentaje_a r)
        /\ Resumen.porcentaje_responsabilidad_b (Resultado.resumen res)
           = default 0 (Resp.porcentaje_b r))
  /\ Py.float_of_int (2 ^ 1024) = Raise OverflowError.
Proof.
  split; [ | split; [ | split]].
  - intros Hk. unfold Calculator.calcular_indemnizacion. rewrite Hk. reflexivity.
  - intros Hk. destruct (Resp.responsable r) as [kind | ] eqn:E; [ | congruence].
    unfold Calculator.calcular_indemnizacion, Py.float_of_int.
    rewrite E. cbn [Py.getitem Py.bind].
    destruct (is_infinity (Py.Z2float (default 0 (Resp.porcentaje_a r))));
      cbn [Py.bind]; [right; auto | ].
    destruct (is_infinity (Py.Z2float (default 0 (Resp.porcentaje_b r))));
      cbn [Py.bind]; [right; auto | ].
    left. eexists. reflexivity.
  - intros Hk Ha Hb.
    destruct (Resp.responsable r) as [kind | ] eqn:E; [ | congruence].
    eapply calcular_indemnizacion_porcentajes; eauto.
  - vm_compute. reflexivity.
Qed.

Lemma X14_witness :
  Calculator.calcular_indemnizacion
    (Resp.mk None (Some 100) (Some 0) None None None None None)
    poliza_estandar poliza_estandar danos_b_un_millon
  = Raise (KeyError "responsable").
Proof.
  apply (proj1 (X14_calculator_failures
                  (Resp.mk None (Some 100) (Some 0) None None None None None)
                  poliza_estandar poliza_estandar danos_b_un_millon)).
  reflexivity.
Defined.

End CalculoYMotor.

Section SinResponsabilidad.

(** *** A party without liability owes nothing *)

Lemma factor_cobertura_positivo (poliza : Poliza.t) :
  exists m e,
    Prim2SF (Calculator._calcular_factor_cobertura poliza)
    = S754_finite false m e.
Proof.
  unfold Calculator._calcular_factor_cobertura.
  destruct (String.eqb _ "premium"); [vm_compute; eauto | ].
  destruct (String.eqb _ "estandar"); [vm_compute; eauto | ].
  destruct (String.eqb _ "basica"); vm_compute; eauto.
Qed.

(** The gross amount of a party whose percentage is 0, for a finite
    damage: a zero. *)
Lemma bruto_sin_responsabilidad (danos factor : float) :
  is_finite danos = true ->
  (exists m e, Prim2SF factor = S754_finite false m e) ->
  exists s, Prim2SF (0 / 100 * danos * factor)%float = S754_zero s.
Proof.
  intros Hfin (m & e & Hfactor).
  replace (0 / 100)%float with 0%float by (vm_compute; reflexivity).
  rewrite !mul_spec, Hfactor.
  replace (Prim2SF 0) with (S754_zero false) by (vm_compute; reflexivity).
  destruct (is_finite_Prim2SF danos Hfin) as [(s & ->) | (s & m' & e' & ->)];
    cbn; eauto.
Qed.

(** With a zero as gross amount, nothing is left after the deductible,
    whatever the deductible terms. *)
Lemma neto_sin_bruto (bruto porcentaje minimo : float) :
  (exists s, Prim2SF bruto = S754_zero s) ->
  Py.max 0 (bruto - Py.max (bruto * (porcentaje / 100)) minimo)%float
  = 0%float.
Proof.
  intros (s & Hbruto). unfold Py.max at 1.
  replace (0 <? _)%float with false; [reflexivity | ].
  symmetry. rewrite FloatAxioms.ltb_spec, sub_spec, Hbruto.
  replace (Prim2SF 0) with (S754_zero false) by (vm_compute; reflexivity).
  unfold Py.max.
  destruct (_ <? minimo)%float eqn:Hlt.
  - rewrite FloatAxioms.ltb_spec, mul_spec, Hbruto in Hlt.
    destruct (Prim2SF (porcentaje / 100)) as [s1 | s1 | | s1 m1 e1];
      destruct (Prim2SF minimo) as [s2 | s2 | | s2 m2 e2];
      cbn in Hlt; try discriminate Hlt;
      destruct s2; try discriminate Hlt; destruct s; reflexivity.
  - rewrite mul_spec, Hbruto.
    destruct (Prim2SF (porcentaje / 100)) as [s1 | s1 | | s1 m1 e1];
      destruct s; try destruct s1; reflexivity.
Qed.

Lemma round2_cero (x : float) :
  (exists s, Prim2SF x = S754_zero s) -> (Py.round2 x =? 0)%float = true.
Proof.
  intros (s & Hx). unfold Py.round2. rewrite Hx.
  rewrite FloatAxioms.eqb_spec, Hx. reflexivity.
Qed.

(** X15: a vehicle whose percentage of responsibility is 0 (or absent) owes
    nothing when the damage of the other vehicle is a finite amount: the
    gross amount of its payment line is zero and the net amount is 0,
    whatever the coverage and the deductible terms of the policies. *)
Theorem X15_no_liability_no_payment
    (r : Resp.t) (poliza_a poliza_b : Poliza.t) (danos : Danos.t)
    (res : Resultado.t) :
  Calculator.calcular_indemnizacion r poliza_a poliza_b danos = Ok res ->
  exists a_b b_a,
    Resultado.indemnizaciones res = [a_b; b_a]
    /\ Indemnizacion.pagador a_b = "vehiculo_a"
    /\ Indemnizacion.pagador b_a = "vehiculo_b"
    /\ (default 0 (Resp.porcentaje_a r) = 0 ->
        is_finite
          (default 0%float
             (Danos.monto (default Danos.sin_monto (Danos.vehiculo_b danos))))
        = true ->
        (Indemnizacion.monto_bruto a_b =? 0)%float = true
        /\ Indemnizacion.monto_neto a_b = 0%float)
    /\ (default 0 (Resp.porcentaje_b r) = 0 ->
        is_finite
          (default 0%float
             (Danos.monto (default Danos.sin_monto (Danos.vehiculo_a danos))))
        = true ->
        (Indemnizacion.monto_bruto b_a =? 0)%float = true
        /\ Indemnizacion.monto_neto b_a = 0%float).
Proof.
  unfold Calculator.calcular_indemnizacion. intros H.
  bind_inv H k Hk. bind_inv H fa Hfa. bind_inv H fb Hfb.
  inversion H as [Hres]. clear H Hres.
  do 2 eexists. split; [reflexivity | ].
  cbn [Indemnizacion.pagador Indemnizacion.monto_bruto Indemnizacion.monto_neto].
  split; [reflexivity | ]. split; [reflexivity | ].
  split.
  - intros Hcero Hfin. rewrite Hcero in Hfa.
    assert (fa = 0%float) by (vm_compute in Hfa; congruence). subst fa.
    pose proof (bruto_sin_responsabilidad _ _ Hfin
                  (factor_cobertura_positivo poliza_a)) as Hbruto.
    split; [apply round2_cero; exact Hbruto | ].
    unfold Calculator._calcular_deducible.
    rewrite (neto_sin_bruto _ _ _ Hbruto). vm_compute. reflexivity.
  - intros Hcero Hfin. rewrite Hcero in Hfb.
    assert (fb = 0%float) by (vm_compute in Hfb; congruence). subst fb.
    pose proof (bruto_sin_responsabilidad _ _ Hfin
                  (factor_cobertura_positivo poliza_b)) as Hbruto.
    split; [apply round2_cero; exact Hbruto | ].
    unfold Calculator._calcular_deducible.
    rewrite (neto_sin_bruto _ _ _ Hbruto). vm_compute. reflexivity.
Qed.

Lemma X15_witness :
  exists res a_b b_a,
    Calculator.calcular_indemnizacion
      (Rules._interpretar_codigo "B" 1 2)
      poliza_estandar poliza_estandar danos_b_un_millon = Ok res
    /\ Resultado.indemnizaciones res = [a_b; b_a]
    /\ Indemnizacion.monto_neto a_b = 0%float.
Proof.
  eexists.
  assert (H : Calculator.calcular_indemnizacion
                (Rules._interpretar_codigo "B" 1 2)
                poliza_estandar poliza_estandar danos_b_un_millon = Ok ?[res])
    by (vm_compute; reflexivity).
  destruct (X15_no_liability_no_payment _ _ _ _ _ H)
    as (a_b & b_a & Hl & _ & _ & HA & _).
  exists a_b, b_a. split; [exact H | ]. split; [exact Hl | ].
  apply HA; reflexivity.
Defined.

End SinResponsabilidad.

(** ** The engine: from the circumstances to the indemnification *)

Section Motor.

Import Negotiation.

(** X16: for a disputed claim, whenever the negotiation returns, its
    verdict is vehiculo_a, vehiculo_b or compartida, with percentages and a
    justification and without message or cell code, also for the
    circumstances at which the matrix says no_aplica; so the engine never
    leaves the indemnification of a disputed claim empty: the calculator is
    called, and returns a result unless a percentage overflows a float. *)
Theorem X16_disputed_claims_always_reach_the_calculator
    (ca cb : Z) (docs : list Documento.t) (evs : list Evidencia.t) (r : Resp.t) :
  negociar ca cb docs evs = Ok r ->
  (Resp.responsable r = Some "vehiculo_a"
   \/ Resp.responsable r = Some "vehiculo_b"
   \/ Resp.responsable r = Some "compartida")
  /\ Resp.porcentaje_a r <> None /\ Resp.porcentaje_b r <> None
  /\ Resp.justificacion r <> None
  /\ Resp.mensaje r = None /\ Resp.codigo_matriz r = None
  /\ (forall poliza_a poliza_b danos,
        (exists res,
           Engine.calcular_indemnizacion_siniestro r poliza_a poliza_b danos
           = Ok (Some res))
        \/ Engine.calcular_indemnizacion_siniestro r poliza_a poliza_b danos
           = Raise OverflowError).
Proof.
  unfold negociar. intros H.
  bind_inv H d0 Hd0. bind_inv H pe Hpe. bind_inv H pd Hpd.
  bind_inv H final Hfinal. inversion H as [Hr]. clear H.
  set (kind := if 90 <=? Dist.porcentaje_a (Estado.distribucion_actual final)
               then "vehiculo_a"
               else if 90 <=? Dist.porcentaje_b (Estado.distribucion_actual final)
                    then "vehiculo_b" else "compartida") in *.
  assert (Hkind : kind = "vehiculo_a" \/ kind = "vehiculo_b"
                  \/ kind = "compartida").
  { subst kind. destruct (90 <=? _); [auto | ].
    destruct (90 <=? _); auto. }
  cbn [Resp.responsable Resp.porcentaje_a Resp.porcentaje_b Resp.justificacion
       Resp.mensaje Resp.codigo_matriz].
  split; [destruct Hkind as [-> | [-> | ->]]; auto | ].
  do 3 (split; [discriminate | ]). do 2 (split; [reflexivity | ]).
  intros poliza_a poliza_b danos.
  unfold Engine.calcular_indemnizacion_siniestro.
  cbn [Resp.responsable Py.getitem Py.bind].
  replace (negb (existsb (String.eqb kind) ["no_aplica"; "indeterminado"]))
    with true
    by (destruct Hkind as [-> | [-> | ->]]; reflexivity).
  match goal with
  | |- context [Calculator.calcular_indemnizacion ?x _ _ _] =>
      destruct (calcular_indemnizacion_casos x poliza_a poliza_b danos kind
                  eq_refl) as [(res & ->) | ->]
  end.
  - left. eexists. reflexivity.
  - right. reflexivity.
Qed.

Lemma X16_witness :
  exists r res,
    responsable_de (Rules.determinar_responsabilidad 1 1) = Some "no_aplica"
    /\ negociar 1 1 [] [] = Ok r
    /\ Resp.responsable r = Some "compartida"
    /\ Engine.calcular_indemnizacion_siniestro
         r poliza_estandar poliza_estandar danos_b_un_millon = Ok (Some res).
Proof.
  eexists.
  assert (H : negociar 1 1 [] [] = Ok ?[r]) by (vm_compute; reflexivity).
  destruct (X16_disputed_claims_always_reach_the_calculator _ _ _ _ _ H)
    as (_ & _ & _ & _ & _ & _ & Hcalc).
  destruct (Hcalc poliza_estandar poliza_estandar danos_b_un_millon)
    as [(res & Hres) | Hraise].
  - exists res. split; [reflexivity | ]. split; [exact H | ].
    split; [reflexivity | exact Hres].
  - exfalso. vm_compute in Hraise. discriminate Hraise.
Defined.

(** X17: for an undisputed claim with both circumstances in 1..15 the
    engine either gets no_aplica from the matrix and computes no
    indemnification, or gets vehiculo_a, vehiculo_b or compartida and an
    indemnification whose summary carries the percentages of the verdict,
    which add up to 100. *)
Theorem X17_undisputed_claim_in_range
    (ca cb : Z) (docs : list Documento.t) (evs : list Evidencia.t)
    (poliza_a poliza_b : Poliza.t) (danos : Danos.t) :
  1 <= ca <= 15 -> 1 <= cb <= 15 ->
  exists r,
    (responsabilidad_e_indemnizacion false ca cb docs evs poliza_a poliza_b danos
     = Ok (r, None)
     /\ Resp.responsable r = Some "no_aplica")
    \/ (exists res a b,
          responsabilidad_e_indemnizacion
            false ca cb docs evs poliza_a poliza_b danos = Ok (r, Some res)
          /\ (Resp.responsable r = Some "vehiculo_a"
              \/ Resp.responsable r = Some "vehiculo_b"
              \/ Resp.responsable r = Some "compartida")
          /\ Resp.porcentaje_a r = Some a /\ Resp.porcentaje_b r = Some b
          /\ a + b = 100
          /\ Resumen.porcentaje_responsabilidad_a (Resultado.resumen res) = a
          /\ Resumen.porcentaje_responsabilidad_b (Resultado.resumen res) = b).
Proof.
  intros Ha Hb.
  pose proof (celda_determinada_en_rango ca cb Ha Hb) as Hcell.
  unfold celda_determinada in Hcell.
  unfold responsabilidad_e_indemnizacion,
    Engine.determinar_responsabilidad_siniestro.
  destruct (Rules.determinar_responsabilidad ca cb) as [r | | ] eqn:Hr;
    try discriminate.
  exists r. cbn [Py.bind].
  assert (Hcasos :
    forall kind a b,
      Resp.responsable r = Some kind ->
      kind = "vehiculo_a" \/ kind = "vehiculo_b" \/ kind = "compartida" ->
      Resp.porcentaje_a r = Some a -> Resp.porcentaje_b r = Some b ->
      0 <= a <= 100 -> 0 <= b <= 100 ->
      exists res,
        (i <- Engine.calcular_indemnizacion_siniestro r poliza_a poliza_b danos ;;
         Ok (r, i)) = Ok (r, Some res)
        /\ Resumen.porcentaje_responsabilidad_a (Resultado.resumen res) = a
        /\ Resumen.porcentaje_responsabilidad_b (Resultado.resumen res) = b).
  { intros kind a b Hk Hkind Hpa Hpb Hra Hrb.
    destruct (calcular_indemnizacion_porcentajes r poliza_a poliza_b danos kind Hk)
      as (res & Hres & Hsa & Hsb); [rewrite Hpa; exact Hra | rewrite Hpb; exact Hrb | ].
    exists res. unfold Engine.calcular_indemnizacion_siniestro.
    rewrite Hk. cbn [Py.getitem Py.bind].
    replace (negb (existsb (String.eqb kind) ["no_aplica"; "indeterminado"]))
      with true
      by (destruct Hkind as [-> | [-> | ->]]; reflexivity).
    rewrite Hres. cbn [Py.bind]. rewrite Hpa in Hsa. rewrite Hpb in Hsb. auto. }
  destruct (determinar_responsabilidad_forma ca cb r Hr)
    as [(Hk & Hpa & Hpb & _) | [(Hk & Hpa & Hpb & _)
        | [(Hk & Hpa & Hpb & _) | ([Hk | Hk] & _)]]].
  - right. destruct (Hcasos _ 100 0 Hk) as (res & H1 & H2 & H3);
      auto; try lia.
    exists res, 100, 0. repeat split; auto.
  - right. destruct (Hcasos _ 0 100 Hk) as (res & H1 & H2 & H3);
      auto; try lia.
    exists res, 0, 100. repeat split; auto.
  - right. destruct (Hcasos _ 50 50 Hk) as (res & H1 & H2 & H3);
      auto; try lia.
    exists res, 50, 50. repeat split; auto.
  - left. split; [ | exact Hk].
    unfold Engine.calcular_indemnizacion_siniestro.
    rewrite Hk. reflexivity.
  - exfalso. rewrite Hk in Hcell.
    destruct (Resp.codigo_matriz r); discriminate.
Qed.

Lemma X17_witness :
  exists r res,
    responsabilidad_e_indemnizacion
      false 13 6 [] [] poliza_estandar poliza_estandar danos_b_un_millon
    = Ok (r, Some res)
    /\ Resp.responsable r = Some "vehiculo_a".
Proof.
  destruct (X17_undisputed_claim_in_range
              13 6 [] [] poliza_estandar poliza_estandar danos_b_un_millon
              ltac:(lia) ltac:(lia))
    as (r & [(Hnone & Hk) | (res & a & b & Hsome & _)]).
  - exfalso. vm_compute in Hnone. discriminate Hnone.
  - exists r, res.
    split; [exact Hsome | ].
    vm_compute in Hsome. inversion Hsome. reflexivity.
Defined.

(** X18: the error verdict of the matrix is not held back.  For an
    undisputed claim with a circumstance outside 1..15 the engine passes the
    error dict to the calculator, which takes both percentages as 0 and
    returns an indemnification. *)
Theorem X18_error_verdict_still_gets_an_indemnification
    (ca cb : Z) (docs : list Documento.t) (evs : list Evidencia.t)
    (poliza_a poliza_b : Poliza.t) (danos : Danos.t) :
  ~ (1 <= ca <= 15 /\ 1 <= cb <= 15) ->
  exists r res,
    responsabilidad_e_indemnizacion false ca cb docs evs poliza_a poliza_b danos
    = Ok (r, Some res)
    /\ Resp.responsable r = Some "error"
    /\ Resumen.porcentaje_responsabilidad_a (Resultado.resumen res) = 0
    /\ Resumen.porcentaje_responsabilidad_b (Resultado.resumen res) = 0.
Proof.
  intros Hout.
  unfold responsabilidad_e_indemnizacion,
    Engine.determinar_responsabilidad_siniestro.
  rewrite (determinar_responsabilidad_fuera_de_rango ca cb Hout).
  cbn [Py.bind].
  match goal with
  | |- context [Engine.calcular_indemnizacion_siniestro ?x _ _ _] =>
      destruct (calcular_indemnizacion_returns x poliza_a poliza_b danos "error"
                  eq_refl eq_refl eq_refl) as (res & Hres & Hsa & Hsb & _);
      exists x, res
  end.
  unfold Engine.calcular_indemnizacion_siniestro.
  cbn [Resp.responsable Py.getitem Py.bind]. 
  change (negb (existsb (String.eqb "error") ["no_aplica"; "indeterminado"]))
    with true. cbv iota.
  rewrite Hres. cbn [Py.bind]. auto.
Qed.

Lemma X18_witness :
  exists r res,
    responsabilidad_e_indemnizacion
      false 0 6 [] [] poliza_estandar poliza_estandar danos_b_un_millon
    = Ok (r, Some res)
    /\ Resp.responsable r = Some "error".
Proof.
  destruct (X18_error_verdict_still_gets_an_indemnification
              0 6 [] [] poliza_estandar poliza_estandar danos_b_un_millon
              ltac:(lia))
    as (r & res & H & Hk & _).
  exists r, res. split; [exact H | exact Hk].
Defined.

(** X19: what a processed evidence is worth to the negotiation.  An
    evidence the validator rejects is not counted.  A valid evidence that is
    not a photo is counted but brings no weight (its analysis is empty): the
    accumulated weights stay as they are and the count they are divided by
    grows by one.  A valid photo carries the output of the damage detector
    as its analysis. *)
Theorem X19_processed_evidence_in_the_aggregation
    (tipo : option string) (danos_detectados : Analisis.t)
    (peso_a peso_b : float) (total : Z) (evs : list Evidencia.t) :
  acumular_evidencia (peso_a, peso_b, total)
    (Procesamiento._procesar_evidencia tipo false danos_detectados)
  = (peso_a, peso_b, total)
  /\ (tipo <> Some "foto" ->
      acumular_evidencia (peso_a, peso_b, total)
        (Procesamiento._procesar_evidencia tipo true danos_detectados)
      = (peso_a, peso_b, total + 1))
  /\ (tipo = Some "foto" ->
      Procesamiento._procesar_evidencia tipo true danos_detectados
      = Evidencia.mk (Some true) (Some danos_detectados))
  /\ (tipo <> Some "foto" ->
      fold_left acumular_evidencia
        (evs ++ [Procesamiento._procesar_evidencia tipo true danos_detectados])
        (peso_a, peso_b, total)
      = (let '(a, b, n) :=
           fold_left acumular_evidencia evs (peso_a, peso_b, total) in
         (a, b, n + 1))).
Proof.
  assert (Hno_foto :
    tipo <> Some "foto" ->
    forall a b n,
      acumular_evidencia (a, b, n)
        (Procesamiento._procesar_evidencia tipo true danos_detectados)
      = (a, b, n + 1)).
  { intros Htipo a b n. unfold Procesamiento._procesar_evidencia.
    cbn [negb]. 
    destruct (String.eqb (default "desconocido" tipo) "foto") eqn:E.
    - exfalso. apply String.eqb_eq in E. destruct tipo as [t | ]; cbn in E.
      + subst t. apply Htipo. reflexivity.
      + discriminate E.
    - reflexivity. }
  split; [reflexivity | ]. split; [intros H; apply Hno_foto; exact H | ].
  split.
  - intros ->. reflexivity.
  - intros Htipo. rewrite fold_left_app. cbn [fold_left].
    destruct (fold_left acumular_evidencia evs (peso_a, peso_b, total))
      as [[a b] n].
    apply Hno_foto. exact Htipo.
Qed.

Lemma X19_witness :
  acumular_evidencia (0.25%float, 0.5%float, 2)
    (Procesamiento._procesar_evidencia (Some "video") true
       (Analisis.mk (Some "vehiculo_a") (Some 0.9%float)))
  = (0.25%float, 0.5%float, 2 + 1).
Proof.
  apply (proj1 (proj2 (X19_processed_evidence_in_the_aggregation
           (Some "video") (Analisis.mk (Some "vehiculo_a") (Some 0.9%float))
           0.25%float 0.5%float 2 []))).
  discriminate.
Defined.

End Motor.
